(** * openmun-opendata: country lookup, geodata models, canton enrichment

    A shallow embedding of the parts of the library that its specification
    makes checkable statements about:

    - [openmun_opendata/countries.py] over the bundled asset
      [generated/bfs/country_codes.py];
    - [openmun_opendata/geo/base.py] ([_fetch_or_fallback]);
    - [openmun_opendata/geo/models/postal_codes.py] and
      [openmun_opendata/geo/models/municipalities.py];
    - [openmun_opendata/geo/municipalities.py] ([_enrich_with_cantons]);
    - [importers/base.py] and [importers/bfs_country_importer.py].

    Python [str] values are represented by their UTF-8 encoding (a Rocq
    [string] is a sequence of bytes, and a literal in this file is the UTF-8
    text between the quotes). *)

From Stdlib Require Import ZArith NArith QArith Lia Bool.
From Stdlib Require Import Ascii.
From Stdlib Require String.
From stdpp Require Import base option list sorting strings gmap.

Local Open Scope Z_scope.

(** ** Python strings *)

Module Py.

Definition code (c : ascii) : N := N_of_ascii c.
Definition chr (n : N) : ascii := ascii_of_N n.

Definition byte_in (lo hi : N) (c : ascii) : bool :=
  ((lo <=? code c) && (code c <=? hi))%N.
Definition byte_is (n : N) (c : ascii) : bool := (code c =? n)%N.

Definition str_eqb (a b : string) : bool := Stdlib.Strings.String.eqb a b.

(** Truth value of a [str]: the empty string is false. *)
Definition truthy (s : string) : bool := negb (str_eqb s "").

(** Truth value of an [Optional[str]]. *)
Definition truthy_opt (o : option string) : bool :=
  match o with Some s => truthy s | None => false end.

(** [len(s)]: the number of code points, that is the bytes that are not
    UTF-8 continuation bytes. *)
Fixpoint len (s : string) : nat :=
  match s with
  | EmptyString => O
  | String c s' => ((if byte_in 128 191 c then 0 else 1) + len s')%nat
  end.

(** [a < b] on [str] is the lexicographic order on code points, which on
    UTF-8 text is the lexicographic order on bytes. *)
Definition str_ltb (a b : string) : bool := Stdlib.Strings.String.ltb a b.

Fixpoint startswith (s p : string) {struct p} : bool :=
  match p, s with
  | EmptyString, _ => true
  | String _ _, EmptyString => false
  | String a p', String b s' => Ascii.eqb a b && startswith s' p'
  end.

(** [needle in hay]. *)
Fixpoint contains (needle hay : string) : bool :=
  startswith hay needle ||
  match hay with
  | EmptyString => false
  | String _ hay' => contains needle hay'
  end.

(** [s.lower()].  [prev] is the byte before the current one.  Basic Latin
    [A-Z] and the Latin-1 capitals U+00C0..U+00DE (without U+00D7), encoded
    as 0xC3 followed by 0x80..0x9E, are moved to their lower-case letters;
    text outside U+0000..U+00FF is returned unchanged. *)
Fixpoint lower_from (prev : ascii) (s : string) : string :=
  match s with
  | EmptyString => EmptyString
  | String c s' =>
      let c' :=
        if byte_in 65 90 c then chr (code c + 32)
        else if byte_is 195 prev && byte_in 128 158 c && negb (byte_is 151 c)
             then chr (code c + 32)
        else c in
      String c' (lower_from c s')
  end.
Definition lower (s : string) : string := lower_from "000"%char s.

(** [s.upper()] on the same range: [a-z], the Latin-1 small letters
    U+00E0..U+00FE (without U+00F7), and the three Latin-1 letters whose
    capital lies elsewhere (sharp s, y with diaeresis, micro sign). *)
Fixpoint upper (s : string) : string :=
  match s with
  | EmptyString => EmptyString
  | String c s' =>
      if byte_in 97 122 c then String (chr (code c - 32)) (upper s')
      else
        match s' with
        | String d s'' =>
            if byte_is 195 c && byte_in 160 190 d && negb (byte_is 183 d)
            then String c (String (chr (code d - 32)) (upper s''))
            else if byte_is 195 c && byte_is 159 d
            then String "S" (String "S" (upper s''))
            else if byte_is 195 c && byte_is 191 d
            then String (chr 197) (String (chr 184) (upper s''))
            else if byte_is 194 c && byte_is 181 d
            then String (chr 206) (String (chr 156) (upper s''))
            else String c (upper s')
        | EmptyString => String c EmptyString
        end
  end.

(** The white space [str.strip()] removes: one code point at the head of
    [s], if it is white space, and the rest of [s]. *)
Definition drop_space (s : string) : option string :=
  match s with
  | String c s1 =>
      if byte_in 9 13 c || byte_in 28 32 c then Some s1
      else
        match s1 with
        | String d s2 =>
            if byte_is 194 c && (byte_is 133 d || byte_is 160 d) then Some s2
            else
              match s2 with
              | String e s3 =>
                  if (byte_is 225 c && byte_is 154 d && byte_is 128 e)
                     || (byte_is 226 c && byte_is 128 d &&
                         (byte_in 128 138 e || byte_is 168 e
                          || byte_is 169 e || byte_is 175 e))
                     || (byte_is 226 c && byte_is 129 d && byte_is 159 e)
                     || (byte_is 227 c && byte_is 128 d && byte_is 128 e)
                  then Some s3 else None
              | EmptyString => None
              end
        | EmptyString => None
        end
  | EmptyString => None
  end.

Fixpoint lstrip_fuel (fuel : nat) (s : string) : string :=
  match fuel with
  | O => s
  | S fuel' =>
      match drop_space s with
      | Some s' => lstrip_fuel fuel' s'
      | None => s
      end
  end.
Definition lstrip (s : string) : string :=
  lstrip_fuel (Stdlib.Strings.String.length s) s.

Definition isspace_all (s : string) : bool := str_eqb (lstrip s) "".

Fixpoint rstrip (s : string) : string :=
  match s with
  | EmptyString => EmptyString
  | String c s' => if isspace_all s then EmptyString else String c (rstrip s')
  end.

Definition strip (s : string) : string := rstrip (lstrip s).

(** [s.split(sep)] for a one-character separator. *)
Fixpoint split (sep : ascii) (s : string) : list string :=
  match s with
  | EmptyString => [EmptyString]
  | String c s' =>
      if Ascii.eqb c sep then EmptyString :: split sep s'
      else
        match split sep s' with
        | h :: t => String c h :: t
        | [] => [String c EmptyString]
        end
  end.

(** [s.replace(old, new)] for a one-character [old]. *)
Fixpoint replace (old : ascii) (new : string) (s : string) : string :=
  match s with
  | EmptyString => EmptyString
  | String c s' =>
      if Ascii.eqb c old then new +:+ replace old new s'
      else String c (replace old new s')
  end.

Definition is_digit (c : ascii) : bool := byte_in 48 57 c.
Definition is_upper_AZ (c : ascii) : bool := byte_in 65 90 c.
Definition is_lower_az (c : ascii) : bool := byte_in 97 122 c.
Definition is_ascii_letter (c : ascii) : bool := is_upper_AZ c || is_lower_az c.

Definition digit_val (c : ascii) : Z := Z.of_N (code c) - 48.

(** [str(n)] for an [int]. *)
Definition digit_chr (d : Z) : ascii := chr (Z.to_N (d + 48)).
Fixpoint str_of_nat_fuel (fuel : nat) (n : Z) (acc : string) : string :=
  match fuel with
  | O => acc
  | S fuel' =>
      let acc' := String (digit_chr (n mod 10)) acc in
      if n / 10 =? 0 then acc' else str_of_nat_fuel fuel' (n / 10) acc'
  end.
Definition str_of_int (n : Z) : string :=
  if n <? 0
  then String "-" (str_of_nat_fuel (S (Z.to_nat (Z.log2 (- n)))) (- n) EmptyString)
  else str_of_nat_fuel (S (Z.to_nat (Z.log2 n))) n EmptyString.

End Py.

(** ** The bundled asset: [generated/bfs/country_codes.py] *)

Module CountryCodes.

Record names := Names { de : string; fr : string; it : string; en : string }.

Record entry := Entry { bfs_code : string; iso3 : string; entry_names : names }.

(** An entry is a dict of three keys, hence never empty. *)
Definition entry_truthy (_ : entry) : bool := true.

(** [COUNTRY_CODES]: the dict literal in source order.  Its keys are pairwise
    distinct ([COUNTRY_CODES_keys_NoDup] below), so the first binding of a
    key is its only one. *)
Definition COUNTRY_CODES : list (string * entry) :=
  [
    ("AD", Entry "8202" "AND" (Names "Andorra" "Andorre" "Andorra" "Andorra"));
    ("AE", Entry "8532" "ARE" (Names "Vereinigte Arabische Emirate" "Emirats arabes unis" "Emirati arabi uniti" "United Arab Emirates"));
    ("AF", Entry "8501" "AFG" (Names "Afghanistan" "Afghanistan" "Afghanistan" "Afghanistan"));
    ("AG", Entry "8442" "ATG" (Names "Antigua und Barbuda" "Antigua-et-Barbuda" "Antigua e Barbuda" "Antigua and Barbuda"));
    ("AI", Entry "8446" "AIA" (Names "Anguilla" "Anguilla" "Anguilla" "Anguilla"));
    ("AL", Entry "8201" "ALB" (Names "Albanien" "Albanie" "Albania" "Albania"));
    ("AM", Entry "8560" "ARM" (Names "Armenien" "Arménie" "Armenia" "Armenia"));
    ("AO", Entry "8305" "AGO" (Names "Angola" "Angola" "Angola" "Angola"));
    ("AQ", Entry "8701" "ATA" (Names "Antarktis" "Antarctique" "Antartide" "Antarctica"));
    ("AR", Entry "8401" "ARG" (Names "Argentinien" "Argentine" "Argentina" "Argentina"));
    ("AS", Entry "8621" "ASM" (Names "Amerikanisch-Samoa" "Samoa américaines" "Samoa americane" "American Samoa"));
    ("AT", Entry "8229" "AUT" (Names "Österreich" "Autriche" "Austria" "Austria"));
    ("AU", Entry "8601" "AUS" (Names "Australien" "Australie" "Australia" "Australia"));
    ("AW", Entry "8482" "ABW" (Names "Aruba" "Aruba" "Aruba" "Aruba"));
    ("AX", Entry "8274" "ALA" (Names "Alandinseln" "Îles d'Aland" "Isole di Aland" "Aland Islands"));
    ("AZ", Entry "8561" "AZE" (Names "Aserbaidschan" "Azerbaïdjan" "Azerbaigian" "Azerbaijan"));
    ("BA", Entry "8252" "BIH" (Names "Bosnien und Herzegowina" "Bosnie et Herzégovine" "Bosnia e Erzegovina" "Bosnia and Herzegovina"));
    ("BB", Entry "8403" "BRB" (Names "Barbados" "Barbade" "Barbados" "Barbados"));
    ("BD", Entry "8546" "BGD" (Names "Bangladesch" "Bangladesh" "Bangladesh" "Bangladesh"));
    ("BE", Entry "8204" "BEL" (Names "Belgien" "Belgique" "Belgio" "Belgium"));
    ("BF", Entry "8337" "BFA" (Names "Burkina Faso" "Burkina Faso" "Burkina Faso" "Burkina Faso"));
    ("BG", Entry "8205" "BGR" (Names "Bulgarien" "Bulgarie" "Bulgaria" "Bulgaria"));
    ("BH", Entry "8502" "BHR" (Names "Bahrain" "Bahreïn" "Bahrein" "Bahrain"));
    ("BI", Entry "8308" "BDI" (Names "Burundi" "Burundi" "Burundi" "Burundi"));
    ("BJ", Entry "8309" "BEN" (Names "Benin" "Bénin" "Benin" "Benin"));
    ("BL", Entry "8449" "BLM" (Names "Saint-Barthélemy" "Saint-Barthélemy" "Saint-Barthélemy" "Saint Barthélemy"));
    ("BM", Entry "8404" "BMU" (Names "Bermuda" "Bermudes" "Bermuda" "Bermuda"));
    ("BN", Entry "8504" "BRN" (Names "Brunei Darussalam" "Brunéi Darussalam" "Brunei Darussalam" "Brunei"));
    ("BO", Entry "8405" "BOL" (Names "Bolivien" "Bolivie" "Bolivia" "Bolivia"));
    ("BQ", Entry "8486" "BES" (Names "Bonaire, Saint Eustatius und Saba" "Bonaire, Saint Eustatius et Saba" "Bonaire, Saint Eustatius e Saba" "Bonaire, Saint Eustatius and Saba"));
    ("BR", Entry "8406" "BRA" (Names "Brasilien" "Brésil" "Brasile" "Brazil"));
    ("BS", Entry "8402" "BHS" (Names "Bahamas" "Bahamas" "Bahamas" "Bahamas"));
    ("BT", Entry "8503" "BTN" (Names "Bhutan" "Bhoutan" "Bhutan" "Bhutan"));
    ("BV", Entry "8702" "BVT" (Names "Bouvetinsel" "Île Bouvet" "Isola Bouvet" "Bouvet Island"));
    ("BW", Entry "8307" "BWA" (Names "Botsuana" "Botswana" "Botswana" "Botswana"));
    ("BY", Entry "8266" "BLR" (Names "Belarus" "Bélarus" "Belarus" "Belarus"));
    ("BZ", Entry "8419" "BLZ" (Names "Belize" "Belize" "Belize" "Belize"));
    ("CA", Entry "8423" "CAN" (Names "Kanada" "Canada" "Canada" "Canada"));
    ("CC", Entry "8652" "CCK" (Names "Kokosinseln" "Îles Cocos (Keeling)" "Isole Cocos" "Cocos (Keeling) Islands"));
    ("CD", Entry "8323" "COD" (Names "Kongo (Kinshasa)" "Congo (Kinshasa)" "Congo (Kinshasa)" "Congo (Kinshasa)"));
    ("CF", Entry "8360" "CAF" (Names "Zentralafrikanische Republik" "République centrafricaine" "Repubblica centrafricana" "Central African Republic"));
    ("CG", Entry "8322" "COG" (Names "Kongo (Brazzaville)" "Congo (Brazzaville)" "Congo (Brazzaville)" "Congo (Brazzaville)"));
    ("CH", Entry "8100" "CHE" (Names "Schweiz" "Suisse" "Svizzera" "Switzerland"));
    ("CI", Entry "8310" "CIV" (Names "Côte d'Ivoire" "Côte d'Ivoire" "Côte d'Ivoire" "Côte d'Ivoire"));
    ("CK", Entry "8682" "COK" (Names "Cookinseln" "Îles Cook" "Isole Cook" "Cook Islands"));
    ("CL", Entry "8407" "CHL" (Names "Chile" "Chili" "Cile" "Chile"));
    ("CM", Entry "8317" "CMR" (Names "Kamerun" "Cameroun" "Camerun" "Cameroon"));
    ("CN", Entry "8508" "CHN" (Names "China" "Chine" "Cina" "China"));
    ("CO", Entry "8424" "COL" (Names "Kolumbien" "Colombie" "Colombia" "Colombia"));
    ("CR", Entry "8408" "CRI" (Names "Costa Rica" "Costa Rica" "Costa Rica" "Costa Rica"));
    ("CU", Entry "8425" "CUB" (Names "Kuba" "Cuba" "Cuba" "Cuba"));
    ("CV", Entry "8319" "CPV" (Names "Cabo Verde" "Cabo Verde" "Cabo Verde" "Cabo Verde"));
    ("CW", Entry "8484" "CUW" (Names "Curaçao" "Curaçao" "Curaçao" "Curaçao"));
    ("CX", Entry "8655" "CXR" (Names "Weihnachtsinsel" "Île Christmas (Australie)" "Isola Christmas" "Christmas Island"));
    ("CY", Entry "8242" "CYP" (Names "Zypern" "Chypre" "Cipro" "Cyprus"));
    ("CZ", Entry "8244" "CZE" (Names "Tschechien" "Tchéquie" "Cechia" "Czechia"));
    ("DE", Entry "8207" "DEU" (Names "Deutschland" "Allemagne" "Germania" "Germany"));
    ("DJ", Entry "8303" "DJI" (Names "Dschibuti" "Djibouti" "Gibuti" "Djibouti"));
    ("DK", Entry "8206" "DNK" (Names "Dänemark" "Danemark" "Danimarca" "Denmark"));
    ("DM", Entry "8440" "DMA" (Names "Dominica" "Dominique" "Dominica" "Dominica"));
    ("DO", Entry "8409" "DOM" (Names "Dominikanische Republik" "République dominicaine" "Repubblica dominicana" "Dominican Republic"));
    ("DZ", Entry "8304" "DZA" (Names "Algerien" "Algérie" "Algeria" "Algeria"));
    ("EC", Entry "8410" "ECU" (Names "Ecuador" "Équateur" "Ecuador" "Ecuador"));
    ("EE", Entry "8260" "EST" (Names "Estland" "Estonie" "Estonia" "Estonia"));
    ("EG", Entry "8359" "EGY" (Names "Ägypten" "Égypte" "Egitto" "Egypt"));
    ("EH", Entry "8372" "ESH" (Names "Westsahara" "Sahara Occidental" "Sahara Occidentale" "Western Sahara"));
    ("ER", Entry "8362" "ERI" (Names "Eritrea" "Érythrée" "Eritrea" "Eritrea"));
    ("ES", Entry "8236" "ESP" (Names "Spanien" "Espagne" "Spagna" "Spain"));
    ("ET", Entry "8302" "ETH" (Names "Äthiopien" "Éthiopie" "Etiopia" "Ethiopia"));
    ("FI", Entry "8211" "FIN" (Names "Finnland" "Finlande" "Finlandia" "Finland"));
    ("FJ", Entry "8602" "FJI" (Names "Fidschi" "Fidji" "Figi" "Fiji"));
    ("FK", Entry "8412" "FLK" (Names "Falklandinseln" "Îles Falkland" "Isole Falkland" "Falkland Islands"));
    ("FM", Entry "8618" "FSM" (Names "Mikronesien" "Micronésie" "Micronesia" "Micronesia"));
    ("FO", Entry "8210" "FRO" (Names "Färöer" "Îles Féroé" "Isole Faer Oer" "Faeroe Islands"));
    ("FR", Entry "8212" "FRA" (Names "Frankreich" "France" "Francia" "France"));
    ("GA", Entry "8311" "GAB" (Names "Gabun" "Gabon" "Gabon" "Gabon"));
    ("GB", Entry "8215" "GBR" (Names "Vereinigtes Königreich" "Royaume-Uni" "Regno Unito" "United Kingdom"));
    ("GD", Entry "8441" "GRD" (Names "Grenada" "Grenade" "Grenada" "Grenada"));
    ("GE", Entry "8562" "GEO" (Names "Georgien" "Géorgie" "Georgia" "Georgia"));
    ("GF", Entry "8416" "GUF" (Names "Französisch-Guayana" "Guyane Française" "Guiana Francese" "French Guyana"));
    ("GG", Entry "8272" "GGY" (Names "Guernsey" "Guernesey" "Guernsey" "Guernsey"));
    ("GH", Entry "8313" "GHA" (Names "Ghana" "Ghana" "Ghana" "Ghana"));
    ("GI", Entry "8213" "GIB" (Names "Gibraltar" "Gibraltar" "Gibilterra" "Gibraltar"));
    ("GL", Entry "8413" "GRL" (Names "Grönland" "Groenland" "Groenlandia" "Greenland"));
    ("GM", Entry "8312" "GMB" (Names "Gambia" "Gambie" "Gambia" "Gambia"));
    ("GN", Entry "8315" "GIN" (Names "Guinea" "Guinée" "Guinea" "Guinea"));
    ("GP", Entry "8414" "GLP" (Names "Guadeloupe" "Guadeloupe" "Guadalupa" "Guadeloupe"));
    ("GQ", Entry "8301" "GNQ" (Names "Äquatorialguinea" "Guinée équatoriale" "Guinea equatoriale" "Equatorial Guinea"));
    ("GR", Entry "8214" "GRC" (Names "Griechenland" "Grèce" "Grecia" "Greece"));
    ("GS", Entry "8483" "SGS" (Names "Südgeorgien und Südliche Sandwichinseln" "Géorgie du Sud et Îles Sandwich du Sud" "Isole Georgia del Sud e Sandwich del Sud" "South Georgia and the South Sandwich Islands"));
    ("GT", Entry "8415" "GTM" (Names "Guatemala" "Guatemala" "Guatemala" "Guatemala"));
    ("GU", Entry "8632" "GUM" (Names "Guam" "Guam" "Guam" "Guam"));
    ("GW", Entry "8314" "GNB" (Names "Guinea-Bissau" "Guinée-Bissau" "Guinea-Bissau" "Guinea-Bissau"));
    ("GY", Entry "8417" "GUY" (Names "Guyana" "Guyana" "Guyana" "Guyana"));
    ("HK", Entry "8509" "HKG" (Names "Hongkong" "Hong Kong" "Hong Kong" "Hong Kong"));
    ("HM", Entry "8653" "HMD" (Names "Heard und McDonaldinseln" "Îles-Heard-et-McDonald" "Isole Heard e McDonald" "Heard Island and McDonald Islands"));
    ("HN", Entry "8420" "HND" (Names "Honduras" "Honduras" "Honduras" "Honduras"));
    ("HR", Entry "8250" "HRV" (Names "Kroatien" "Croatie" "Croazia" "Croatia"));
    ("HT", Entry "8418" "HTI" (Names "Haiti" "Haïti" "Haiti" "Haiti"));
    ("HU", Entry "8240" "HUN" (Names "Ungarn" "Hongrie" "Ungheria" "Hungary"));
    ("ID", Entry "8511" "IDN" (Names "Indonesien" "Indonésie" "Indonesia" "Indonesia"));
    ("IE", Entry "8216" "IRL" (Names "Irland" "Irlande" "Irlanda" "Ireland"));
    ("IL", Entry "8514" "ISR" (Names "Israel" "Israël" "Israele" "Israel"));
    ("IM", Entry "8225" "IMN" (Names "Insel Man" "Île de Man" "Isola di Man" "Isle of Man"));
    ("IN", Entry "8510" "IND" (Names "Indien" "Inde" "India" "India"));
    ("IO", Entry "8371" "IOT" (Names "Britische Territorien im Indischen Ozean" "Territoires britanniques dans l'océan indien" "Territori britannici nell'oceano indiano" "British Territories in the Indian Ocean"));
    ("IQ", Entry "8512" "IRQ" (Names "Irak" "Irak" "Iraq" "Iraq"));
    ("IR", Entry "8513" "IRN" (Names "Iran" "Iran" "Iran" "Iran"));
    ("IS", Entry "8217" "ISL" (Names "Island" "Islande" "Islanda" "Iceland"));
    ("IT", Entry "8218" "ITA" (Names "Italien" "Italie" "Italia" "Italy"));
    ("JE", Entry "8271" "JEY" (Names "Jersey" "Jersey" "Jersey" "Jersey"));
    ("JM", Entry "8421" "JAM" (Names "Jamaika" "Jamaïque" "Giamaica" "Jamaica"));
    ("JO", Entry "8517" "JOR" (Names "Jordanien" "Jordanie" "Giordania" "Jordan"));
    ("JP", Entry "8515" "JPN" (Names "Japan" "Japon" "Giappone" "Japan"));
    ("KE", Entry "8320" "KEN" (Names "Kenia" "Kenya" "Kenia" "Kenya"));
    ("KG", Entry "8564" "KGZ" (Names "Kirgisistan" "Kirghizistan" "Kirghizistan" "Kyrgyzstan"));
    ("KH", Entry "8518" "KHM" (Names "Kambodscha" "Cambodge" "Cambogia" "Cambodia"));
    ("KI", Entry "8616" "KIR" (Names "Kiribati" "Kiribati" "Kiribati" "Kiribati"));
    ("KM", Entry "8321" "COM" (Names "Komoren" "Comores" "Comore" "Comoros"));
    ("KN", Entry "8445" "KNA" (Names "St. Kitts und Nevis" "Saint-Kitts-et-Nevis" "Saint Kitts e Nevis" "Saint Kitts and Nevis"));
    ("KP", Entry "8530" "PRK" (Names "Korea (Nord-)" "Corée (Nord)" "Corea (Nord)" "North Korea"));
    ("KR", Entry "8539" "KOR" (Names "Korea (Süd-)" "Corée (Sud)" "Corea (Sud)" "South Korea"));
    ("KW", Entry "8521" "KWT" (Names "Kuwait" "Koweït" "Kuwait" "Kuwait"));
    ("KY", Entry "8473" "CYM" (Names "Kaimaninseln" "Îles Cayman" "Isole Cayman" "Cayman Islands"));
    ("KZ", Entry "8563" "KAZ" (Names "Kasachstan" "Kazakhstan" "Kazakstan" "Kazakhstan"));
    ("LA", Entry "8522" "LAO" (Names "Laos" "Laos" "Laos" "Laos"));
    ("LB", Entry "8523" "LBN" (Names "Libanon" "Liban" "Libano" "Lebanon"));
    ("LC", Entry "8443" "LCA" (Names "St. Lucia" "Sainte-Lucie" "Saint Lucia" "Saint Lucia"));
    ("LI", Entry "8222" "LIE" (Names "Liechtenstein" "Liechtenstein" "Liechtenstein" "Liechtenstein"));
    ("LK", Entry "8506" "LKA" (Names "Sri Lanka" "Sri Lanka" "Sri Lanka" "Sri Lanka"));
    ("LR", Entry "8325" "LBR" (Names "Liberia" "Libéria" "Liberia" "Liberia"));
    ("LS", Entry "8324" "LSO" (Names "Lesotho" "Lesotho" "Lesotho" "Lesotho"));
    ("LT", Entry "8262" "LTU" (Names "Litauen" "Lituanie" "Lituania" "Lithuania"));
    ("LU", Entry "8223" "LUX" (Names "Luxemburg" "Luxembourg" "Lussemburgo" "Luxembourg"));
    ("LV", Entry "8261" "LVA" (Names "Lettland" "Lettonie" "Lettonia" "Latvia"));
    ("LY", Entry "8326" "LBY" (Names "Libyen" "Libye" "Libia" "Libya"));
    ("MA", Entry "8331" "MAR" (Names "Marokko" "Maroc" "Marocco" "Morocco"));
    ("MC", Entry "8226" "MCO" (Names "Monaco" "Monaco" "Monaco" "Monaco"));
    ("MD", Entry "8263" "MDA" (Names "Moldova" "Moldova" "Moldova" "Moldova"));
    ("ME", Entry "8254" "MNE" (Names "Montenegro" "Monténégro" "Montenegro" "Montenegro"));
    ("MF", Entry "8448" "MAF" (Names "Saint-Martin (Frankreich)" "Saint-Martin (France)" "Saint-Martin (Francia)" "Saint Martin (France)"));
    ("MG", Entry "8327" "MDG" (Names "Madagaskar" "Madagascar" "Madagascar" "Madagascar"));
    ("MH", Entry "8617" "MHL" (Names "Marshallinseln" "Îles Marshall" "Isole Marshall" "Marshall Islands"));
    ("MK", Entry "8255" "MKD" (Names "Mazedonien" "Macédoine" "Macedonia" "Macedonia"));
    ("ML", Entry "8330" "MLI" (Names "Mali" "Mali" "Mali" "Mali"));
    ("MM", Entry "8505" "MMR" (Names "Myanmar" "Myanmar" "Myanmar" "Myanmar"));
    ("MN", Entry "8528" "MNG" (Names "Mongolei" "Mongolie" "Mongolia" "Mongolia"));
    ("MO", Entry "8524" "MAC" (Names "Macao" "Macao" "Macao" "Macao"));
    ("MP", Entry "8630" "MNP" (Names "Nördliche Marianen" "Mariannes du Nord" "Marianne del Nord" "Northern Marianas"));
    ("MQ", Entry "8426" "MTQ" (Names "Martinique" "Martinique" "Martinica" "Martinique"));
    ("MR", Entry "8332" "MRT" (Names "Mauretanien" "Mauritanie" "Mauritania" "Mauritania"));
    ("MS", Entry "8475" "MSR" (Names "Montserrat" "Montserrat" "Monserrat" "Montserrat"));
    ("MT", Entry "8224" "MLT" (Names "Malta" "Malte" "Malta" "Malta"));
    ("MU", Entry "8333" "MUS" (Names "Mauritius" "Maurice" "Maurizio" "Mauritius"));
    ("MV", Entry "8526" "MDV" (Names "Malediven" "Maldives" "Maldive" "Maldives"));
    ("MW", Entry "8329" "MWI" (Names "Malawi" "Malawi" "Malawi" "Malawi"));
    ("MX", Entry "8427" "MEX" (Names "Mexiko" "Mexique" "Messico" "Mexico"));
    ("MY", Entry "8525" "MYS" (Names "Malaysia" "Malaisie" "Malaysia" "Malaysia"));
    ("MZ", Entry "8334" "MOZ" (Names "Mosambik" "Mozambique" "Mozambico" "Mozambique"));
    ("NA", Entry "8351" "NAM" (Names "Namibia" "Namibie" "Namibia" "Namibia"));
    ("NC", Entry "8606" "NCL" (Names "Neukaledonien" "Nouvelle-Calédonie" "Nuova Caledonia" "New Caledonia"));
    ("NE", Entry "8335" "NER" (Names "Niger" "Niger" "Niger" "Niger"));
    ("NF", Entry "8654" "NFK" (Names "Norfolkinsel" "Île Norfolk" "Isola Norfolk" "Norfolk Island"));
    ("NG", Entry "8336" "NGA" (Names "Nigeria" "Nigéria" "Nigeria" "Nigeria"));
    ("NI", Entry "8429" "NIC" (Names "Nicaragua" "Nicaragua" "Nicaragua" "Nicaragua"));
    ("NL", Entry "8227" "NLD" (Names "Niederlande" "Pays-Bas" "Paesi Bassi" "Netherlands"));
    ("NO", Entry "8228" "NOR" (Names "Norwegen" "Norvège" "Norvegia" "Norway"));
    ("NP", Entry "8529" "NPL" (Names "Nepal" "Népal" "Nepal" "Nepal"));
    ("NR", Entry "8604" "NRU" (Names "Nauru" "Nauru" "Nauru" "Nauru"));
    ("NU", Entry "8683" "NIU" (Names "Niue" "Nioué" "Niue" "Niue"));
    ("NZ", Entry "8607" "NZL" (Names "Neuseeland" "Nouvelle-Zélande" "Nuova Zelanda" "New Zealand"));
    ("OM", Entry "8527" "OMN" (Names "Oman" "Oman" "Oman" "Oman"));
    ("PA", Entry "8430" "PAN" (Names "Panama" "Panama" "Panama" "Panama"));
    ("PE", Entry "8432" "PER" (Names "Peru" "Pérou" "Perù" "Peru"));
    ("PF", Entry "8671" "PYF" (Names "Französisch-Polynesien" "Polynésie française" "Polinesia francese" "French Polynesia"));
    ("PG", Entry "8608" "PNG" (Names "Papua-Neuguinea" "Papouasie-Nouvelle-Guinée" "Papua Nuova Guinea" "Papua New Guinea"));
    ("PH", Entry "8534" "PHL" (Names "Philippinen" "Philippines" "Filippine" "Philippines"));
    ("PK", Entry "8533" "PAK" (Names "Pakistan" "Pakistan" "Pakistan" "Pakistan"));
    ("PL", Entry "8230" "POL" (Names "Polen" "Pologne" "Polonia" "Poland"));
    ("PM", Entry "8434" "SPM" (Names "St. Pierre und Miquelon" "Saint-Pierre-et-Miquelon" "Saint-Pierre e Miquelon" "Saint Pierre and Miquelon"));
    ("PN", Entry "8685" "PCN" (Names "Pitcairninseln" "Îles Pitcairn" "Isole Pitcairn" "Pitcairn Islands"));
    ("PR", Entry "8433" "PRI" (Names "Puerto Rico" "Porto Rico" "Portorico" "Puerto Rico"));
    ("PS", Entry "8550" "PSE" (Names "Palästina" "Palestine" "Palestina" "Palestine"));
    ("PT", Entry "8231" "PRT" (Names "Portugal" "Portugal" "Portogallo" "Portugal"));
    ("PW", Entry "8619" "PLW" (Names "Palau" "Palaos" "Palau" "Palau"));
    ("PY", Entry "8431" "PRY" (Names "Paraguay" "Paraguay" "Paraguay" "Paraguay"));
    ("QA", Entry "8519" "QAT" (Names "Katar" "Qatar" "Qatar" "Qatar"));
    ("RE", Entry "8339" "REU" (Names "Reunion" "Réunion" "Riunione" "Réunion"));
    ("RO", Entry "8232" "ROU" (Names "Rumänien" "Roumanie" "Romania" "Romania"));
    ("RS", Entry "8248" "SRB" (Names "Serbien" "Serbie" "Serbia" "Serbia"));
    ("RU", Entry "8264" "RUS" (Names "Russland" "Russie" "Russia" "Russia"));
    ("RW", Entry "8341" "RWA" (Names "Ruanda" "Rwanda" "Ruanda" "Rwanda"));
    ("SA", Entry "8535" "SAU" (Names "Saudi-Arabien" "Arabie saoudite" "Arabia Saudita" "Saudi Arabia"));
    ("SB", Entry "8614" "SLB" (Names "Salomoninseln" "Îles Salomon" "Isole Salomone" "Solomon Islands"));
    ("SC", Entry "8346" "SYC" (Names "Seychellen" "Seychelles" "Seicelle" "Seychelles"));
    ("SD", Entry "8350" "SDN" (Names "Sudan" "Soudan" "Sudan" "Sudan"));
    ("SE", Entry "8234" "SWE" (Names "Schweden" "Suède" "Svezia" "Sweden"));
    ("SG", Entry "8537" "SGP" (Names "Singapur" "Singapour" "Singapore" "Singapore"));
    ("SH", Entry "8375" "SHN" (Names "Tristan da Cunha" "Tristan da Cunha" "Tristan da Cunha" "Tristan da Cunha"));
    ("SI", Entry "8251" "SVN" (Names "Slowenien" "Slovénie" "Slovenia" "Slovenia"));
    ("SJ", Entry "8273" "SJM" (Names "Svalbard und Jan Mayen" "Svalbard et Île Jan Mayen" "Svalbard e Jan Mayen" "Svalbard and Jan Mayen"));
    ("SK", Entry "8243" "SVK" (Names "Slowakei" "Slovaquie" "Slovacchia" "Slovakia"));
    ("SL", Entry "8347" "SLE" (Names "Sierra Leone" "Sierra Leone" "Sierra Leone" "Sierra Leone"));
    ("SM", Entry "8233" "SMR" (Names "San Marino" "Saint-Marin" "San Marino" "San Marino"));
    ("SN", Entry "8345" "SEN" (Names "Senegal" "Sénégal" "Senegal" "Senegal"));
    ("SO", Entry "8348" "SOM" (Names "Somalia" "Somalie" "Somalia" "Somalia"));
    ("SR", Entry "8435" "SUR" (Names "Suriname" "Suriname" "Suriname" "Suriname"));
    ("SS", Entry "8363" "SSD" (Names "Südsudan" "Soudan du Sud" "Sudan del Sud" "South Sudan"));
    ("ST", Entry "8344" "STP" (Names "São Tomé und Príncipe" "Sao Tomé-et-Principe" "São Tomé e Príncipe" "São Tomé and Príncipe"));
    ("SV", Entry "8411" "SLV" (Names "El Salvador" "El Salvador" "El Salvador" "El Salvador"));
    ("SX", Entry "8485" "SXM" (Names "Sint Maarten (Niederlande)" "Sint Maarten (Pays-Bas)" "Sint Maarten (Paesi Bassi)" "Sint Maarten (Netherlands)"));
    ("SY", Entry "8541" "SYR" (Names "Syrien" "Syrie" "Siria" "Syria"));
    ("SZ", Entry "8352" "SWZ" (Names "Swasiland" "Swaziland" "Swaziland" "Swaziland"));
    ("TC", Entry "8474" "TCA" (Names "Turks- und Caicosinseln" "Îles Turques et Caïques" "Isole Turks e Caicos" "Turks and Caicos Islands"));
    ("TD", Entry "8356" "TCD" (Names "Tschad" "Tchad" "Ciad" "Chad"));
    ("TF", Entry "8703" "ATF" (Names "Französische Süd- und Antarktisgebiete" "Terres australes et antarctiques françaises" "Territori delle terre australi e antartiche francesi" "French Southern and Antarctic Lands"));
    ("TG", Entry "8354" "TGO" (Names "Togo" "Togo" "Togo" "Togo"));
    ("TH", Entry "8542" "THA" (Names "Thailand" "Thaïlande" "Thailandia" "Thailand"));
    ("TJ", Entry "8565" "TJK" (Names "Tadschikistan" "Tadjikistan" "Tagikistan" "Tajikistan"));
    ("TK", Entry "8684" "TKL" (Names "Tokelau" "Tokélau" "Tokelau" "Tokelau"));
    ("TL", Entry "8547" "TLS" (Names "Timor-Leste" "Timor-Leste" "Timor-Leste" "Timor-Leste"));
    ("TM", Entry "8566" "TKM" (Names "Turkmenistan" "Turkménistan" "Turkmenistan" "Turkmenistan"));
    ("TN", Entry "8357" "TUN" (Names "Tunesien" "Tunisie" "Tunisia" "Tunisia"));
    ("TO", Entry "8610" "TON" (Names "Tonga" "Tonga" "Tonga" "Tonga"));
    ("TR", Entry "8239" "TUR" (Names "Türkei" "Turquie" "Turchia" "Turkey"));
    ("TT", Entry "8436" "TTO" (Names "Trinidad und Tobago" "Trinité-et-Tobago" "Trinidad e Tobago" "Trinidad and Tobago"));
    ("TV", Entry "8615" "TUV" (Names "Tuvalu" "Tuvalu" "Tuvalu" "Tuvalu"));
    ("TW", Entry "8507" "TWN" (Names "Taiwan (Chinesisches Taipei)" "Taïwan (Taipei chinois)" "Taiwan (Taipei cinese)" "Taiwan (Chinese Taipei)"));
    ("TZ", Entry "8353" "TZA" (Names "Tansania" "Tanzanie" "Tanzania" "Tanzania"));
    ("UA", Entry "8265" "UKR" (Names "Ukraine" "Ukraine" "Ucraina" "Ukraine"));
    ("UG", Entry "8358" "UGA" (Names "Uganda" "Ouganda" "Uganda" "Uganda"));
    ("UM", Entry "8636" "UMI" (Names "Wakeinsel" "Île Wake" "Isola Wake" "Wake Island"));
    ("US", Entry "8439" "USA" (Names "Vereinigte Staaten" "États-Unis" "Stati Uniti" "United States"));
    ("UY", Entry "8437" "URY" (Names "Uruguay" "Uruguay" "Uruguay" "Uruguay"));
    ("UZ", Entry "8567" "UZB" (Names "Usbekistan" "Ouzbékistan" "Uzbekistan" "Uzbekistan"));
    ("VA", Entry "8241" "VAT" (Names "Vatikanstadt" "Cité du Vatican" "Città del Vaticano" "Vatican City"));
    ("VC", Entry "8444" "VCT" (Names "St. Vincent und die Grenadinen" "Saint-Vincent-et-les Grenadines" "Saint Vincent e Grenadine" "Saint Vincent and the Grenadines"));
    ("VE", Entry "8438" "VEN" (Names "Venezuela" "Venezuela" "Venezuela" "Venezuela"));
    ("VG", Entry "8476" "VGB" (Names "Jungferninseln (UK)" "Îles Vierges britanniques" "Isole Vergini britanniche" "British Virgin Islands"));
    ("VI", Entry "8472" "VIR" (Names "Jungferninseln (USA)" "Îles Vierges américaines" "Isole Vergini americane" "US Virgin Islands"));
    ("VN", Entry "8545" "VNM" (Names "Vietnam" "Vietnam" "Vietnam" "Vietnam"));
    ("VU", Entry "8605" "VUT" (Names "Vanuatu" "Vanuatu" "Vanuatu" "Vanuatu"));
    ("WF", Entry "8611" "WLF" (Names "Wallis und Futuna" "Wallis-et-Futuna" "Wallis e Futuna" "Wallis and Futuna"));
    ("WS", Entry "8612" "WSM" (Names "Samoa" "Samoa" "Samoa" "Samoa"));
    ("YE", Entry "8516" "YEM" (Names "Jemen" "Yémen" "Yemen" "Yemen"));
    ("YT", Entry "8361" "MYT" (Names "Mayotte" "Mayotte" "Mayotte" "Mayotte"));
    ("ZA", Entry "8349" "ZAF" (Names "Südafrika" "Afrique du Sud" "Sudafrica" "South Africa"));
    ("ZM", Entry "8343" "ZMB" (Names "Sambia" "Zambie" "Zambia" "Zambia"));
    ("ZW", Entry "8340" "ZWE" (Names "Simbabwe" "Zimbabwe" "Zimbabwe" "Zimbabwe"))
  ].

(** [d.get(k)]. *)
Fixpoint dict_get {V} (d : list (string * V)) (k : string) : option V :=
  match d with
  | [] => None
  | (k', v) :: d' => if Py.str_eqb k' k then Some v else dict_get d' k
  end.

(** [d.keys()], in insertion order. *)
Definition dict_keys {V} (d : list (string * V)) : list string := d.*1.

End CountryCodes.

(** ** [openmun_opendata/countries.py] *)

Module Countries.
Import CountryCodes.

Record Country := mkCountry {
  iso2 : string;
  bfs_code : string;
  iso3 : string;
  name_de : string;
  name_fr : string;
  name_it : string;
  name_en : string
}.

(** [Country.get_name]: [names.get(language, self.name_de)]. *)
Definition get_name (self : Country) (language : string) : string :=
  if Py.str_eqb language "de" then name_de self
  else if Py.str_eqb language "fr" then name_fr self
  else if Py.str_eqb language "it" then name_it self
  else if Py.str_eqb language "en" then name_en self
  else name_de self.

Section WithAsset.
(** The functions read the module-level [COUNTRY_CODES]. *)
Variable asset : list (string * entry).

Definition get_country_in (iso_code : string) : option Country :=
  match dict_get asset (Py.upper iso_code) with
  | Some data =>
      if entry_truthy data then
        Some {| iso2 := Py.upper iso_code;
                bfs_code := CountryCodes.bfs_code data;
                iso3 := CountryCodes.iso3 data;
                name_de := de (entry_names data);
                name_fr := fr (entry_names data);
                name_it := it (entry_names data);
                name_en := en (entry_names data) |}
      else None
  | None => None
  end.

(** [sorted(xs)] on strings: a stable insertion sort by [<]. *)
Fixpoint insert_sorted (x : string) (xs : list string) : list string :=
  match xs with
  | [] => [x]
  | y :: ys => if Py.str_ltb x y then x :: y :: ys else y :: insert_sorted x ys
  end.
Definition sorted (xs : list string) : list string :=
  foldr (fun x acc => insert_sorted x acc) [] (reverse xs).

Definition get_all_countries_in : list Country :=
  foldl (fun countries iso2 =>
           match get_country_in iso2 with
           | Some country => countries ++ [country]
           | None => countries
           end)
        [] (sorted (dict_keys asset)).

Definition search_countries_in (query language : string) : list Country :=
  let query_lower := Py.lower query in
  foldl (fun results country =>
           let name := get_name country language in
           if Py.contains query_lower (Py.lower name)
           then results ++ [country] else results)
        [] get_all_countries_in.
End WithAsset.

Definition get_country := get_country_in COUNTRY_CODES.
Definition get_all_countries := get_all_countries_in COUNTRY_CODES.
Definition search_countries := search_countries_in COUNTRY_CODES.

End Countries.

(** ** Exceptions and results *)

(** The outcome of a Python call: a value, or a raised exception. *)
Inductive outcome (E A : Type) : Type :=
| Return (a : A)
| Raise (e : E).
Arguments Return {E A} a.
Arguments Raise {E A} e.

Definition bind {E A B} (m : outcome E A) (k : A -> outcome E B) : outcome E B :=
  match m with
  | Return a => k a
  | Raise e => Raise e
  end.

(** [try: body except <handled>: handler]. *)
Definition try_except {E A} (body : outcome E A) (handled : E -> bool)
    (handler : E -> outcome E A) : outcome E A :=
  match body with
  | Return a => Return a
  | Raise e => if handled e then handler e else Raise e
  end.

Declare Scope py_scope.
Delimit Scope py_scope with py.
Notation "x <- m ;; k" := (bind m (fun x => k))
  (at level 100, m at next level, right associativity) : py_scope.

(** ** [openmun_opendata/geo/base.py] *)

Module GeoBase.

(** The exception classes of the module, and any other class by name. *)
Inductive exn_class :=
| GeoAPIError
| RemoteFetchError
| NoFallbackDataError
| OtherException (name : string).

(** An exception instance: its class and [str(e)]. *)
Record exn := Exn { exn_cls : exn_class; exn_str : string }.

(** [except RemoteFetchError] and [except NoFallbackDataError]: both
    classes derive from [GeoAPIError] and have no subclasses. *)
Definition is_RemoteFetchError (e : exn) : bool :=
  match exn_cls e with RemoteFetchError => true | _ => false end.
Definition is_NoFallbackDataError (e : exn) : bool :=
  match exn_cls e with NoFallbackDataError => true | _ => false end.

(** The part of a [BaseGeoAPI] instance set by [__init__]. *)
Record BaseGeoAPI := {
  fallback_allowed : bool;
  cache_dir : string;
  sources_dir : string
}.

(** A callable without arguments acting on the world [W] (network, files):
    it returns or raises, and leaves a new world. *)
Definition action (W A : Type) : Type := W -> outcome exn A * W.

Section FetchOrFallback.
Context {W A : Type}.

Definition _fetch_or_fallback (self : BaseGeoAPI)
    (fetch_func fallback_func : action W A) (error_context : string)
    : action W A :=
  fun w =>
    match fetch_func w with
    | (Return a, w1) => (Return a, w1)
    | (Raise e, w1) =>
        if is_RemoteFetchError e then
          if negb (fallback_allowed self) then
            (Raise (Exn NoFallbackDataError
               ("Failed to fetch " +:+ error_context +:+
                " from remote API and fallback not allowed. " +:+
                "Use fallback_allowed=True to use cached data. Error: " +:+
                exn_str e)), w1)
          else
            match fallback_func w1 with
            | (Return a, w2) => (Return a, w2)
            | (Raise e2, w2) =>
                if is_NoFallbackDataError e2 then
                  (Raise (Exn NoFallbackDataError
                     ("Failed to fetch " +:+ error_context +:+
                      " from remote API and no fallback data available. " +:+
                      "Original error: " +:+ exn_str e)), w2)
                else (Raise e2, w2)
            end
        else (Raise e, w1)
    end.
End FetchOrFallback.

End GeoBase.

(** ** Builtins used by the models: [int(str)] and [datetime.date] *)

Module Builtins.

Inductive py_exn := ValueError | IndexError | OverflowError.

Definition is_ValueError_or_IndexError (e : py_exn) : bool :=
  match e with ValueError | IndexError => true | OverflowError => false end.

(** White space around the digits of [int(s)]: the C locale's white space
    and the white space outside Basic Latin. *)
Definition int_drop_space (s : string) : option string :=
  match s with
  | String c _ => if Py.byte_in 28 31 c then None else Py.drop_space s
  | EmptyString => None
  end.

Fixpoint int_lstrip_fuel (fuel : nat) (s : string) : string :=
  match fuel with
  | O => s
  | S fuel' =>
      match int_drop_space s with
      | Some s' => int_lstrip_fuel fuel' s'
      | None => s
      end
  end.
Definition int_lstrip (s : string) : string :=
  int_lstrip_fuel (Stdlib.Strings.String.length s) s.
Fixpoint int_rstrip (s : string) : string :=
  match s with
  | EmptyString => EmptyString
  | String c s' =>
      if Py.str_eqb (int_lstrip s) "" then EmptyString else String c (int_rstrip s')
  end.

(** Digits with single underscores between them. *)
Fixpoint parse_digits (after_digit : bool) (acc : Z) (s : string) : option Z :=
  match s with
  | EmptyString => if after_digit then Some acc else None
  | String c s' =>
      if Py.is_digit c then parse_digits true (acc * 10 + Py.digit_val c) s'
      else if Ascii.eqb c "_" && after_digit then parse_digits false acc s'
      else None
  end.

Fixpoint count_digits (s : string) : nat :=
  match s with
  | EmptyString => O
  | String c s' => ((if Py.is_digit c then 1 else 0) + count_digits s')%nat
  end.

(** [sys.int_info.default_max_str_digits]. *)
Definition max_str_digits : nat := 4300.

(** [int(s)] on a [str] in base 10, for decimal digits [0-9]. *)
Definition int (s : string) : outcome py_exn Z :=
  let body := int_rstrip (int_lstrip s) in
  let '(neg, digits) :=
    match body with
    | String c rest =>
        if Ascii.eqb c "-" then (true, rest)
        else if Ascii.eqb c "+" then (false, rest)
        else (false, body)
    | EmptyString => (false, body)
    end in
  if (max_str_digits <? count_digits digits)%nat then Raise ValueError
  else
    match parse_digits false 0 digits with
    | Some n => Return (if neg then - n else n)
    | None => Raise ValueError
    end.

(** [parts[i]]. *)
Definition index {A} (parts : list A) (i : nat) : outcome py_exn A :=
  match parts !! i with
  | Some x => Return x
  | None => Raise IndexError
  end.

Record date := Date { year : Z; month : Z; day : Z }.

Definition is_leap (y : Z) : bool :=
  (y mod 4 =? 0) && (negb (y mod 100 =? 0) || (y mod 400 =? 0)).

Definition days_in_month (y m : Z) : Z :=
  if m =? 2 then (if is_leap y then 29 else 28)
  else if (m =? 4) || (m =? 6) || (m =? 9) || (m =? 11) then 30
  else 31.

(** The arguments of [date(...)] are converted to C [int]. *)
Definition fits_c_int (n : Z) : bool := (- 2 ^ 31 <=? n) && (n <=? 2 ^ 31 - 1).

(** [date(year, month, day)]: [OverflowError] for an argument that is no C
    [int], [ValueError] for a date out of range. *)
Definition date_new (y m d : Z) : outcome py_exn date :=
  if negb (fits_c_int y && fits_c_int m && fits_c_int d) then Raise OverflowError
  else if (1 <=? y) && (y <=? 9999) && (1 <=? m) && (m <=? 12)
          && (1 <=? d) && (d <=? days_in_month y m)
  then Return (Date y m d)
  else Raise ValueError.

End Builtins.

(** ** Field validation shared by the geodata models *)

Module Validation.

(** The result of validating one model: the record, or the names of the
    fields whose constraints failed. *)
Inductive validated (A : Type) : Type :=
| Valid (a : A)
| Invalid (fields : list string).
Arguments Valid {A} a.
Arguments Invalid {A} fields.

Definition all_chars (p : ascii -> bool) (s : string) : bool :=
  forallb p (Stdlib.Strings.String.list_ascii_of_string s).

(** [^\d{n}$], with [\d] read as [0-9]. *)
Definition match_digits (n : nat) (s : string) : bool :=
  (Stdlib.Strings.String.length s =? n)%nat && all_chars Py.is_digit s.

(** [^([A-Z]{2}|)$]. *)
Definition match_canton_or_empty (s : string) : bool :=
  Py.str_eqb s "" ||
  ((Stdlib.Strings.String.length s =? 2)%nat && all_chars Py.is_upper_AZ s).

(** [^(de|fr|it|rm|multiple)$]. *)
Definition match_language (s : string) : bool :=
  Py.str_eqb s "de" || Py.str_eqb s "fr" || Py.str_eqb s "it"
  || Py.str_eqb s "rm" || Py.str_eqb s "multiple".

(** [^\d{4}-\d{2}-\d{2}$]. *)
Definition match_iso_date (s : string) : bool :=
  match Py.split "-" s with
  | [y; m; d] => match_digits 4 y && match_digits 2 m && match_digits 2 d
  | _ => false
  end.

Definition len_between (lo hi : nat) (s : string) : bool :=
  ((lo <=? Py.len s) && (Py.len s <=? hi))%nat.

Definition check (field : string) (ok : bool) : list string :=
  if ok then [] else [field].

End Validation.

(** ** [openmun_opendata/geo/models/postal_codes.py] *)

Module PostalCodesModel.
Import Validation.

Record PostalLocalityV1 := mkPostalLocalityV1 {
  locality_name : string;
  postal_code : string;
  additional_digit : string;
  municipality_name : string;
  bfs_number : Z;
  canton_code : string;
  easting : Q;
  northing : Q;
  language : string;
  validity_date : string
}.

(** The keyword arguments of the constructor, of the types the strict model
    admits; [additional_digit] may be left out.  The two [float] fields are
    rationals here: only their interval test is modelled. *)
Record kwargs := {
  kw_locality_name : string;
  kw_postal_code : string;
  kw_additional_digit : option string;
  kw_municipality_name : string;
  kw_bfs_number : Z;
  kw_canton_code : string;
  kw_easting : Q;
  kw_northing : Q;
  kw_language : string;
  kw_validity_date : string
}.

(** The [mode='before'] validator of [canton_code]. *)
Definition uppercase_canton_code (v : string) : string :=
  if Py.truthy v && Py.truthy (Py.strip v) then Py.strip (Py.upper v)
  else "".

(** The constraints of the fields, on the stripped values
    ([str_strip_whitespace]): the names of the fields that fail. *)
Definition field_errors (kw : kwargs) : list string :=
  check "locality_name" (len_between 1 100 (Py.strip (kw_locality_name kw))) ++
  check "postal_code" (match_digits 4 (Py.strip (kw_postal_code kw))) ++
  check "additional_digit"
    (from_option (match_digits 2) true (Py.strip <$> kw_additional_digit kw)) ++
  check "municipality_name" (len_between 1 100 (Py.strip (kw_municipality_name kw))) ++
  check "bfs_number" ((1 <=? kw_bfs_number kw) && (kw_bfs_number kw <=? 9999)) ++
  check "canton_code"
    (match_canton_or_empty (Py.strip (uppercase_canton_code (kw_canton_code kw)))) ++
  check "easting"
    (Qle_bool 2485000 (kw_easting kw) && Qle_bool (kw_easting kw) 2834000) ++
  check "northing"
    (Qle_bool 1075000 (kw_northing kw) && Qle_bool (kw_northing kw) 1296000) ++
  check "language" (match_language (Py.strip (kw_language kw))) ++
  check "validity_date" (match_iso_date (Py.strip (kw_validity_date kw))).

(** The constructor [PostalLocalityV1]: the record of the stripped values
    when no field fails. *)
Definition new (kw : kwargs) : validated PostalLocalityV1 :=
  match field_errors kw with
  | [] =>
      Valid {| locality_name := Py.strip (kw_locality_name kw);
               postal_code := Py.strip (kw_postal_code kw);
               additional_digit := default "00" (Py.strip <$> kw_additional_digit kw);
               municipality_name := Py.strip (kw_municipality_name kw);
               bfs_number := kw_bfs_number kw;
               canton_code := Py.strip (uppercase_canton_code (kw_canton_code kw));
               easting := kw_easting kw;
               northing := kw_northing kw;
               language := Py.strip (kw_language kw);
               validity_date := Py.strip (kw_validity_date kw) |}
  | errors => Invalid errors
  end.

(** The [full_postal_code] property. *)
Definition full_postal_code (self : PostalLocalityV1) : string :=
  if Py.truthy (additional_digit self)
     && negb (Py.str_eqb (additional_digit self) "00")
  then postal_code self +:+ "-" +:+ additional_digit self
  else postal_code self.

Definition coordinates_lv95 (self : PostalLocalityV1) : Q * Q :=
  (easting self, northing self).

End PostalCodesModel.

(** ** [openmun_opendata/geo/models/municipalities.py] *)

Module MunicipalitiesModel.
Import Validation Builtins.
Local Open Scope py_scope.

Record MunicipalityV1 := mkMunicipalityV1 {
  historical_code : string;
  bfs_code : option string;
  name : string;
  short_name : option string;
  canton_code : option string;
  canton_name : option string;
  level : option Z;
  parent : option string;
  valid_from : option date;
  valid_to : option date;
  rec_type : option string
}.

(** What a caller passes for [valid_from] and [valid_to]: nothing, a
    [date], or a [str]. *)
Inductive date_input :=
| InNone
| InDate (d : date)
| InStr (s : string).

Record kwargs := {
  kw_historical_code : string;
  kw_bfs_code : option string;
  kw_name : string;
  kw_short_name : option string;
  kw_canton_code : option string;
  kw_canton_name : option string;
  kw_level : option Z;
  kw_parent : option string;
  kw_valid_from : date_input;
  kw_valid_to : date_input;
  kw_rec_type : option string
}.

(** The [mode='before'] validator of the optional [str] fields. *)
Definition handle_empty_string (v : option string) : option string :=
  match v with
  | None => None
  | Some s =>
      if Py.str_eqb s "" then None
      else if Py.truthy (Py.strip s) then Some (Py.strip s) else None
  end.

(** [date(int(parts[a]), int(parts[b]), int(parts[c]))]. *)
Definition date_of_parts (parts : list string) (a b c : nat) : outcome py_exn date :=
  pa <- index parts a ;; y <- int pa ;;
  pb <- index parts b ;; m <- int pb ;;
  pc <- index parts c ;; d <- int pc ;;
  date_new y m d.

(** The [mode='before'] validator of [valid_from] and [valid_to].  Each
    [try] block either returns the date or, on [ValueError] and
    [IndexError], passes on to what follows it ([None] stands for "fell
    through"). *)
Definition attempt (body : outcome py_exn date) : outcome py_exn (option date) :=
  try_except (d <- body ;; Return (Some d))
             is_ValueError_or_IndexError (fun _ => Return None).

Definition parse_date (v : date_input) : outcome py_exn (option date) :=
  match v with
  | InNone => Return None
  | InDate d => Return (Some d)
  | InStr s =>
      if Py.str_eqb s "" then Return None
      else
        let v := Py.strip s in
        if negb (Py.truthy v) then Return None
        else
          r1 <- (if Py.contains "-" v && (length (Py.split "-" v) =? 3)%nat
                 then
                   let parts := Py.split "-" v in
                   if (Py.len (default "" (parts !! 0%nat)) <=? 2)%nat
                   then attempt (date_of_parts parts 2 1 0)
                   else attempt (date_of_parts parts 0 1 2)
                 else Return None) ;;
          match r1 with
          | Some d => Return (Some d)
          | None =>
              r2 <- (if Py.contains "." v
                     then attempt (date_of_parts (Py.split "." v) 2 1 0)
                     else Return None) ;;
              Return r2
          end
  end.

Definition opt_check (p : string -> bool) (o : option string) : bool :=
  from_option p true o.

Definition max_len (n : nat) (s : string) : bool := (Py.len s <=? n)%nat.

(** The constraints of the fields other than the two dates, on the values
    the before-validators and [str_strip_whitespace] leave. *)
Definition field_errors (kw : kwargs) : list string :=
  check "historical_code" (len_between 1 12 (Py.strip (kw_historical_code kw))) ++
  check "bfs_code"
    (opt_check (max_len 12) (Py.strip <$> handle_empty_string (kw_bfs_code kw))) ++
  check "name" (len_between 1 120 (Py.strip (kw_name kw))) ++
  check "short_name"
    (opt_check (max_len 120) (Py.strip <$> handle_empty_string (kw_short_name kw))) ++
  check "canton_code"
    (opt_check match_canton_or_empty
       (Py.strip <$> handle_empty_string (kw_canton_code kw))) ++
  check "canton_name"
    (opt_check (max_len 120) (Py.strip <$> handle_empty_string (kw_canton_name kw))) ++
  check "level"
    (from_option (fun n => (1 <=? n) && (n <=? 9)) true (kw_level kw)) ++
  check "parent"
    (opt_check (max_len 12) (Py.strip <$> handle_empty_string (kw_parent kw))) ++
  check "rec_type"
    (opt_check (max_len 50) (Py.strip <$> handle_empty_string (kw_rec_type kw))).

(** The constructor [MunicipalityV1].  The before-validators run with the
    fields; an exception [parse_date] does not catch leaves the
    constructor.  A value [parse_date] returns is a [date] or [None] and
    meets the type of its field. *)
Definition new (kw : kwargs) : outcome py_exn (validated MunicipalityV1) :=
  valid_from <- parse_date (kw_valid_from kw) ;;
  valid_to <- parse_date (kw_valid_to kw) ;;
  match field_errors kw with
  | [] =>
      Return (Valid {| historical_code := Py.strip (kw_historical_code kw);
                       bfs_code := Py.strip <$> handle_empty_string (kw_bfs_code kw);
                       name := Py.strip (kw_name kw);
                       short_name := Py.strip <$> handle_empty_string (kw_short_name kw);
                       canton_code := Py.strip <$> handle_empty_string (kw_canton_code kw);
                       canton_name := Py.strip <$> handle_empty_string (kw_canton_name kw);
                       level := kw_level kw;
                       parent := Py.strip <$> handle_empty_string (kw_parent kw);
                       valid_from := valid_from;
                       valid_to := valid_to;
                       rec_type := Py.strip <$> handle_empty_string (kw_rec_type kw) |})
  | errors => Return (Invalid errors)
  end.

Definition is_active (self : MunicipalityV1) : bool :=
  match valid_to self with None => true | Some _ => false end.

Definition is_merged (self : MunicipalityV1) : bool :=
  match valid_to self, bfs_code self with
  | Some _, None => true
  | _, _ => false
  end.

Definition has_parent (self : MunicipalityV1) : bool :=
  match parent self with Some _ => true | None => false end.

(** [m.model_copy(update={'canton_code': cc, 'canton_name': cn})]: a copy
    with the two fields replaced; the update is not validated. *)
Definition model_copy_cantons (m : MunicipalityV1)
    (cc cn : option string) : MunicipalityV1 :=
  {| historical_code := historical_code m;
     bfs_code := bfs_code m;
     name := name m;
     short_name := short_name m;
     canton_code := cc;
     canton_name := cn;
     level := level m;
     parent := parent m;
     valid_from := valid_from m;
     valid_to := valid_to m;
     rec_type := rec_type m |}.

End MunicipalitiesModel.

(** ** [openmun_opendata/geo/municipalities.py] *)

Module MunicipalitiesAPI.
Import Validation Builtins MunicipalitiesModel.
Local Open Scope py_scope.

(** [x or None] for an [Optional[str]]. *)
Definition or_None (o : option string) : option string :=
  match o with
  | Some s => if Py.truthy s then Some s else None
  | None => None
  end.

Definition date_arg (o : option string) : date_input :=
  match or_None o with Some s => InStr s | None => InNone end.

(** [_parse_row_v1]: a CSV row is a mapping from header to value. *)
Definition _parse_row_v1 (row : gmap string string)
    : outcome py_exn (validated MunicipalityV1) :=
  level <- (if Py.truthy_opt (row !! "Level")
               && Py.truthy (Py.strip (default "" (row !! "Level")))
            then n <- int (default "" (row !! "Level")) ;; Return (Some n)
            else Return None) ;;
  new {| kw_historical_code := default "" (row !! "HistoricalCode");
         kw_bfs_code := or_None (row !! "BfsCode");
         kw_name := default "" (row !! "Name");
         kw_short_name := or_None (row !! "ShortName");
         kw_canton_code := None;
         kw_canton_name := None;
         kw_valid_from := date_arg (row !! "ValidFrom");
         kw_valid_to := date_arg (row !! "ValidTo");
         kw_level := level;
         kw_parent := or_None (row !! "Parent");
         kw_rec_type := or_None (row !! "Rec_Type_de") |}.

(** [{m.historical_code: m for m in municipalities}]: a later record
    replaces an earlier one with the same code. *)
Definition by_historical_code (municipalities : list MunicipalityV1)
    : gmap string MunicipalityV1 :=
  foldl (fun d m => <[historical_code m := m]> d) ∅ municipalities.

Definition is_level_1 (m : MunicipalityV1) : bool :=
  match level m with Some n => n =? 1 | None => false end.

(** The canton lookup built from the level-1 entries.  The source fills it
    and never reads it. *)
Definition canton_by_historical_code (municipalities : list MunicipalityV1)
    : gmap string (option string * string) :=
  foldl (fun d m =>
           if is_level_1 m
           then <[historical_code m :=
                    (if Py.truthy_opt (short_name m) then short_name m else None,
                     name m)]> d
           else d)
        ∅ municipalities.

Definition max_depth : nat := 5.

(** The [while current.parent and depth < max_depth] loop, with
    [remaining = max_depth - depth] iterations left.  It yields the pair
    [(canton_code, canton_name)] at the end of the loop. *)
Fixpoint walk (by_code : gmap string MunicipalityV1) (remaining : nat)
    (current : MunicipalityV1) : option string * option string :=
  match remaining with
  | O => (None, None)
  | S remaining' =>
      if Py.truthy_opt (parent current) then
        match by_code !! default "" (parent current) with
        | None => (None, None)
        | Some parent =>
            if is_level_1 parent then (short_name parent, Some (name parent))
            else walk by_code remaining' parent
        end
      else (None, None)
  end.

(** The body of the enrichment loop for one record. *)
Definition cantons_of (by_code : gmap string MunicipalityV1)
    (m : MunicipalityV1) : option string * option string :=
  if is_level_1 m then (short_name m, Some (name m))
  else if Py.truthy_opt (parent m) then walk by_code max_depth m
  else (None, None).

Definition enrich_one (by_code : gmap string MunicipalityV1)
    (m : MunicipalityV1) : MunicipalityV1 :=
  let '(canton_code, canton_name) := cantons_of by_code m in
  model_copy_cantons m canton_code canton_name.

Definition _enrich_with_cantons (municipalities : list MunicipalityV1)
    : list MunicipalityV1 :=
  let by_code := by_historical_code municipalities in
  foldl (fun enriched m => enriched ++ [enrich_one by_code m])
        [] municipalities.

End MunicipalitiesAPI.

(** ** [importers/base.py] and [importers/bfs_country_importer.py] *)

Module Importer.
Local Open Scope py_scope.

Definition dq : string := String (Py.chr 34) EmptyString.
Definition nl : string := String (Py.chr 10) EmptyString.

(** Lines written one after the other, each ended by a newline. *)
Definition unlines (ls : list string) : string :=
  foldr (fun l acc => l +:+ nl +:+ acc) "" ls.

(** *** The world of the importer *)

(** A path is the list of its components. *)
Definition path := list string.
Definition path_str (p : path) : string :=
  foldr (fun c acc => "/" +:+ c +:+ acc) "" p.

(** A cell of a worksheet read with [values_only=True]. *)
Inductive cell := CNone | CStr (s : string) | CInt (n : Z).

Record workbook := { sheets : list (string * list (list cell)) }.
Definition sheetnames (wb : workbook) : list string := (sheets wb).*1.

(** Files are kept by what they hold: text, a workbook, or the JSON object
    of a [metadata.json] (file name to key to value). *)
Inductive node :=
| Dir
| TextFile (content : string)
| XlsxFile (wb : workbook)
| JsonFile (md : gmap string (gmap string string)).

Record world := World {
  fs : gmap path node;
  (** [datetime.now().isoformat()] at the n-th reading of the clock. *)
  isoformat_at : nat -> string;
  clock : nat;
  (** The lines printed so far. *)
  stdout : list string
}.

(** Exceptions are named by their class. *)
Definition M (A : Type) : Type := world -> outcome string A * world.

Definition ret {A} (a : A) : M A := fun w => (Return a, w).
Definition raise {A} (e : string) : M A := fun w => (Raise e, w).
Definition mbind {A B} (m : M A) (k : A -> M B) : M B :=
  fun w => match m w with
           | (Return a, w') => k a w'
           | (Raise e, w') => (Raise e, w')
           end.
Notation "x <-- m ;;; k" := (mbind m (fun x => k))
  (at level 100, m at next level, right associativity).
Notation "m ;;; k" := (mbind m (fun _ => k))
  (at level 100, right associativity).

Definition print (line : string) : M unit :=
  fun w => (Return tt, World (fs w) (isoformat_at w) (clock w) (stdout w ++ [line])).

Definition now_isoformat : M string :=
  fun w => (Return (isoformat_at w (clock w)),
            World (fs w) (isoformat_at w) (S (clock w)) (stdout w)).

Definition set_node (p : path) (n : node) : M unit :=
  fun w => (Return tt, World (<[p := n]> (fs w)) (isoformat_at w) (clock w) (stdout w)).

Definition lookup_node (p : path) : M (option node) :=
  fun w => (Return (fs w !! p), w).

(** [Path.exists()]. *)
Definition exists_ (p : path) : M bool :=
  fun w => (Return (bool_decide (is_Some (fs w !! p))), w).

Definition parent_of (p : path) : path := take (length p - 1) p.

Definition is_dir_in (f : gmap path node) (p : path) : bool :=
  match p with
  | [] => true
  | _ => match f !! p with Some Dir => true | _ => false end
  end.

(** [p.mkdir(parents=True, exist_ok=True)]: the directories from the root
    down to [p], [n] components at a time. *)
Fixpoint mkdir_from (n : nat) (remaining : nat) (p : path) : M unit :=
  match remaining with
  | O => ret tt
  | S remaining' =>
      let d := take n p in
      o <-- lookup_node d ;;;
      match o with
      | None => set_node d Dir ;;; mkdir_from (S n) remaining' p
      | Some Dir => mkdir_from (S n) remaining' p
      | Some _ =>
          if (n =? length p)%nat then raise "FileExistsError"
          else raise "NotADirectoryError"
      end
  end.
Definition mkdir_parents (p : path) : M unit := mkdir_from 1 (length p) p.

(** [open(p, 'w')]: the file is created or emptied. *)
Definition open_w (p : path) : M unit :=
  fun w =>
    match fs w !! p with
    | Some Dir => (Raise "IsADirectoryError", w)
    | _ =>
        if is_dir_in (fs w) (parent_of p) then set_node p (TextFile "") w
        else (Raise "FileNotFoundError", w)
    end.

(** [f.write(text)] on the file opened at [p]. *)
Definition write (p : path) (text : string) : M unit :=
  fun w =>
    match fs w !! p with
    | Some (TextFile content) => set_node p (TextFile (content +:+ text)) w
    | _ => set_node p (TextFile text) w
    end.

(** *** [BaseImporter] *)

Record BaseImporter := { project_root : path }.
Definition sources_dir (self : BaseImporter) : path := project_root self ++ ["sources"].
Definition generated_dir (self : BaseImporter) : path := project_root self ++ ["generated"].

Definition read_metadata (self : BaseImporter) (source_type : string)
    : M (gmap string (gmap string string)) :=
  let metadata_path := sources_dir self ++ [source_type; "metadata.json"] in
  e <-- exists_ metadata_path ;;;
  if e : bool then
    o <-- lookup_node metadata_path ;;;
    match o with
    | Some (JsonFile md) => ret md
    | Some Dir => raise "IsADirectoryError"
    | _ => raise "JSONDecodeError"
    end
  else ret ∅.

Definition write_version_file (self : BaseImporter) (output_dir : path)
    (source_file : string) (metadata : gmap string string) : M unit :=
  let version_file := output_dir ++ ["VERSION"] in
  open_w version_file ;;;
  t <-- now_isoformat ;;;
  write version_file ("Generated: " +:+ t +:+ nl) ;;;
  write version_file ("Source: " +:+ source_file +:+ nl) ;;;
  if bool_decide (metadata ≠ ∅) then
    write version_file
      ("Source Version: " +:+ default "unknown" (metadata !! "version") +:+ nl) ;;;
    write version_file
      ("Downloaded: " +:+ default "unknown" (metadata !! "downloaded") +:+ nl)
  else ret tt.

Definition ensure_init_files (self : BaseImporter) (dir_path : path) : M unit :=
  mkdir_parents dir_path ;;;
  let init_file := dir_path ++ ["__init__.py"] in
  e <-- exists_ init_file ;;;
  if e : bool then ret tt
  else
    open_w init_file ;;;
    write init_file (dq +:+ dq +:+ dq +:+ "Auto-generated data." +:+ dq +:+ dq +:+ dq +:+ nl).

Definition generate_python_header (source_file description : string) : M string :=
  let data_provider := "Swiss Federal Statistical Office (BFS)" in
  let data_url := "https://www.bfs.admin.ch/" in
  let data_year := "2024" in
  let importer_script := "bfs_country_importer.py" in
  t <-- now_isoformat ;;;
  ret (unlines
    [ dq +:+ dq +:+ dq +:+ "Auto-generated from BFS data.";
      "";
      "DO NOT EDIT MANUALLY!";
      "";
      "Generated: " +:+ t;
      "Source: " +:+ source_file;
      "Description: " +:+ description;
      "";
      "DATA SOURCE ATTRIBUTION:";
      "    Data Provider: " +:+ data_provider;
      "    Dataset: " +:+ description;
      "    Terms of Use: Open Government Data (OGD) Switzerland - " +:+ dq +:+
        "Open use. Must provide the source." +:+ dq;
      "    URL: " +:+ data_url;
      "    Copyright: © " +:+ data_year +:+ " " +:+ data_provider;
      "";
      "    This data is made available under Swiss OGD terms, which require source attribution.";
      "    See DATA_SOURCES.md in the repository root for complete licensing information.";
      "";
      "CODE LICENSE:";
      "    This Python code structure is © 2025 OpenMun Project, licensed under MIT License.";
      "    The data content is © " +:+ data_provider +:+ ", used under OGD terms.";
      "";
      "Run importers/" +:+ importer_script +:+ " to regenerate.";
      dq +:+ dq +:+ dq;
      "" ]).

(** *** [BFSCountryImporter] *)

Definition helper_functions_lines : list string :=
  [ "# Type hints";
    "from typing import Optional, Dict, Any";
    "";
    "# Helper functions";
    "def get_bfs_country_code(iso_code: str) -> Optional[str]:";
    "    " +:+ dq +:+ dq +:+ dq +:+ "Get BFS country code from ISO 2-letter code.";
    "";
    "    Args:";
    "        iso_code: ISO 3166-1 alpha-2 country code (e.g., 'CH', 'DE')";
    "";
    "    Returns:";
    "        BFS country code or None if not found";
    "    " +:+ dq +:+ dq +:+ dq;
    "    country = COUNTRY_CODES.get(iso_code.upper())";
    "    return country['bfs_code'] if country else None";
    "";
    "";
    "def get_country_name(iso_code: str, language: str = 'de') -> Optional[str]:";
    "    " +:+ dq +:+ dq +:+ dq +:+ "Get country name in specified language.";
    "";
    "    Args:";
    "        iso_code: ISO 3166-1 alpha-2 country code";
    "        language: Language code ('de', 'fr', 'it', 'en')";
    "";
    "    Returns:";
    "        Country name or None if not found";
    "    " +:+ dq +:+ dq +:+ dq;
    "    country = COUNTRY_CODES.get(iso_code.upper())";
    "    if country and language in country['names']:";
    "        return country['names'][language]";
    "    return None";
    "";
    "";
    "def get_country_by_bfs_code(bfs_code: str) -> Optional[Dict[str, Any]]:";
    "    " +:+ dq +:+ dq +:+ dq +:+ "Get country data by BFS code.";
    "";
    "    Args:";
    "        bfs_code: BFS country code (e.g., '8207' for Switzerland)";
    "";
    "    Returns:";
    "        Country data dict or None if not found";
    "    " +:+ dq +:+ dq +:+ dq;
    "    bfs_str = str(bfs_code)";
    "    for iso_code, data in COUNTRY_CODES.items():";
    "        if data['bfs_code'] == bfs_str:";
    "            return {'iso2': iso_code, **data}";
    "    return None" ].
Definition _generate_helper_functions : string := unlines helper_functions_lines.

Definition cell_truthy (c : cell) : bool :=
  match c with
  | CNone => false
  | CStr s => Py.truthy s
  | CInt n => negb (n =? 0)
  end.

(** [str(c)] and the f-string rendering of a cell. *)
Definition cell_str (c : cell) : string :=
  match c with
  | CNone => "None"
  | CStr s => s
  | CInt n => Py.str_of_int n
  end.

(** [c if c else '']. *)
Definition or_empty (c : cell) : cell := if cell_truthy c then c else CStr "".

Definition cell_eqb (a b : cell) : bool :=
  match a, b with
  | CNone, CNone => true
  | CStr s, CStr t => Py.str_eqb s t
  | CInt n, CInt m => n =? m
  | _, _ => false
  end.

(** A value of the [countries] dict. *)
Record parsed := {
  p_bfs_code : string;
  p_iso3 : cell;
  p_names : list (string * cell)
}.

Definition row_cell (row : list cell) (i : nat) : outcome string cell :=
  match row !! i with
  | Some c => Return c
  | None => Raise "IndexError"
  end.

(** [d[k] = v] on a dict with cells as keys. *)
Fixpoint dict_set (d : list (cell * parsed)) (k : cell) (v : parsed)
    : list (cell * parsed) :=
  match d with
  | [] => [(k, v)]
  | (k', v') :: d' =>
      if cell_eqb k' k then (k', v) :: d' else (k', v') :: dict_set d' k v
  end.

(** The body of the parsing loop for one data row. *)
Definition parse_row (countries : list (cell * parsed)) (row : list cell)
    : outcome string (list (cell * parsed)) :=
  (bfs_code <- row_cell row 0 ;;
   iso2 <- row_cell row 2 ;;
   iso3 <- row_cell row 3 ;;
   name_de <- row_cell row 4 ;;
   name_fr <- row_cell row 5 ;;
   name_it <- row_cell row 6 ;;
   name_en <- row_cell row 7 ;;
   valid <- row_cell row 22 ;;
   if cell_eqb valid (CStr "J") && cell_truthy bfs_code && cell_truthy iso2
   then Return (dict_set countries iso2
                  {| p_bfs_code := cell_str bfs_code;
                     p_iso3 := or_empty iso3;
                     p_names := [("de", or_empty name_de); ("fr", or_empty name_fr);
                                 ("it", or_empty name_it); ("en", or_empty name_en)] |})
   else Return countries)%py.

Fixpoint parse_rows (countries : list (cell * parsed)) (rows : list (list cell))
    : outcome string (list (cell * parsed)) :=
  match rows with
  | [] => Return countries
  | row :: rows' =>
      (countries' <- parse_row countries row ;; parse_rows countries' rows')%py
  end.

(** [sorted(countries.keys())]: text keys by [<] on [str], number keys by
    [<] on [int]; a mix of the two cannot be compared. *)
Definition cell_ltb (a b : cell) : outcome string bool :=
  match a, b with
  | CStr s, CStr t => Return (Py.str_ltb s t)
  | CInt n, CInt m => Return (n <? m)
  | _, _ => Raise "TypeError"
  end.

Fixpoint insert_key (x : cell) (xs : list cell) : outcome string (list cell) :=
  match xs with
  | [] => Return [x]
  | y :: ys =>
      (lt <- cell_ltb x y ;;
       if lt : bool then Return (x :: y :: ys)
       else (r <- insert_key x ys ;; Return (y :: r)))%py
  end.

Fixpoint sorted_keys (ks : list cell) : outcome string (list cell) :=
  match ks with
  | [] => Return []
  | k :: ks' => (r <- sorted_keys ks' ;; insert_key k r)%py
  end.

Fixpoint dict_get (d : list (cell * parsed)) (k : cell) : option parsed :=
  match d with
  | [] => None
  | (k', v) :: d' => if cell_eqb k' k then Some v else dict_get d' k
  end.

(** [name.replace("'", "\\'")]: only a [str] has [replace]. *)
Definition escape_name (c : cell) : outcome string string :=
  match c with
  | CStr s => Return (Py.replace "'" "\'" s)
  | _ => Raise "AttributeError"
  end.

Fixpoint write_names (out : path) (names : list (string * cell)) : M unit :=
  match names with
  | [] => ret tt
  | (lang, name) :: names' =>
      match escape_name name with
      | Return name_escaped =>
          write out ("            '" +:+ lang +:+ "': '" +:+ name_escaped +:+ "'," +:+ nl) ;;;
          write_names out names'
      | Raise e => raise e
      end
  end.

Fixpoint write_entries (out : path) (countries : list (cell * parsed))
    (keys : list cell) : M unit :=
  match keys with
  | [] => ret tt
  | iso2 :: keys' =>
      match dict_get countries iso2 with
      | None => raise "KeyError"
      | Some data =>
          write out ("    '" +:+ cell_str iso2 +:+ "': {" +:+ nl) ;;;
          write out ("        'bfs_code': '" +:+ p_bfs_code data +:+ "'," +:+ nl) ;;;
          write out ("        'iso3': '" +:+ cell_str (p_iso3 data) +:+ "'," +:+ nl) ;;;
          write out ("        'names': {" +:+ nl) ;;;
          write_names out (p_names data) ;;;
          write out ("        }" +:+ nl) ;;;
          write out ("    }," +:+ nl) ;;;
          write_entries out countries keys'
      end
  end.

(** [repr] of a list of sheet names, for names without quotes, backslashes
    or control characters. *)
Definition repr_list (names : list string) : string :=
  "[" +:+ match names with
          | [] => ""
          | n :: ns => foldl (fun acc m => acc +:+ ", '" +:+ m +:+ "'") ("'" +:+ n +:+ "'") ns
          end +:+ "]".

Definition lift {A} (o : outcome string A) : M A :=
  match o with Return a => ret a | Raise e => raise e end.

Definition source_file : string := "be-b-00.04-sg-01.xlsx".
Definition sheet_name : string := "Stat_Geb".

Definition excel_path (self : BaseImporter) : path :=
  sources_dir self ++ ["bfs"; source_file].
Definition output_dir (self : BaseImporter) : path := generated_dir self ++ ["bfs"].
Definition output_file (self : BaseImporter) : path :=
  output_dir self ++ ["country_codes.py"].

(** [load_workbook(p, read_only=True)]. *)
Definition load_workbook (p : path) : M workbook :=
  o <-- lookup_node p ;;;
  match o with
  | Some (XlsxFile wb) => ret wb
  | Some Dir => raise "IsADirectoryError"
  | Some _ => raise "InvalidFileException"
  | None => raise "FileNotFoundError"
  end.

(** [import_country_codes] below its guard: read the workbook, write the
    module and the version file. *)
Definition regenerate (self : BaseImporter) : M bool :=
  in_exists <-- exists_ (excel_path self) ;;;
  if negb in_exists then
    print ("ERROR: Source file not found: " +:+ path_str (excel_path self)) ;;;
    ret false
  else
    metadata <-- read_metadata self "bfs" ;;;
    let file_metadata := default ∅ (metadata !! source_file) in
    print ("Reading " +:+ path_str (excel_path self) +:+ "...") ;;;
    wb <-- load_workbook (excel_path self) ;;;
    match CountryCodes.dict_get (sheets wb) sheet_name with
    | None =>
        print ("ERROR: Sheet '" +:+ sheet_name +:+ "' not found. Available sheets: "
               +:+ repr_list (sheetnames wb)) ;;;
        ret false
    | Some ws =>
        countries <-- lift (parse_rows [] (drop 1 ws)) ;;;
        print ("Parsed " +:+ Py.str_of_int (Z.of_nat (length countries)) +:+
               " valid countries") ;;;
        ensure_init_files self (output_dir self) ;;;
        print ("Writing " +:+ path_str (output_file self) +:+ "...") ;;;
        open_w (output_file self) ;;;
        header <-- generate_python_header source_file
                     (default "BFS country codes" (file_metadata !! "description")) ;;;
        write (output_file self) header ;;;
        write (output_file self)
          ("# ISO 3166-1 alpha-2 codes mapped to BFS codes and names" +:+ nl) ;;;
        write (output_file self) ("COUNTRY_CODES = {" +:+ nl) ;;;
        keys <-- lift (sorted_keys countries.*1) ;;;
        write_entries (output_file self) countries keys ;;;
        write (output_file self) ("}" +:+ nl +:+ nl) ;;;
        write (output_file self) _generate_helper_functions ;;;
        write_version_file self (output_dir self) source_file file_metadata ;;;
        print ("Successfully generated " +:+ Py.str_of_int (Z.of_nat (length countries))
               +:+ " country codes") ;;;
        ret true
    end.

Definition import_country_codes (self : BaseImporter) (force : bool) : M bool :=
  out_exists <-- exists_ (output_file self) ;;;
  if negb force && out_exists then
    print ("Output already exists: " +:+ path_str (output_file self)) ;;;
    print "Use --force to regenerate" ;;;
    ret true
  else regenerate self.

End Importer.

(** ** [openmun_opendata/countries.py]: lookup by BFS code *)

Module CountriesByBfs.
Import CountryCodes Countries.

(** The record [get_country] and [get_country_by_bfs] build from a key and
    its entry. *)
Definition country_of (iso2 : string) (data : entry) : Country :=
  {| Countries.iso2 := iso2;
     Countries.bfs_code := CountryCodes.bfs_code data;
     Countries.iso3 := CountryCodes.iso3 data;
     name_de := de (entry_names data);
     name_fr := fr (entry_names data);
     name_it := it (entry_names data);
     name_en := en (entry_names data) |}.

(** [get_country_by_bfs]: the first entry, in the order of the dict, whose
    BFS code is the given text. *)
Fixpoint get_country_by_bfs_in (asset : list (string * entry)) (bfs_code : string)
    : option Country :=
  match asset with
  | [] => None
  | (iso2, data) :: rest =>
      if Py.str_eqb (CountryCodes.bfs_code data) bfs_code
      then Some (country_of iso2 data)
      else get_country_by_bfs_in rest bfs_code
  end.

Definition get_country_by_bfs := get_country_by_bfs_in COUNTRY_CODES.

End CountriesByBfs.

(** ** The helper functions of [generated/bfs/country_codes.py] *)

Module CountryCodesHelpers.
Import CountryCodes.

(** [country['names'][language]] when [language in country['names']]. *)
Definition names_get (n : names) (language : string) : option string :=
  if Py.str_eqb language "de" then Some (de n)
  else if Py.str_eqb language "fr" then Some (fr n)
  else if Py.str_eqb language "it" then Some (it n)
  else if Py.str_eqb language "en" then Some (en n)
  else None.

Definition get_bfs_country_code (iso_code : string) : option string :=
  match dict_get COUNTRY_CODES (Py.upper iso_code) with
  | Some country => if entry_truthy country then Some (bfs_code country) else None
  | None => None
  end.

Definition get_country_name (iso_code language : string) : option string :=
  match dict_get COUNTRY_CODES (Py.upper iso_code) with
  | Some country =>
      if entry_truthy country then names_get (entry_names country) language
      else None
  | None => None
  end.

(** [get_country_by_bfs_code]: the dict [{'iso2': iso_code, **data}] as the
    pair of the key and the entry. *)
Fixpoint get_country_by_bfs_code_in (asset : list (string * entry)) (bfs_code : string)
    : option (string * entry) :=
  match asset with
  | [] => None
  | (iso_code, data) :: rest =>
      if Py.str_eqb (CountryCodes.bfs_code data) bfs_code
      then Some (iso_code, data)
      else get_country_by_bfs_code_in rest bfs_code
  end.

Definition get_country_by_bfs_code := get_country_by_bfs_code_in COUNTRY_CODES.

End CountryCodesHelpers.

(** ** [openmun_opendata/geo/base.py]: local artifacts *)

Module GeoFiles.
Import GeoBase.
Local Open Scope py_scope.

(** [s.endswith(suffix)]. *)
Fixpoint endswith (s suffix : string) : bool :=
  Py.str_eqb s suffix ||
  match s with
  | EmptyString => false
  | String _ s' => endswith s' suffix
  end.

Definition is_cont (c : ascii) : bool := Py.byte_in 128 191 c.

Definition three_ok (a b c : ascii) : bool :=
  is_cont c &&
  ((Py.byte_is 224 a && Py.byte_in 160 191 b)
   || (Py.byte_in 225 236 a && is_cont b)
   || (Py.byte_is 237 a && Py.byte_in 128 159 b)
   || (Py.byte_in 238 239 a && is_cont b)).

Definition four_ok (a b c d : ascii) : bool :=
  is_cont c && is_cont d &&
  ((Py.byte_is 240 a && Py.byte_in 144 191 b)
   || (Py.byte_in 241 243 a && is_cont b)
   || (Py.byte_is 244 a && Py.byte_in 128 143 b)).

(** The byte sequences [bytes.decode('utf-8')] accepts. *)
Fixpoint valid_utf8 (s : string) : bool :=
  match s with
  | EmptyString => true
  | String a s1 =>
      if Py.byte_in 0 127 a then valid_utf8 s1
      else
        match s1 with
        | String b s2 =>
            if Py.byte_in 194 223 a && is_cont b then valid_utf8 s2
            else
              match s2 with
              | String c s3 =>
                  if three_ok a b c then valid_utf8 s3
                  else
                    match s3 with
                    | String d s4 => if four_ok a b c d then valid_utf8 s4 else false
                    | EmptyString => false
                    end
              | EmptyString => false
              end
        | EmptyString => false
        end
  end.

(** The byte order mark in UTF-8. *)
Definition BOM : string :=
  String (Py.chr 239) (String (Py.chr 187) (String (Py.chr 191) EmptyString)).

Definition strip_bom (s : string) : string :=
  match s with
  | String a (String b (String c rest)) =>
      if Py.byte_is 239 a && Py.byte_is 187 b && Py.byte_is 191 c then rest else s
  | _ => s
  end.

(** Text mode reads turn every line end into a line feed. *)
Fixpoint translate_newlines (s : string) : string :=
  match s with
  | EmptyString => EmptyString
  | String c s' =>
      if Py.byte_is 13 c then
        match s' with
        | String d _ =>
            if Py.byte_is 10 d then translate_newlines s'
            else String (Py.chr 10) (translate_newlines s')
        | EmptyString => String (Py.chr 10) EmptyString
        end
      else String c (translate_newlines s')
  end.

(** The classes of the library exceptions met here. *)
Inductive lib_exn := BadZipFile | UnicodeDecodeError | IsADirectoryError.

Definition lib_name (e : lib_exn) : string :=
  match e with
  | BadZipFile => "BadZipFile"
  | UnicodeDecodeError => "UnicodeDecodeError"
  | IsADirectoryError => "IsADirectoryError"
  end.

(** What is on disk at a path: a directory, a file and its bytes, a file
    that cannot be opened, or a path that cannot be examined: there
    [os.stat] fails with an [OSError] other than ENOENT, ENOTDIR, EBADF and
    ELOOP (a [PermissionError] for a directory above that may not be
    searched, a name that is too long).  The last two carry the class and
    the text of the [OSError]. *)
Inductive node :=
| Dir
| File (content : string)
| Locked (cls msg : string)
| NoStat (cls msg : string).

Section WithLibrary.
(** [zipfile.ZipFile] on the bytes of an archive: its members in order, name
    and bytes, or nothing when the bytes are no archive. *)
Variable unzip : string -> option (list (string * string)).
(** [str(e)] for a library exception. *)
Variable lib_str : lib_exn -> string.

Definition lib_raise {A} (e : lib_exn) : outcome exn A :=
  Raise (Exn (OtherException (lib_name e)) (lib_str e)).

Definition is_lib (l : lib_exn) (e : exn) : bool :=
  match exn_cls e with
  | OtherException n => Py.str_eqb n (lib_name l)
  | _ => false
  end.

Definition decode_utf8 (b : string) : outcome exn string :=
  if valid_utf8 b then Return b else lib_raise UnicodeDecodeError.

Definition decode_utf8_sig (b : string) : outcome exn string :=
  decode_utf8 (strip_bom b).

(** [zf.read(name)]: the bytes of the last member of that name. *)
Definition zip_read (entries : list (string * string)) (name : string) : option string :=
  foldl (fun acc e => if Py.str_eqb e.1 name then Some e.2 else acc) None entries.

Definition csv_names (namelist : list string) : list string :=
  filter (fun f => Is_true (endswith f ".csv")) namelist.

Definition name_in (name : string) (namelist : list string) : bool :=
  existsb (Py.str_eqb name) namelist.

(** The body of the [try] block of [_extract_csv_from_zip]. *)
Definition extract_body (zip_content : string) (csv_filename : option string)
    : outcome exn string :=
  match unzip zip_content with
  | None => lib_raise BadZipFile
  | Some entries =>
      let namelist := entries.*1 in
      match csv_names namelist with
      | [] => Raise (Exn GeoAPIError "No CSV file found in ZIP archive")
      | first :: _ =>
          target <- (if Py.truthy_opt csv_filename then
                       if name_in (default "" csv_filename) namelist
                       then Return (default "" csv_filename)
                       else Raise (Exn GeoAPIError
                              ("CSV file " +:+ default "" csv_filename +:+
                               " not found in ZIP"))
                     else Return first) ;;
          match zip_read entries target with
          | None => Raise (Exn (OtherException "KeyError") target)
          | Some csv_bytes =>
              try_except (decode_utf8 csv_bytes) (is_lib UnicodeDecodeError)
                         (fun _ => decode_utf8_sig csv_bytes)
          end
      end
  end.

Definition _extract_csv_from_zip (zip_content : string) (csv_filename : option string)
    : outcome exn string :=
  match extract_body zip_content csv_filename with
  | Return text => Return text
  | Raise e =>
      if is_lib BadZipFile e
      then Raise (Exn GeoAPIError ("Invalid ZIP file: " +:+ exn_str e))
      else Raise (Exn GeoAPIError ("Failed to extract CSV: " +:+ exn_str e))
  end.

(** [path.exists()]: [Path.exists] answers [False] where [os.stat] fails
    with ENOENT, ENOTDIR, EBADF or ELOOP, and raises every other
    [OSError]. *)
Definition exists_ (files : gmap string node) (path : string) : outcome exn bool :=
  match files !! path with
  | Some (NoStat cls msg) => Raise (Exn (OtherException cls) msg)
  | Some _ => Return true
  | None => Return false
  end.

(** [open(path, 'rb').read()]. *)
Definition read_bytes (files : gmap string node) (path : string) : outcome exn string :=
  match files !! path with
  | Some (File content) => Return content
  | Some Dir => lib_raise IsADirectoryError
  | Some (Locked cls msg) => Raise (Exn (OtherException cls) msg)
  | Some (NoStat cls msg) => Raise (Exn (OtherException cls) msg)
  | None => Raise (Exn (OtherException "FileNotFoundError") path)
  end.

(** [open(path, 'r', encoding='utf-8-sig').read()]. *)
Definition read_text_sig (files : gmap string node) (path : string) : outcome exn string :=
  content <- read_bytes files path ;;
  text <- decode_utf8_sig content ;;
  Return (translate_newlines text).

(** [self.sources_dir / filename] for a relative file name. *)
Definition in_sources (self : BaseGeoAPI) (filename : string) : string :=
  sources_dir self +:+ "/" +:+ filename.

Definition _read_local_csv (self : BaseGeoAPI) (files : gmap string node)
    (filename : string) (from_zip : bool) : outcome exn string :=
  if from_zip then
    let zip_path := in_sources self filename in
    found <- exists_ files zip_path ;;
    if negb found
    then Raise (Exn NoFallbackDataError ("Fallback ZIP file not found: " +:+ zip_path))
    else
      try_except (zip_content <- read_bytes files zip_path ;;
                  _extract_csv_from_zip zip_content None)
                 (fun _ => true)
                 (fun e => Raise (Exn NoFallbackDataError
                                    ("Failed to read fallback ZIP: " +:+ exn_str e)))
  else
    let csv_path := in_sources self filename in
    found <- exists_ files csv_path ;;
    if negb found
    then Raise (Exn NoFallbackDataError ("Fallback CSV file not found: " +:+ csv_path))
    else
      try_except (read_text_sig files csv_path)
                 (fun _ => true)
                 (fun e => Raise (Exn NoFallbackDataError
                                    ("Failed to read fallback CSV: " +:+ exn_str e))).

(** *** The fallback functions of the three APIs *)

Definition postal_zip_filename : string := "ortschaftenverzeichnis_plz_2056.csv.zip".
Definition streets_zip_filename : string := "amtliches-strassenverzeichnis_ch_2056.csv.zip".
Definition streets_csv_filename : string := "amtliches-strassenverzeichnis_ch_2056.csv".
Definition municipalities_csv_filename (reference_date : string) : string :=
  "bfs_municipalities_" +:+ Py.replace "-" "" reference_date +:+ ".csv".

Definition postal_fetch_fallback (self : BaseGeoAPI) (files : gmap string node)
    : outcome exn string :=
  _read_local_csv self files postal_zip_filename true.

(** [StreetsAPI._fetch_fallback]: the ZIP, and under [except Exception] the
    extracted CSV. *)
Definition streets_fetch_fallback (self : BaseGeoAPI) (files : gmap string node)
    : outcome exn string :=
  try_except (_read_local_csv self files streets_zip_filename true)
             (fun _ => true)
             (fun _ => _read_local_csv self files streets_csv_filename false).

Definition municipalities_fetch_fallback (self : BaseGeoAPI) (reference_date : string)
    (files : gmap string node) : outcome exn string :=
  _read_local_csv self files (municipalities_csv_filename reference_date) false.

(** [_get_csv_content] of an API: [_fetch_or_fallback] over its remote fetch
    and its fallback, which reads the files of the world and leaves the
    world as it is. *)
Section WithWorld.
Context {W : Type}.
Variable files_of : W -> gmap string node.

Definition reading (f : gmap string node -> outcome exn string) : action W string :=
  fun w => (f (files_of w), w).

Definition postal_get_csv_content (self : BaseGeoAPI) (fetch_remote : action W string)
    : action W string :=
  _fetch_or_fallback self fetch_remote (reading (postal_fetch_fallback self))
    "postal codes".

Definition streets_get_csv_content (self : BaseGeoAPI) (fetch_remote : action W string)
    : action W string :=
  _fetch_or_fallback self fetch_remote (reading (streets_fetch_fallback self))
    "streets".

Definition municipalities_get_csv_content (self : BaseGeoAPI) (reference_date : string)
    (fetch_remote : action W string) : action W string :=
  _fetch_or_fallback self fetch_remote
    (reading (municipalities_fetch_fallback self reference_date))
    "municipality data".
End WithWorld.

End WithLibrary.

End GeoFiles.

(** ** [openmun_opendata/geo/models/streets.py] *)

Module StreetsModel.
Import Validation.

Record StreetV1 := mkStreetV1 {
  esid : string;
  name : string;
  postal_codes : string;
  municipality_bfs : Z;
  municipality_name : string;
  canton_code : string;
  street_type : string;
  status : string;
  is_official : bool;
  easting : Q;
  northing : Q;
  modified_date : string;
  parent_esid : option string;
  children_esids : option string
}.

(** What a caller passes for [is_official]: a [bool], nothing, or a [str]. *)
Inductive bool_input :=
| InBool (b : bool)
| InNothing
| InText (s : string).

Record kwargs := {
  kw_esid : string;
  kw_name : string;
  kw_postal_codes : string;
  kw_municipality_bfs : Z;
  kw_municipality_name : string;
  kw_canton_code : string;
  kw_street_type : string;
  kw_status : string;
  kw_is_official : bool_input;
  kw_easting : Q;
  kw_northing : Q;
  kw_modified_date : string;
  kw_parent_esid : option string;
  kw_children_esids : option string
}.

(** The [mode='before'] validator of [canton_code]. *)
Definition uppercase_canton_code (v : string) : string :=
  if Py.truthy v then Py.strip (Py.upper v) else v.

(** The [mode='before'] validator of [is_official]. *)
Definition parse_boolean (v : bool_input) : bool :=
  match v with
  | InBool b => b
  | InNothing => false
  | InText s =>
      if Py.str_eqb s "" then false
      else existsb (Py.str_eqb (Py.lower s)) ["true"; "yes"; "1"; "j"; "ja"]
  end.

(** The [mode='before'] validator of [parent_esid] and [children_esids]. *)
Definition handle_empty_string (v : option string) : option string :=
  match v with
  | None => None
  | Some s => if Py.str_eqb s "" then None else Some (Py.strip s)
  end.

(** [^[A-Z]{2}$]. *)
Definition match_canton (s : string) : bool :=
  (Stdlib.Strings.String.length s =? 2)%nat && all_chars Py.is_upper_AZ s.

Definition opt_max_len (n : nat) (o : option string) : bool :=
  from_option (fun s => (Py.len s <=? n)%nat) true o.

Definition field_errors (kw : kwargs) : list string :=
  check "esid" (len_between 1 20 (Py.strip (kw_esid kw))) ++
  check "name" (len_between 1 200 (Py.strip (kw_name kw))) ++
  check "postal_codes" (len_between 1 500 (Py.strip (kw_postal_codes kw))) ++
  check "municipality_bfs"
    ((1 <=? kw_municipality_bfs kw) && (kw_municipality_bfs kw <=? 9999)) ++
  check "municipality_name" (len_between 1 100 (Py.strip (kw_municipality_name kw))) ++
  check "canton_code"
    (match_canton (Py.strip (uppercase_canton_code (kw_canton_code kw)))) ++
  check "street_type" (len_between 1 50 (Py.strip (kw_street_type kw))) ++
  check "status" (len_between 1 50 (Py.strip (kw_status kw))) ++
  check "easting"
    (Qle_bool 2485000 (kw_easting kw) && Qle_bool (kw_easting kw) 2834000) ++
  check "northing"
    (Qle_bool 1075000 (kw_northing kw) && Qle_bool (kw_northing kw) 1296000) ++
  check "modified_date" (len_between 1 50 (Py.strip (kw_modified_date kw))) ++
  check "parent_esid"
    (opt_max_len 20 (Py.strip <$> handle_empty_string (kw_parent_esid kw))) ++
  check "children_esids"
    (opt_max_len 500 (Py.strip <$> handle_empty_string (kw_children_esids kw))).

(** The constructor [StreetV1]. *)
Definition new (kw : kwargs) : validated StreetV1 :=
  match field_errors kw with
  | [] =>
      Valid {| esid := Py.strip (kw_esid kw);
               name := Py.strip (kw_name kw);
               postal_codes := Py.strip (kw_postal_codes kw);
               municipality_bfs := kw_municipality_bfs kw;
               municipality_name := Py.strip (kw_municipality_name kw);
               canton_code := Py.strip (uppercase_canton_code (kw_canton_code kw));
               street_type := Py.strip (kw_street_type kw);
               status := Py.strip (kw_status kw);
               is_official := parse_boolean (kw_is_official kw);
               easting := kw_easting kw;
               northing := kw_northing kw;
               modified_date := Py.strip (kw_modified_date kw);
               parent_esid := Py.strip <$> handle_empty_string (kw_parent_esid kw);
               children_esids :=
                 Py.strip <$> handle_empty_string (kw_children_esids kw) |}
  | errors => Invalid errors
  end.

(** [s.split()]: the runs of [s] between white space.  [cur] is the run
    being read. *)
Definition flush (cur : string) : list string :=
  if Py.truthy cur then [cur] else [].

Fixpoint split_ws_go (fuel : nat) (cur s : string) : list string :=
  match fuel with
  | O => flush cur
  | S fuel' =>
      match s with
      | EmptyString => flush cur
      | String c s' =>
          match Py.drop_space s with
          | Some rest => flush cur ++ split_ws_go fuel' EmptyString rest
          | None => split_ws_go fuel' (cur +:+ String c EmptyString) s'
          end
      end
  end.
Definition split_ws (s : string) : list string :=
  split_ws_go (S (Stdlib.Strings.String.length s)) EmptyString s.

(** The [postal_code_list] property. *)
Definition postal_code_list (self : StreetV1) : list string :=
  if negb (Py.truthy (postal_codes self)) then []
  else
    foldl (fun codes entry =>
             let entry := Py.strip entry in
             if Py.truthy entry then
               match split_ws entry with
               | first :: _ => codes ++ [first]
               | [] => codes
               end
             else codes)
          [] (Py.split "," (postal_codes self)).

Definition has_parent (self : StreetV1) : bool :=
  match parent_esid self with Some _ => true | None => false end.

Definition has_children (self : StreetV1) : bool :=
  match children_esids self with Some _ => true | None => false end.

(** The [children_esid_list] property. *)
Definition children_esid_list (self : StreetV1) : list string :=
  if negb (Py.truthy_opt (children_esids self)) then []
  else
    omap (fun esid => if Py.truthy (Py.strip esid) then Some (Py.strip esid) else None)
         (Py.split "," (default "" (children_esids self))).

End StreetsModel.

(** ** [openmun_opendata/geo/municipalities.py]: cached data and queries *)

Module MunicipalitiesQueries.
Import GeoBase Validation Builtins MunicipalitiesModel MunicipalitiesAPI.

(** What leaves a method of the API: an exception of the geo framework, an
    exception of the row parser, or pydantic's [ValidationError] with the
    fields that failed. *)
Inductive api_exn :=
| GeoError (e : exn)
| RowError (e : py_exn)
| ValidationError (fields : list string).

(** The state of a [MunicipalitiesAPI] object and of the world it reads. *)
Record api_state (W : Type) := ApiState {
  _enriched_cache : option (list MunicipalityV1);
  world : W
}.
Arguments ApiState {W} _ _.
Arguments _enriched_cache {W} _.
Arguments world {W} _.

(** *** The queries on the enriched records *)

Definition bfs_code_is (bfs_code : string) (m : MunicipalityV1) : bool :=
  match MunicipalitiesModel.bfs_code m with
  | Some c => Py.str_eqb c bfs_code
  | None => false
  end.

Definition historical_code_is (code : string) (m : MunicipalityV1) : bool :=
  Py.str_eqb (historical_code m) code.

Definition canton_code_is (canton_upper : string) (m : MunicipalityV1) : bool :=
  match canton_code m with
  | Some c => Py.str_eqb c canton_upper
  | None => false
  end.

(** [for m in data: if test(m): return m] and [return None] after the loop. *)
Fixpoint first_match (test : MunicipalityV1 -> bool) (data : list MunicipalityV1)
    : option MunicipalityV1 :=
  match data with
  | [] => None
  | m :: rest => if test m then Some m else first_match test rest
  end.

(** [[m for m in data if test(m)]]. *)
Fixpoint all_matches (test : MunicipalityV1 -> bool) (data : list MunicipalityV1)
    : list MunicipalityV1 :=
  match data with
  | [] => []
  | m :: rest => if test m then m :: all_matches test rest else all_matches test rest
  end.

Section WithSource.
Context {W : Type}.
(** [csv.DictReader] on a text with a delimiter: the rows as mappings. *)
Variable dict_reader : string -> ascii -> list (gmap string string).
(** The configuration and the two fetch methods of the object. *)
Variable self : BaseGeoAPI.
Variable _fetch_remote _fetch_fallback : action W string.

(** [_parse_csv]: a byte order mark at the head is skipped. *)
Definition _parse_csv (csv_content : string) (delimiter : ascii) (skip_bom : bool)
    : list (gmap string string) :=
  dict_reader (if skip_bom then GeoFiles.strip_bom csv_content else csv_content)
              delimiter.

(** The loop that parses the rows: the first row that fails ends it. *)
Fixpoint parse_all (rows : list (gmap string string)) (unenriched : list MunicipalityV1)
    : outcome api_exn (list MunicipalityV1) :=
  match rows with
  | [] => Return unenriched
  | row :: rows' =>
      match _parse_row_v1 row with
      | Return (Valid m) => parse_all rows' (unenriched ++ [m])
      | Return (Invalid fields) => Raise (ValidationError fields)
      | Raise e => Raise (RowError e)
      end
  end.

Definition _get_enriched_data (s : api_state W)
    : outcome api_exn (list MunicipalityV1) * api_state W :=
  match _enriched_cache s with
  | Some cached => (Return cached, s)
  | None =>
      match _fetch_or_fallback self _fetch_remote _fetch_fallback
              "municipality data" (world s) with
      | (Raise e, w1) => (Raise (GeoError e), ApiState None w1)
      | (Return csv_content, w1) =>
          match parse_all (_parse_csv csv_content "," true) [] with
          | Raise e => (Raise e, ApiState None w1)
          | Return unenriched =>
              let enriched := _enrich_with_cantons unenriched in
              (Return enriched, ApiState (Some enriched) w1)
          end
      end
  end.

(** A method that reads [self.iter_all()] and computes on the records. *)
Definition on_data {A} (f : list MunicipalityV1 -> A) (s : api_state W)
    : outcome api_exn A * api_state W :=
  match _get_enriched_data s with
  | (Return data, s') => (Return (f data), s')
  | (Raise e, s') => (Raise e, s')
  end.

Definition get_all := on_data id.

Definition get_by_bfs_code (bfs_code : string) :=
  on_data (first_match (bfs_code_is bfs_code)).

Definition get_by_historical_code (historical_code : string) :=
  on_data (first_match (historical_code_is historical_code)).

Definition get_by_canton (canton_code : string) :=
  on_data (all_matches (canton_code_is (Py.upper canton_code))).

Definition get_active := on_data (all_matches is_active).

Definition get_historical := on_data (all_matches (fun m => negb (is_active m))).

End WithSource.

End MunicipalitiesQueries.

(** * Vocabulary of the statements *)

(** The language codes [Country.get_name] knows. *)
Definition known_languages : list string := ["de"; "fr"; "it"; "en"].

(** The order of [get_all_countries]: the iso2 of a record is below the iso2
    of every later record. *)
Definition iso2_lt (a b : Countries.Country) : Prop :=
  Is_true (Py.str_ltb (Countries.iso2 a) (Countries.iso2 b)).

#[local] Instance iso2_lt_dec : RelDecision iso2_lt :=
  fun a b => decide (Is_true (Py.str_ltb (Countries.iso2 a) (Countries.iso2 b))).

(** All 256 bytes. *)
Definition all_ascii : list ascii := ascii_of_nat <$> seq 0 256.

(** Two ASCII letters, as the text of a canton code. *)
Definition two_chars (c1 c2 : ascii) : string := String c1 (String c2 EmptyString).

(** The upper-case form of one ASCII letter. *)
Definition up (c : ascii) : ascii :=
  if Py.is_lower_az c then Py.chr (Py.code c - 32) else c.

(** What the string functions test on a byte, for an ASCII letter: it is no
    white space, it starts no multi-byte code point, and its upper-case form
    is in [A-Z]. *)
Definition letter_facts (c : ascii) : bool :=
  implb (Py.is_ascii_letter c)
    (negb (Py.byte_in 9 13 c) && negb (Py.byte_in 28 32 c)
     && negb (Py.byte_is 194 c) && negb (Py.byte_is 195 c)
     && negb (Py.byte_is 225 c) && negb (Py.byte_is 226 c)
     && negb (Py.byte_is 227 c)
     && Py.is_upper_AZ (up c) && Py.is_ascii_letter (up c)
     && implb (Py.is_lower_az c) (negb (Py.is_upper_AZ c))).

(** The arguments of the locality Zürich 8001, with a canton code to choose. *)
Definition zurich_kwargs (canton : string) : PostalCodesModel.kwargs :=
  {| PostalCodesModel.kw_locality_name := "Zürich";
     PostalCodesModel.kw_postal_code := "8001";
     PostalCodesModel.kw_additional_digit := Some "00";
     PostalCodesModel.kw_municipality_name := "Zürich";
     PostalCodesModel.kw_bfs_number := 261;
     PostalCodesModel.kw_canton_code := canton;
     PostalCodesModel.kw_easting := 2683141;
     PostalCodesModel.kw_northing := 1247935;
     PostalCodesModel.kw_language := "de";
     PostalCodesModel.kw_validity_date := "2008-07-01" |}.

(** A world that records the calls made: the remote function fails with
    [RemoteFetchError], the fallback function does as [r] says. *)
Definition remote_down : GeoBase.action (list string) string :=
  fun calls =>
    (Raise (GeoBase.Exn GeoBase.RemoteFetchError "HTTP 503: https://data.geo.admin.ch"),
     calls ++ ["fetch"]).


Definition api (allowed : bool) : GeoBase.BaseGeoAPI :=
  {| GeoBase.fallback_allowed := allowed;
     GeoBase.cache_dir := "sources/swisstopo";
     GeoBase.sources_dir := "sources/swisstopo" |}.

(** [walks_to by_code k m d]: from [m], [k] parent references resolve in the
    snapshot, each to a record that is no canton, and end at [d]. *)
Inductive walks_to (by_code : gmap string MunicipalitiesModel.MunicipalityV1)
    : nat → MunicipalitiesModel.MunicipalityV1
      → MunicipalitiesModel.MunicipalityV1 → Prop :=
| walks_here m : walks_to by_code 0 m m
| walks_up k m c p d :
    MunicipalitiesModel.parent m = Some c → c ≠ "" →
    by_code !! c = Some p →
    MunicipalitiesAPI.is_level_1 p = false →
    walks_to by_code k p d →
    walks_to by_code (S k) m d.

(** The parent reference of [d] resolves to the canton [a]. *)
Definition canton_parent (by_code : gmap string MunicipalitiesModel.MunicipalityV1)
    (d a : MunicipalitiesModel.MunicipalityV1) : Prop :=
  ∃ c, MunicipalitiesModel.parent d = Some c ∧ c ≠ ""
       ∧ by_code !! c = Some a ∧ MunicipalitiesAPI.is_level_1 a = true.

(** [d] has no parent reference, or one that names no record of the
    snapshot. *)
Definition unresolved (by_code : gmap string MunicipalitiesModel.MunicipalityV1)
    (d : MunicipalitiesModel.MunicipalityV1) : Prop :=
  MunicipalitiesModel.parent d = None
  ∨ MunicipalitiesModel.parent d = Some ""
  ∨ ∃ c, MunicipalitiesModel.parent d = Some c ∧ by_code !! c = None.

(** A record as [_parse_row_v1] leaves it: no canton fields, no dates. *)
Definition parsed_record (code name : string) (short : option string)
    (level : Z) (parent : option string) : MunicipalitiesModel.MunicipalityV1 :=
  MunicipalitiesModel.mkMunicipalityV1
    code None name short None None (Some level) parent None None None.

Definition canton_ZH := parsed_record "1" "Zürich" (Some "ZH") 1 None.
Definition district_ZH := parsed_record "10053" "Bezirk Zürich" None 2 (Some "1").
Definition commune_X := parsed_record "11968" "Zürich" (Some "Zürich") 3 (Some "10053").
(** A record whose parents form a cycle of districts, and one whose parent is
    not in the snapshot. *)
Definition district_loop := parsed_record "20001" "Schleife" None 2 (Some "20001").
Definition commune_orphan := parsed_record "30001" "Waise" None 3 (Some "99999").
(** A canton row whose ShortName is empty. *)
Definition canton_unnamed := parsed_record "2" "Bern / Berne" None 1 None.
Definition commune_Y := parsed_record "12000" "Bern" None 3 (Some "2").

Definition snapshot : list MunicipalitiesModel.MunicipalityV1 :=
  [canton_ZH; district_ZH; commune_X; district_loop; commune_orphan;
   canton_unnamed; commune_Y].

(** [e] is [m] in every field but the two canton fields. *)
Definition copy_but_cantons (e m : MunicipalitiesModel.MunicipalityV1) : Prop :=
  MunicipalitiesModel.historical_code e = MunicipalitiesModel.historical_code m
  ∧ MunicipalitiesModel.bfs_code e = MunicipalitiesModel.bfs_code m
  ∧ MunicipalitiesModel.name e = MunicipalitiesModel.name m
  ∧ MunicipalitiesModel.short_name e = MunicipalitiesModel.short_name m
  ∧ MunicipalitiesModel.level e = MunicipalitiesModel.level m
  ∧ MunicipalitiesModel.parent e = MunicipalitiesModel.parent m
  ∧ MunicipalitiesModel.valid_from e = MunicipalitiesModel.valid_from m
  ∧ MunicipalitiesModel.valid_to e = MunicipalitiesModel.valid_to m
  ∧ MunicipalitiesModel.rec_type e = MunicipalitiesModel.rec_type m.

(** The canton fields of the [i]-th enriched record. *)
Definition cantons_at (municipalities : list MunicipalitiesModel.MunicipalityV1)
    (i : nat) : option (option string * option string) :=
  (fun e => (MunicipalitiesModel.canton_code e, MunicipalitiesModel.canton_name e))
    <$> MunicipalitiesAPI._enrich_with_cantons municipalities !! i.

(** Six units one below the other under the canton: [below_5] is five parent
    references away from the canton, [below_6] is six away. *)
Definition below_1 := parsed_record "101" "Stufe 1" None 2 (Some "1").
Definition below_2 := parsed_record "102" "Stufe 2" None 2 (Some "101").
Definition below_3 := parsed_record "103" "Stufe 3" None 2 (Some "102").
Definition below_4 := parsed_record "104" "Stufe 4" None 2 (Some "103").
Definition below_5 := parsed_record "105" "Stufe 5" None 3 (Some "104").
Definition below_6 := parsed_record "106" "Stufe 6" None 3 (Some "105").

Definition deep_snapshot : list MunicipalitiesModel.MunicipalityV1 :=
  [canton_ZH; below_1; below_2; below_3; below_4; below_5; below_6].

(** [m] removes no path. *)
Definition keeps {A} (m : Importer.M A) : Prop :=
  ∀ w r w' (p : Importer.path), m w = (r, w') →
    is_Some (Importer.fs w !! p) → is_Some (Importer.fs w' !! p).

(** When [m] returns, [p] exists. *)
Definition makes (p : Importer.path) {A} (m : Importer.M A) : Prop :=
  ∀ w a w', m w = (Return a, w') → is_Some (Importer.fs w' !! p).

(** When [m] returns [True], [p] exists. *)
Definition makes_when_true (p : Importer.path) (m : Importer.M bool) : Prop :=
  ∀ w w', m w = (Return true, w') → is_Some (Importer.fs w' !! p).

(** A workbook with the header row and three data rows, one of them marked
    as not valid, in a project that has not been generated yet. *)
Definition data_row (bfs : Z) (iso2 iso3 de fr it en valid : string)
    : list Importer.cell :=
  [Importer.CInt bfs; Importer.CNone; Importer.CStr iso2; Importer.CStr iso3;
   Importer.CStr de; Importer.CStr fr; Importer.CStr it; Importer.CStr en]
  ++ replicate 14 Importer.CNone ++ [Importer.CStr valid].

Definition sample_workbook : Importer.workbook :=
  {| Importer.sheets :=
       [("Stat_Geb",
         [ replicate 23 (Importer.CStr "header");
           data_row 8100 "CH" "CHE" "Schweiz" "Suisse" "Svizzera" "Switzerland" "J";
           data_row 8310 "CI" "CIV" "Côte d'Ivoire" "Côte d'Ivoire"
                    "Côte d'Ivoire" "Côte d'Ivoire" "J";
           data_row 8999 "XX" "XXX" "Ungültig" "" "" "" "N" ])] |}.

Definition importer : Importer.BaseImporter :=
  {| Importer.project_root := ["srv"; "openmun"] |}.

Definition fresh_world : Importer.world :=
  {| Importer.fs := {[ Importer.excel_path importer := Importer.XlsxFile sample_workbook ]};
     Importer.isoformat_at := fun n => "2025-10-27T15:50:5" +:+ Py.str_of_int (Z.of_nat n);
     Importer.clock := 0;
     Importer.stdout := [] |}.

(** Decimal digits and the text they spell. *)
Definition digits_str (ds : list Z) : string :=
  foldr (fun k s => String (Py.digit_chr k) s) EmptyString ds.
Definition digits_val (ds : list Z) : Z := foldl (fun acc k => acc * 10 + k) 0 ds.

(** [DD], [MM] and [YYYY]: a number in two and in four digits. *)
Definition two_digits (n : Z) : string := digits_str [n / 10; n mod 10].
Definition four_digits (n : Z) : string :=
  digits_str [n / 1000; n / 100 mod 10; n / 10 mod 10; n mod 10].

(** The dates [datetime.date] has. *)
Definition is_date (y m d : Z) : Prop :=
  1 ≤ y ≤ 9999 ∧ 1 ≤ m ≤ 12 ∧ 1 ≤ d ≤ Builtins.days_in_month y m.

(** A byte that starts no white space. *)
Definition plain (c : ascii) : bool :=
  negb (Py.byte_in 9 13 c) && negb (Py.byte_in 28 32 c)
  && negb (Py.byte_is 194 c) && negb (Py.byte_is 225 c)
  && negb (Py.byte_is 226 c) && negb (Py.byte_is 227 c).

(** What the string functions test on a decimal digit. *)
Definition digit_facts (k : Z) : bool :=
  let c := Py.digit_chr k in
  Py.is_digit c && (Py.digit_val c =? k) && plain c
  && negb (Py.byte_in 128 191 c)
  && negb (Ascii.eqb c "-") && negb (Ascii.eqb c "+")
  && negb (Ascii.eqb c "_") && negb (Ascii.eqb c ".").

Definition differs (sep : ascii) (c : ascii) : bool := negb (Ascii.eqb c sep).

Definition decimal (k : Z) : Prop := 0 ≤ k ≤ 9.

(** Three texts with a separator between them. *)
Definition joined (sep : ascii) (a b c : string) : string :=
  a +:+ String sep (b +:+ String sep c).

(** A municipality row of the snapshot CSV, with a ValidFrom to choose. *)
Definition commune_kwargs (valid_from : MunicipalitiesModel.date_input)
    : MunicipalitiesModel.kwargs :=
  {| MunicipalitiesModel.kw_historical_code := "11968";
     MunicipalitiesModel.kw_bfs_code := Some "261";
     MunicipalitiesModel.kw_name := "Zürich";
     MunicipalitiesModel.kw_short_name := Some "Zürich";
     MunicipalitiesModel.kw_canton_code := None;
     MunicipalitiesModel.kw_canton_name := None;
     MunicipalitiesModel.kw_level := Some 3;
     MunicipalitiesModel.kw_parent := Some "10053";
     MunicipalitiesModel.kw_valid_from := valid_from;
     MunicipalitiesModel.kw_valid_to := MunicipalitiesModel.InNone;
     MunicipalitiesModel.kw_rec_type := Some "Politische Gemeinde" |}.

Definition commune_row (valid_from : string) : gmap string string :=
  list_to_map
    [("HistoricalCode", "11968"); ("BfsCode", "261"); ("Name", "Zürich");
     ("ShortName", "Zürich"); ("Level", "3"); ("Parent", "10053");
     ("ValidFrom", valid_from); ("ValidTo", ""); ("Rec_Type_de", "Politische Gemeinde")].

(** Equality of country records is decidable. *)
#[local] Instance Country_eq_dec : EqDecision Countries.Country :=
  ltac:(solve_decision).

(** The match of [search_countries]: the query is in the name, both in lower
    case. *)
Definition name_matches (query language : string) (c : Countries.Country) : Prop :=
  Is_true (Py.contains (Py.lower query)
             (Py.lower (Countries.get_name c language))).

#[local] Instance name_matches_dec query language c
    : Decision (name_matches query language c) :=
  decide (Is_true (Py.contains (Py.lower query)
                     (Py.lower (Countries.get_name c language)))).

(** Text of the code points U+0000..U+00FF in UTF-8: bytes below 0x80, and
    0xC2 or 0xC3 with one continuation byte.  On such text [Py.lower] is
    [str.lower()]. *)
Fixpoint latin1 (s : string) : bool :=
  match s with
  | EmptyString => true
  | String c s1 =>
      if Py.byte_in 0 127 c then latin1 s1
      else
        match s1 with
        | String d s2 =>
            (Py.byte_is 194 c || Py.byte_is 195 c) && Py.byte_in 128 191 d
            && latin1 s2
        | EmptyString => false
        end
  end.

(** One step of [str.lower()]: the byte [c] after a byte that is 0xC3 or not. *)
Definition lower_byte (after_c3 : bool) (c : ascii) : ascii :=
  if Py.byte_in 65 90 c then Py.chr (Py.code c + 32)
  else if after_c3 && Py.byte_in 128 158 c && negb (Py.byte_is 151 c)
       then Py.chr (Py.code c + 32)
  else c.

(** Lowering a lowered byte changes nothing, and a lowered byte is 0xC3
    exactly when the byte was. *)
Definition lower_byte_stable (c : ascii) : bool :=
  forallb (fun b =>
             Ascii.eqb (lower_byte b (lower_byte b c)) (lower_byte b c)
             && Bool.eqb (Py.byte_is 195 (lower_byte b c)) (Py.byte_is 195 c))
          [true; false].

(** An upper-case letter is its own upper-case form. *)
Definition upper_letter_fixed (c : ascii) : bool :=
  implb (Py.is_upper_AZ c) (negb (Py.is_lower_az c) && Py.is_ascii_letter c).


(** [e] is the [OSError] that [Path.exists] raises for [path]. *)
Definition stat_error (files : gmap string GeoFiles.node) (path : string)
    (e : GeoBase.exn) : Prop :=
  ∃ cls msg, files !! path = Some (GeoFiles.NoStat cls msg)
             ∧ e = GeoBase.Exn (GeoBase.OtherException cls) msg.

(** An outcome that is a value, a [NoFallbackDataError], or the [OSError]
    that [Path.exists] raises for [path]. *)
Definition local_read_outcome {A} (files : gmap string GeoFiles.node) (path : string)
    (r : outcome GeoBase.exn A) : Prop :=
  match r with
  | Return _ => True
  | Raise e => GeoBase.exn_cls e = GeoBase.NoFallbackDataError ∨ stat_error files path e
  end.

(** No carriage return is in [s]. *)
Fixpoint no_cr (s : string) : bool :=
  match s with
  | EmptyString => true
  | String c s' => negb (Py.byte_is 13 c) && no_cr s'
  end.

(** A toy archive format for examples: the bytes [zip:<name>=<text>] hold one
    member. *)
Definition toy_unzip (b : string) : option (list (string * string)) :=
  if Py.startswith b "zip:" then
    match Py.split "=" (Stdlib.Strings.String.substring 4
                          (Stdlib.Strings.String.length b - 4) b) with
    | [name; text] => Some [(name, text)]
    | _ => None
    end
  else None.

Definition toy_lib_str (e : GeoFiles.lib_exn) : string := GeoFiles.lib_name e.

(** A cache directory that holds the postal ZIP and nothing else. *)
Definition cached_files : gmap string GeoFiles.node :=
  {[ "sources/swisstopo/ortschaftenverzeichnis_plz_2056.csv.zip"
       := GeoFiles.File "zip:AMTOVZ_CSV_LV95.csv=Ortschaftsname;PLZ" ]}.

(** A CSV file as a spreadsheet saves it: a byte order mark, a line ended
    by carriage return and line feed, a line ended by a carriage return. *)
Definition CR : string := String (Py.chr 13) EmptyString.
Definition LF : string := String (Py.chr 10) EmptyString.
Definition exported_csv : string :=
  GeoFiles.BOM +:+ "Name;PLZ" +:+ CR +:+ LF +:+ "Bister;3983" +:+ CR.

(** A sources directory with that file, and with a file below a directory
    that may not be searched. *)
Definition local_files : gmap string GeoFiles.node :=
  {[ "sources/swisstopo/export.csv" := GeoFiles.File exported_csv;
     "sources/swisstopo/amtliches-strassenverzeichnis_ch_2056.csv"
       := GeoFiles.NoStat "PermissionError" "[Errno 13] Permission denied" ]}.

(** Two localities that share a postal code and an additional digit. *)
Definition zurich_02 : PostalCodesModel.PostalLocalityV1 :=
  PostalCodesModel.mkPostalLocalityV1 "Zürich" "8001" "02" "Zürich" 261 "ZH"
    2683141 1247935 "de" "2008-07-01".
Definition sihlpost_02 : PostalCodesModel.PostalLocalityV1 :=
  PostalCodesModel.mkPostalLocalityV1 "Zürich Sihlpost" "8001" "02" "Zürich" 261 "ZH"
    2682500 1247800 "de" "2008-07-01".

(** [sep.join(xs)]. *)
Fixpoint join (sep : string) (xs : list string) : string :=
  match xs with
  | [] => EmptyString
  | [x] => x
  | x :: rest => x +:+ sep +:+ join sep rest
  end.

(** What the string functions test on a byte that is a decimal digit: it is
    no comma, no space, and starts no white space. *)
Definition digit_byte_facts (c : ascii) : bool :=
  implb (Py.is_digit c) (differs "," c && differs " " c && plain c).

(** A run of decimal digits that is not empty. *)
Definition is_code (ds : list Z) : Prop := ds ≠ [] ∧ Forall decimal ds.

(** An entry of ZIP_LABEL: a postal code, a space and a locality. *)
Definition zip_entry (e : list Z * string) : string :=
  digits_str e.1 +:+ " " +:+ e.2.

(** A street with the given ZIP_LABEL, STR_PARENT and STR_CHILDREN. *)
Definition street_kwargs (canton postal_codes : string)
    (parent children : option string) : StreetsModel.kwargs :=
  {| StreetsModel.kw_esid := "10194929";
     StreetsModel.kw_name := "Untere Kirchenholzstrasse";
     StreetsModel.kw_postal_codes := postal_codes;
     StreetsModel.kw_municipality_bfs := 230;
     StreetsModel.kw_municipality_name := "Winterthur";
     StreetsModel.kw_canton_code := canton;
     StreetsModel.kw_street_type := "Street";
     StreetsModel.kw_status := "real";
     StreetsModel.kw_is_official := StreetsModel.InText "true";
     StreetsModel.kw_easting := 2695609;
     StreetsModel.kw_northing := 1264330;
     StreetsModel.kw_modified_date := "23.07.2024";
     StreetsModel.kw_parent_esid := parent;
     StreetsModel.kw_children_esids := children |}.

Definition street (postal_codes : string) (children : option string)
    : StreetsModel.StreetV1 :=
  StreetsModel.mkStreetV1 "10194929" "Untere Kirchenholzstrasse" postal_codes 230
    "Winterthur" "ZH" "Street" "real" true 2695609 1264330 "23.07.2024"
    None children.

(** [g] changes nothing that enrichment reads: the code, the level, the
    parent reference, the short name and the name of a record. *)
Definition keeps_hierarchy
    (g : MunicipalitiesModel.MunicipalityV1 → MunicipalitiesModel.MunicipalityV1)
    : Prop :=
  ∀ m, MunicipalitiesModel.historical_code (g m) = MunicipalitiesModel.historical_code m
       ∧ MunicipalitiesModel.level (g m) = MunicipalitiesModel.level m
       ∧ MunicipalitiesModel.parent (g m) = MunicipalitiesModel.parent m
       ∧ MunicipalitiesModel.short_name (g m) = MunicipalitiesModel.short_name m
       ∧ MunicipalitiesModel.name (g m) = MunicipalitiesModel.name m.

(** A reader of the two-column CSV of the examples: one row per line after
    the header, with the columns HistoricalCode and Name. *)
Definition toy_reader (text : string) (delimiter : ascii) : list (gmap string string) :=
  omap (fun line =>
          match Py.split delimiter line with
          | [code; name] =>
              Some (list_to_map [("HistoricalCode", code); ("Name", name)])
          | _ => None
          end)
       (drop 1 (Py.split (Py.chr 10) text)).

(** A remote source that answers once with a CSV and counts its calls. *)
Definition remote_csv : GeoBase.action nat string :=
  fun calls =>
    (Return ("HistoricalCode,Name" +:+ String (Py.chr 10) "1,Zürich"), S calls).

Definition no_fallback : GeoBase.action nat string :=
  fun calls =>
    (Raise (GeoBase.Exn GeoBase.NoFallbackDataError "Fallback CSV file not found"),
     calls).

(** [m] leaves what is at [p] as it is, when there is something at [p]. *)
Definition frames (p : Importer.path) {A} (m : Importer.M A) : Prop :=
  ∀ w r w', m w = (r, w') →
    is_Some (Importer.fs w !! p) → Importer.fs w' !! p = Importer.fs w !! p.

(** The version file beside the generated module. *)
Definition version_file (self : Importer.BaseImporter) : Importer.path :=
  Importer.output_dir self ++ ["VERSION"].

(** The parsed entry [kv] comes from [row]: the row is marked as valid, its
    ISO2 cell is the key and its BFS cell gives the code, neither empty. *)
Definition entry_from_row (kv : Importer.cell * Importer.parsed)
    (row : list Importer.cell) : Prop :=
  row !! 22%nat = Some (Importer.CStr "J")
  ∧ row !! 2%nat = Some kv.1
  ∧ Importer.cell_truthy kv.1 = true
  ∧ ∃ bfs_code, row !! 0%nat = Some bfs_code
                ∧ Importer.cell_truthy bfs_code = true
                ∧ Importer.p_bfs_code kv.2 = Importer.cell_str bfs_code.

(** A project without the source workbook, and one whose workbook has a
    data row of one cell. *)
Definition empty_world : Importer.world :=
  {| Importer.fs := ∅;
     Importer.isoformat_at := fun _ => "2025-10-27T15:50:50";
     Importer.clock := 0;
     Importer.stdout := [] |}.

Definition short_workbook : Importer.workbook :=
  {| Importer.sheets :=
       [("Stat_Geb", [replicate 23 (Importer.CStr "header"); [Importer.CInt 8100]])] |}.

Definition short_world : Importer.world :=
  {| Importer.fs := {[ Importer.excel_path importer := Importer.XlsxFile short_workbook ]};
     Importer.isoformat_at := fun _ => "2025-10-27T15:50:50";
     Importer.clock := 0;
     Importer.stdout := [] |}.

(** * Properties *)

(** A decidable statement about closed terms, settled by evaluation. *)
Ltac by_compute := apply (bool_decide_unpack _); vm_compute; exact I.

(** ** Country lookup *)

Section CountryFacts.
Import CountryCodes Countries.

Lemma foldl_pointwise {A B} (f g : A → B → A) (l : list B) (a : A) :
  (∀ a b, f a b = g a b) → foldl f a l = foldl g a l.
Proof.
  intros Hfg. revert a. induction l as [|b l IH]; intros a; simpl; [done|].
  rewrite Hfg. apply IH.
Qed.





(** The language only enters a search through [get_name], which reads an
    unknown code as German. *)
Lemma get_name_unknown c language :
  language ≠ "de" → language ≠ "fr" → language ≠ "it" → language ≠ "en" →
  get_name c language = get_name c "de".
Proof.
  intros Hde Hfr Hit Hen. unfold get_name, Py.str_eqb.
  apply Stdlib.Strings.String.eqb_neq in Hde, Hfr, Hit, Hen.
  by rewrite Hde, Hfr, Hit, Hen.
Qed.

Lemma search_countries_in_ext asset query l1 l2 :
  (∀ c, get_name c l1 = get_name c l2) →
  search_countries_in asset query l1 = search_countries_in asset query l2.
Proof.
  intros Hext. unfold search_countries_in.
  apply foldl_pointwise. intros results c. by rewrite Hext.
Qed.

End CountryFacts.

(** C4.  [get_country('CH')] is the record with bfs_code 8100, iso3 CHE and
    the names Schweiz, Suisse, Svizzera and Switzerland. *)
Theorem get_country_CH :
  Countries.get_country "CH"
  = Some (Countries.mkCountry "CH" "8100" "CHE"
            "Schweiz" "Suisse" "Svizzera" "Switzerland").
Proof. vm_compute. reflexivity. Qed.


(** C1, as the code has it.  For a language code that is none of de, fr, it
    and en, [search_countries(query, language)] is the search over the German
    names: it returns what [search_countries(query, 'de')] returns. *)
Theorem search_countries_unknown_language (query language : string) :
  language ∉ known_languages →
  Countries.search_countries query language
  = Countries.search_countries query "de".
Proof.
  intros Hnot. unfold Countries.search_countries.
  apply search_countries_in_ext. intros c.
  apply get_name_unknown; intros ->; apply Hnot; unfold known_languages;
    set_solver.
Qed.

Lemma search_countries_unknown_language_witness :
  ("xx" ∉ known_languages)
  ∧ Countries.search_countries "Schweiz" "xx"
    = Countries.search_countries "Schweiz" "de".
Proof.
  assert (H : "xx" ∉ known_languages) by by_compute.
  split; [exact H|].
  exact (search_countries_unknown_language "Schweiz" "xx" H).
Defined.

(** C1 as stated fails: the unknown code xx finds Switzerland by its German
    name. *)
Lemma search_countries_unknown_language_not_empty :
  ("xx" ∉ known_languages)
  ∧ Countries.search_countries "Schweiz" "xx"
    = [Countries.mkCountry "CH" "8100" "CHE"
         "Schweiz" "Suisse" "Svizzera" "Switzerland"]
  ∧ Countries.search_countries "Schweiz" "xx" ≠ [].
Proof.
  split; [by_compute|].
  split; [vm_compute; reflexivity|].
  vm_compute. discriminate.
Qed.

(** ** Postal localities *)

Section PostalFacts.
Import Validation PostalCodesModel.

Lemma all_ascii_complete (c : ascii) : c ∈ all_ascii.
Proof.
  unfold all_ascii. apply list_elem_of_fmap. exists (nat_of_ascii c).
  split; [by rewrite ascii_nat_embedding|].
  apply elem_of_seq. pose proof (nat_ascii_bounded c). lia.
Qed.

Lemma forall_ascii (P : ascii → bool) :
  forallb P all_ascii = true → ∀ c, P c = true.
Proof.
  intros H c. rewrite forallb_forall in H. apply H.
  apply list_elem_of_In, all_ascii_complete.
Qed.

Lemma letter_facts_all c : letter_facts c = true.
Proof. revert c. apply forall_ascii. vm_compute. reflexivity. Qed.

Lemma letter_is c :
  Py.is_ascii_letter c = true →
  Py.byte_in 9 13 c = false ∧ Py.byte_in 28 32 c = false
  ∧ Py.byte_is 194 c = false ∧ Py.byte_is 195 c = false
  ∧ Py.byte_is 225 c = false ∧ Py.byte_is 226 c = false
  ∧ Py.byte_is 227 c = false
  ∧ Py.is_upper_AZ (up c) = true ∧ Py.is_ascii_letter (up c) = true
  ∧ (Py.is_lower_az c = true → Py.is_upper_AZ c = false).
Proof.
  intros Hc. pose proof (letter_facts_all c) as H.
  unfold letter_facts in H. rewrite Hc in H. simpl in H.
  repeat (apply andb_prop in H as [H ?]).
  repeat match goal with
         | H : negb _ = true |- _ => apply negb_true_iff in H
         end.
  repeat split; try done.
  intros Hl. match goal with H : implb _ _ = true |- _ => rewrite Hl in H; simpl in H;
    by apply negb_true_iff in H end.
Qed.

Lemma drop_space_letter c s :
  Py.is_ascii_letter c = true → Py.drop_space (String c s) = None.
Proof.
  intros Hc. destruct (letter_is c Hc) as (H1 & H2 & H3 & _ & H5 & H6 & H7 & _).
  unfold Py.drop_space. rewrite H1, H2, H3, H5, H6, H7. simpl.
  destruct s as [|d [|e s]]; reflexivity.
Qed.

Lemma lstrip_letter c s :
  Py.is_ascii_letter c = true → Py.lstrip (String c s) = String c s.
Proof.
  intros Hc. unfold Py.lstrip. simpl Stdlib.Strings.String.length.
  cbv beta iota delta [Py.lstrip_fuel]. by rewrite (drop_space_letter c s Hc).
Qed.

Lemma strip_two_letters c1 c2 :
  Py.is_ascii_letter c1 = true → Py.is_ascii_letter c2 = true →
  Py.strip (two_chars c1 c2) = two_chars c1 c2.
Proof.
  intros H1 H2. unfold Py.strip, two_chars. rewrite (lstrip_letter c1 _ H1).
  cbn [Py.rstrip]. unfold Py.isspace_all.
  rewrite (lstrip_letter c1 _ H1), (lstrip_letter c2 _ H2). reflexivity.
Qed.

Lemma upper_letter c s :
  Py.is_ascii_letter c = true → Py.upper (String c s) = String (up c) (Py.upper s).
Proof.
  intros Hc. destruct (letter_is c Hc) as (_ & _ & H3 & H4 & _).
  unfold up, Py.is_lower_az. cbn [Py.upper].
  destruct (Py.byte_in 97 122 c); [reflexivity|].
  rewrite H3, H4. simpl. by destruct s.
Qed.

Lemma upper_two_letters c1 c2 :
  Py.is_ascii_letter c1 = true → Py.is_ascii_letter c2 = true →
  Py.upper (two_chars c1 c2) = two_chars (up c1) (up c2).
Proof.
  intros H1 H2. unfold two_chars.
  by rewrite (upper_letter c1 _ H1), (upper_letter c2 _ H2).
Qed.

Lemma canton_letters c1 c2 :
  Py.is_ascii_letter c1 = true → Py.is_ascii_letter c2 = true →
  Py.strip (uppercase_canton_code (two_chars c1 c2)) = Py.upper (two_chars c1 c2)
  ∧ match_canton_or_empty (Py.upper (two_chars c1 c2)) = true.
Proof.
  intros H1 H2.
  destruct (letter_is c1 H1) as (_ & _ & _ & _ & _ & _ & _ & Hu1 & Hl1 & _).
  destruct (letter_is c2 H2) as (_ & _ & _ & _ & _ & _ & _ & Hu2 & Hl2 & _).
  unfold uppercase_canton_code.
  rewrite (strip_two_letters c1 c2 H1 H2), (upper_two_letters c1 c2 H1 H2).
  rewrite (strip_two_letters _ _ Hl1 Hl2). simpl.
  rewrite (strip_two_letters _ _ Hl1 Hl2). split; [done|].
  unfold match_canton_or_empty, all_chars. simpl. by rewrite Hu1, Hu2.
Qed.

Lemma lowercase_not_matched c1 c2 :
  Py.is_lower_az c1 || Py.is_lower_az c2 = true →
  match_canton_or_empty (two_chars c1 c2) = false.
Proof.
  intros H. unfold match_canton_or_empty, all_chars. simpl.
  apply orb_true_iff in H as [H|H].
  - assert (Hc : Py.is_ascii_letter c1 = true).
    { unfold Py.is_ascii_letter. rewrite H. apply orb_true_r. }
    destruct (letter_is c1 Hc) as (_ & _ & _ & _ & _ & _ & _ & _ & _ & Hn).
    by rewrite (Hn H).
  - assert (Hc : Py.is_ascii_letter c2 = true).
    { unfold Py.is_ascii_letter. rewrite H. apply orb_true_r. }
    destruct (letter_is c2 Hc) as (_ & _ & _ & _ & _ & _ & _ & _ & _ & Hn).
    rewrite (Hn H). simpl. apply andb_false_r.
Qed.
Lemma check_elem field f ok : f ∈ check field ok → f = field ∧ ok = false.
Proof.
  destruct ok; simpl; intros H.
  - by apply elem_of_nil in H.
  - by apply list_elem_of_singleton in H.
Qed.

Lemma canton_code_not_rejected kw :
  match_canton_or_empty (Py.strip (uppercase_canton_code (kw_canton_code kw))) = true →
  "canton_code" ∉ field_errors kw.
Proof.
  intros Hm Hin. unfold field_errors in Hin. rewrite Hm in Hin.
  repeat (apply elem_of_app in Hin as [Hin|Hin];
          [first [ by apply elem_of_nil in Hin
                 | apply check_elem in Hin as [Hin _]; discriminate Hin ]|]).
  apply check_elem in Hin as [Hin _]. discriminate Hin.
Qed.

End PostalFacts.

(** C5.  [full_postal_code] is the postal code alone when the additional digit
    is 00, and the postal code, a dash and the additional digit when that is
    any other two digits. *)
Theorem full_postal_code_spec (self : PostalCodesModel.PostalLocalityV1) :
  (PostalCodesModel.additional_digit self = "00" →
   PostalCodesModel.full_postal_code self = PostalCodesModel.postal_code self)
  ∧ (Validation.match_digits 2 (PostalCodesModel.additional_digit self) = true →
     PostalCodesModel.additional_digit self ≠ "00" →
     PostalCodesModel.full_postal_code self
     = PostalCodesModel.postal_code self +:+ "-" +:+
       PostalCodesModel.additional_digit self).
Proof.
  unfold PostalCodesModel.full_postal_code. split.
  - intros ->. reflexivity.
  - intros Hd Hne.
    assert (Py.truthy (PostalCodesModel.additional_digit self) = true) as ->.
    { destruct (PostalCodesModel.additional_digit self); [discriminate Hd|done]. }
    apply Stdlib.Strings.String.eqb_neq in Hne. unfold Py.str_eqb.
    by rewrite Hne.
Qed.

Lemma full_postal_code_spec_witness :
  PostalCodesModel.full_postal_code
    (PostalCodesModel.mkPostalLocalityV1 "Zürich" "8001" "00" "Zürich" 261 "ZH"
       2683141 1247935 "de" "2008-07-01") = "8001"
  ∧ PostalCodesModel.full_postal_code
      (PostalCodesModel.mkPostalLocalityV1 "Zürich" "8001" "02" "Zürich" 261 "ZH"
         2683141 1247935 "de" "2008-07-01") = "8001-02".
Proof.
  split.
  - exact (proj1 (full_postal_code_spec
             (PostalCodesModel.mkPostalLocalityV1 "Zürich" "8001" "00" "Zürich" 261 "ZH"
                2683141 1247935 "de" "2008-07-01")) eq_refl).
  - refine (proj2 (full_postal_code_spec
              (PostalCodesModel.mkPostalLocalityV1 "Zürich" "8001" "02" "Zürich" 261 "ZH"
                 2683141 1247935 "de" "2008-07-01")) eq_refl _).
    discriminate.
Defined.

(** C9.  A canton code given as two ASCII letters in any case is accepted:
    the pattern of the field is checked on its upper-case form, so the
    field is never among the rejected ones, and a record that is constructed
    stores the upper-case form.  The pattern itself does not admit a
    lower-case letter. *)
Theorem lowercase_canton_code_accepted
    (kw : PostalCodesModel.kwargs) (c1 c2 : ascii) :
  Py.is_ascii_letter c1 = true → Py.is_ascii_letter c2 = true →
  PostalCodesModel.kw_canton_code kw = two_chars c1 c2 →
  match PostalCodesModel.new kw with
  | Validation.Valid r =>
      PostalCodesModel.canton_code r = Py.upper (two_chars c1 c2)
  | Validation.Invalid fields => "canton_code" ∉ fields
  end
  ∧ Validation.match_canton_or_empty (Py.upper (two_chars c1 c2)) = true
  ∧ (Py.is_lower_az c1 || Py.is_lower_az c2 = true →
     Validation.match_canton_or_empty (two_chars c1 c2) = false).
Proof.
  intros H1 H2 Hkw.
  destruct (canton_letters c1 c2 H1 H2) as [Hstrip Hmatch].
  split; [|split; [exact Hmatch|]].
  - pose proof (canton_code_not_rejected kw) as Hnot.
    unfold PostalCodesModel.new. rewrite Hkw in *. rewrite Hstrip in *.
    destruct (PostalCodesModel.field_errors kw) as [|f fs]; [reflexivity|].
    by apply Hnot.
  - apply lowercase_not_matched.
Qed.

Lemma lowercase_canton_code_accepted_witness :
  PostalCodesModel.new (zurich_kwargs "zh")
  = Validation.Valid
      (PostalCodesModel.mkPostalLocalityV1 "Zürich" "8001" "00" "Zürich" 261 "ZH"
         2683141 1247935 "de" "2008-07-01")
  ∧ match PostalCodesModel.new (zurich_kwargs "zh") with
    | Validation.Valid r => PostalCodesModel.canton_code r = "ZH"
    | Validation.Invalid fields => "canton_code" ∉ fields
    end.
Proof.
  split; [vm_compute; reflexivity|].
  exact (proj1 (lowercase_canton_code_accepted (zurich_kwargs "zh") "z" "h"
                  eq_refl eq_refl eq_refl)).
Defined.

(** ** Fetch or fallback *)




(** ** Canton enrichment *)

Section EnrichFacts.
Import MunicipalitiesModel MunicipalitiesAPI.

Lemma foldl_snoc_map {A B} (f : A → B) (l : list A) (acc : list B) :
  foldl (fun enriched m => enriched ++ [f m]) acc l = acc ++ (f <$> l).
Proof.
  revert acc. induction l as [|x l IH]; intros acc; simpl.
  - by rewrite app_nil_r.
  - rewrite IH. by rewrite <- app_assoc.
Qed.

Lemma enrich_as_map municipalities :
  _enrich_with_cantons municipalities
  = enrich_one (by_historical_code municipalities) <$> municipalities.
Proof. unfold _enrich_with_cantons. by rewrite foldl_snoc_map. Qed.

Lemma enrich_lookup municipalities i m :
  municipalities !! i = Some m →
  _enrich_with_cantons municipalities !! i
  = Some (model_copy_cantons m
            (cantons_of (by_historical_code municipalities) m).1
            (cantons_of (by_historical_code municipalities) m).2).
Proof.
  intros Hi. rewrite enrich_as_map, list_lookup_fmap, Hi. simpl.
  unfold enrich_one. by destruct (cantons_of _ m).
Qed.

Lemma truthy_opt_Some c : c ≠ "" → Py.truthy_opt (Some c) = true.
Proof. intros Hc. by destruct c. Qed.

Variable by_code : gmap string MunicipalityV1.

Lemma walk_found n k m d a :
  walks_to by_code k m d → canton_parent by_code d a → (k < n)%nat →
  walk by_code n m = (short_name a, Some (name a)).
Proof.
  intros Hw (c & Hp & Hc & Hl & Ha). revert n.
  induction Hw as [m|k m c' p d Hp' Hc' Hl' Hnot Hw IH]; intros n Hk.
  - destruct n as [|n]; [lia|]. simpl.
    rewrite Hp, (truthy_opt_Some c Hc). simpl. by rewrite Hl, Ha.
  - destruct n as [|n]; [lia|]. simpl.
    rewrite Hp', (truthy_opt_Some c' Hc'). simpl. rewrite Hl', Hnot.
    apply IH; [done..|lia].
Qed.

Lemma walk_unresolved n k m d :
  walks_to by_code k m d → unresolved by_code d →
  walk by_code n m = (None, None).
Proof.
  intros Hw Hu. revert n.
  induction Hw as [m|k m c' p d Hp' Hc' Hl' Hnot Hw IH]; intros n.
  - destruct n as [|n]; [done|]. simpl.
    destruct Hu as [Hu|[Hu|(c & Hu & Hl)]]; rewrite Hu; simpl; [done..|].
    destruct (Py.truthy c); [|done]. by rewrite Hl.
  - destruct n as [|n]; [done|]. simpl.
    rewrite Hp', (truthy_opt_Some c' Hc'). simpl. rewrite Hl', Hnot.
    by apply IH.
Qed.

Lemma walk_capped n m d :
  walks_to by_code n m d → walk by_code n m = (None, None).
Proof.
  intros Hw. induction Hw as [m|k m c' p d Hp' Hc' Hl' Hnot Hw IH]; [done|].
  simpl. rewrite Hp', (truthy_opt_Some c' Hc'). simpl. by rewrite Hl', Hnot.
Qed.

(** Below a record that is no canton, [cantons_of] is the walk. *)
Lemma cantons_of_walk m :
  is_level_1 m = false → cantons_of by_code m = walk by_code max_depth m.
Proof.
  intros Hm. unfold cantons_of. rewrite Hm.
  destruct (Py.truthy_opt (parent m)) eqn:Hp; [done|].
  simpl. by rewrite Hp.
Qed.

End EnrichFacts.

Section SnapshotFacts.
Import MunicipalitiesModel MunicipalitiesAPI.

Lemma foldl_insert_None (ms : list MunicipalityV1)
    (d : gmap string MunicipalityV1) (c : string) :
  foldl (fun d m => <[historical_code m := m]> d) d ms !! c = None
  ↔ d !! c = None ∧ ∀ m, m ∈ ms → historical_code m ≠ c.
Proof.
  revert d. induction ms as [|x ms IH]; intros d; simpl.
  - split; [intros H; split; [done|]; intros m Hm; by apply elem_of_nil in Hm|tauto].
  - rewrite IH. rewrite lookup_insert_None. split.
    + intros [[Hd Hx] Hms]. split; [done|].
      intros m Hm. apply elem_of_cons in Hm as [->|Hm]; [done|by apply Hms].
    + intros [Hd Hms]. split; [split; [done|]|].
      * apply Hms. by left.
      * intros m Hm. apply Hms. by right.
Qed.

Lemma by_historical_code_None ms c :
  by_historical_code ms !! c = None ↔ ∀ m, m ∈ ms → historical_code m ≠ c.
Proof.
  unfold by_historical_code. rewrite foldl_insert_None.
  split; [tauto|]. intros H. split; [apply lookup_empty|done].
Qed.

Lemma foldl_insert_Some (ms : list MunicipalityV1)
    (d : gmap string MunicipalityV1) (c : string) (p : MunicipalityV1) :
  foldl (fun d m => <[historical_code m := m]> d) d ms !! c = Some p →
  d !! c = Some p ∨ (p ∈ ms ∧ historical_code p = c).
Proof.
  revert d. induction ms as [|x ms IH]; intros d; simpl; [by left|].
  intros H. apply IH in H as [H|[H1 H2]].
  - apply lookup_insert_Some in H as [[<- <-]|[_ H]]; [|by left].
    right. split; [by left|done].
  - right. split; [by right|done].
Qed.

Lemma by_historical_code_Some ms c p :
  by_historical_code ms !! c = Some p → p ∈ ms ∧ historical_code p = c.
Proof.
  intros H. apply foldl_insert_Some in H as [H|H]; [|done].
  by rewrite lookup_empty in H.
Qed.

End SnapshotFacts.

(** C3.  Enrichment returns one record per record, equal to it in every
    field but [canton_code] and [canton_name], and raises nothing.  A level-1
    record gets its own short_name and name in the two fields.  Any other
    record gets the short_name and name of the first level-1 record on its
    parent chain when that is at most 5 parent references away (two for a
    commune below a district below a canton); both fields are absent when 5
    references lead through records that are no cantons, or when a reference
    on the way is missing or names no record of the snapshot. *)
Theorem enrich_with_cantons_walks
    (municipalities : list MunicipalitiesModel.MunicipalityV1) :
  let by_code := MunicipalitiesAPI.by_historical_code municipalities in
  let enriched := MunicipalitiesAPI._enrich_with_cantons municipalities in
  length enriched = length municipalities
  ∧ (∀ c, by_code !! c = None
          ↔ ∀ m, m ∈ municipalities → MunicipalitiesModel.historical_code m ≠ c)
  ∧ ∀ i m, municipalities !! i = Some m →
      ∃ e,
        enriched !! i = Some e
        ∧ copy_but_cantons e m
        ∧ (MunicipalitiesAPI.is_level_1 m = true →
           MunicipalitiesModel.canton_code e = MunicipalitiesModel.short_name m
           ∧ MunicipalitiesModel.canton_name e = Some (MunicipalitiesModel.name m))
        ∧ (MunicipalitiesAPI.is_level_1 m = false →
           ∀ k d a, walks_to by_code k m d → canton_parent by_code d a →
                    (S k ≤ 5)%nat →
             MunicipalitiesModel.canton_code e = MunicipalitiesModel.short_name a
             ∧ MunicipalitiesModel.canton_name e
               = Some (MunicipalitiesModel.name a))
        ∧ (MunicipalitiesAPI.is_level_1 m = false →
           ∀ d, walks_to by_code 5 m d →
             MunicipalitiesModel.canton_code e = None
             ∧ MunicipalitiesModel.canton_name e = None)
        ∧ (MunicipalitiesAPI.is_level_1 m = false →
           ∀ k d, walks_to by_code k m d → unresolved by_code d →
             MunicipalitiesModel.canton_code e = None
             ∧ MunicipalitiesModel.canton_name e = None).
Proof.
  intros by_code enriched. split; [|split].
  - unfold enriched. rewrite enrich_as_map. apply length_fmap.
  - intros c. apply by_historical_code_None.
  - intros i m Hi.
    exists (MunicipalitiesModel.model_copy_cantons m
              (MunicipalitiesAPI.cantons_of by_code m).1
              (MunicipalitiesAPI.cantons_of by_code m).2).
    split; [by apply enrich_lookup|].
    split; [by repeat split|].
    cbn [MunicipalitiesModel.model_copy_cantons MunicipalitiesModel.canton_code
         MunicipalitiesModel.canton_name].
    split; [|split; [|split]].
    + intros Hm. unfold MunicipalitiesAPI.cantons_of. by rewrite Hm.
    + intros Hm k d a Hw Ha Hk.
      rewrite (cantons_of_walk by_code m Hm).
      by rewrite (walk_found by_code MunicipalitiesAPI.max_depth k m d a Hw Ha Hk).
    + intros Hm d Hw.
      rewrite (cantons_of_walk by_code m Hm).
      by rewrite (walk_capped by_code MunicipalitiesAPI.max_depth m d Hw).
    + intros Hm k d Hw Hu.
      rewrite (cantons_of_walk by_code m Hm).
      by rewrite (walk_unresolved by_code _ k m d Hw Hu).
Qed.

Lemma enrich_with_cantons_walks_witness :
  cantons_at snapshot 2 = Some (Some "ZH", Some "Zürich")
  ∧ cantons_at snapshot 3 = Some (None, None)
  ∧ cantons_at snapshot 4 = Some (None, None)
  ∧ cantons_at deep_snapshot 5 = Some (Some "ZH", Some "Zürich")
  ∧ cantons_at deep_snapshot 6 = Some (None, None).
Proof.
  destruct (enrich_with_cantons_walks snapshot) as (_ & _ & Hrec).
  destruct (enrich_with_cantons_walks deep_snapshot) as (_ & _ & Hdeep).
  unfold cantons_at.
  split; [|split; [|split; [|split]]].
  - destruct (Hrec 2%nat commune_X eq_refl) as (e & -> & _ & _ & Hfound & _ & _).
    destruct (Hfound eq_refl 1%nat district_ZH canton_ZH) as [Hc Hn];
      [| |repeat constructor|simpl; by rewrite Hc, Hn].
    + apply (walks_up _ 0 commune_X "10053" district_ZH district_ZH);
        [reflexivity|discriminate|reflexivity|reflexivity|apply walks_here].
    + exists "1". repeat split; [discriminate].
  - destruct (Hrec 3%nat district_loop eq_refl) as (e & -> & _ & _ & _ & Hcap & _).
    destruct (Hcap eq_refl district_loop) as [Hc Hn]; [|simpl; by rewrite Hc, Hn].
    repeat (apply (walks_up _ _ district_loop "20001" district_loop district_loop);
            [reflexivity|discriminate|reflexivity|reflexivity|]).
    apply walks_here.
  - destruct (Hrec 4%nat commune_orphan eq_refl) as (e & -> & _ & _ & _ & _ & Hun).
    destruct (Hun eq_refl 0%nat commune_orphan) as [Hc Hn];
      [apply walks_here| |simpl; by rewrite Hc, Hn].
    right. right. exists "99999". split; reflexivity.
  - destruct (Hdeep 5%nat below_5 eq_refl) as (e & -> & _ & _ & Hfound & _ & _).
    destruct (Hfound eq_refl 4%nat below_1 canton_ZH) as [Hc Hn];
      [| |repeat constructor|simpl; by rewrite Hc, Hn].
    + apply (walks_up _ 3 below_5 "104" below_4 below_1);
        [reflexivity|discriminate|reflexivity|reflexivity|].
      apply (walks_up _ 2 below_4 "103" below_3 below_1);
        [reflexivity|discriminate|reflexivity|reflexivity|].
      apply (walks_up _ 1 below_3 "102" below_2 below_1);
        [reflexivity|discriminate|reflexivity|reflexivity|].
      apply (walks_up _ 0 below_2 "101" below_1 below_1);
        [reflexivity|discriminate|reflexivity|reflexivity|apply walks_here].
    + exists "1". repeat split; [discriminate].
  - destruct (Hdeep 6%nat below_6 eq_refl) as (e & -> & _ & _ & _ & Hcap & _).
    destruct (Hcap eq_refl below_1) as [Hc Hn]; [|simpl; by rewrite Hc, Hn].
    apply (walks_up _ 4 below_6 "105" below_5 below_1);
      [reflexivity|discriminate|reflexivity|reflexivity|].
    apply (walks_up _ 3 below_5 "104" below_4 below_1);
      [reflexivity|discriminate|reflexivity|reflexivity|].
    apply (walks_up _ 2 below_4 "103" below_3 below_1);
      [reflexivity|discriminate|reflexivity|reflexivity|].
    apply (walks_up _ 1 below_3 "102" below_2 below_1);
      [reflexivity|discriminate|reflexivity|reflexivity|].
    apply (walks_up _ 0 below_2 "101" below_1 below_1);
      [reflexivity|discriminate|reflexivity|reflexivity|apply walks_here].
Defined.

(** C10.  Enrichment yields records with a canton name and no canton code: a
    level-1 record without short_name gets its own name and no code, and a
    record below such a canton gets the canton's name and no code. *)
Theorem enrichment_name_without_code :
  (∃ municipalities m',
     m' ∈ MunicipalitiesAPI._enrich_with_cantons municipalities
     ∧ MunicipalitiesModel.canton_code m' = None
     ∧ is_Some (MunicipalitiesModel.canton_name m'))
  ∧ ∀ municipalities i m,
      municipalities !! i = Some m →
      let by_code := MunicipalitiesAPI.by_historical_code municipalities in
      let enriched := MunicipalitiesAPI._enrich_with_cantons municipalities in
      (MunicipalitiesAPI.is_level_1 m = true →
       MunicipalitiesModel.short_name m = None →
       ∃ m', enriched !! i = Some m'
             ∧ MunicipalitiesModel.canton_code m' = None
             ∧ MunicipalitiesModel.canton_name m'
               = Some (MunicipalitiesModel.name m))
      ∧ (MunicipalitiesAPI.is_level_1 m = false →
         ∀ k d a, walks_to by_code k m d → canton_parent by_code d a →
                  (S k ≤ MunicipalitiesAPI.max_depth)%nat →
                  MunicipalitiesModel.short_name a = None →
           ∃ m', enriched !! i = Some m'
                 ∧ MunicipalitiesModel.canton_code m' = None
                 ∧ MunicipalitiesModel.canton_name m'
                   = Some (MunicipalitiesModel.name a)).
Proof.
  assert (Hgen : ∀ municipalities i m,
      municipalities !! i = Some m →
      let by_code := MunicipalitiesAPI.by_historical_code municipalities in
      let enriched := MunicipalitiesAPI._enrich_with_cantons municipalities in
      (MunicipalitiesAPI.is_level_1 m = true →
       MunicipalitiesModel.short_name m = None →
       ∃ m', enriched !! i = Some m'
             ∧ MunicipalitiesModel.canton_code m' = None
             ∧ MunicipalitiesModel.canton_name m'
               = Some (MunicipalitiesModel.name m))
      ∧ (MunicipalitiesAPI.is_level_1 m = false →
         ∀ k d a, walks_to by_code k m d → canton_parent by_code d a →
                  (S k ≤ MunicipalitiesAPI.max_depth)%nat →
                  MunicipalitiesModel.short_name a = None →
           ∃ m', enriched !! i = Some m'
                 ∧ MunicipalitiesModel.canton_code m' = None
                 ∧ MunicipalitiesModel.canton_name m'
                   = Some (MunicipalitiesModel.name a))).
  { intros municipalities i m Hi by_code enriched. subst by_code enriched. split.
    - intros Hm Hs. eexists. split; [by apply enrich_lookup|].
      unfold MunicipalitiesAPI.cantons_of. rewrite Hm. simpl. by rewrite Hs.
    - intros Hm k d a Hw Ha Hk Hs. eexists. split; [by apply enrich_lookup|].
      rewrite (cantons_of_walk _ m Hm).
      rewrite (walk_found _ _ k m d a Hw Ha Hk). simpl. by rewrite Hs. }
  split; [|exact Hgen].
  exists [canton_unnamed].
  destruct (Hgen [canton_unnamed] 0%nat canton_unnamed eq_refl) as [H _].
  destruct (H eq_refl eq_refl) as (m' & Hm' & Hc & Hn).
  exists m'. split; [by eapply list_elem_of_lookup_2|].
  split; [done|]. rewrite Hn. by eexists.
Qed.

Lemma enrichment_name_without_code_witness :
  (∃ m', MunicipalitiesAPI._enrich_with_cantons snapshot !! 5%nat = Some m'
         ∧ MunicipalitiesModel.canton_code m' = None
         ∧ MunicipalitiesModel.canton_name m' = Some "Bern / Berne")
  ∧ (∃ m', MunicipalitiesAPI._enrich_with_cantons snapshot !! 6%nat = Some m'
           ∧ MunicipalitiesModel.canton_code m' = None
           ∧ MunicipalitiesModel.canton_name m' = Some "Bern / Berne").
Proof.
  split.
  - exact (proj1 (proj2 enrichment_name_without_code snapshot 5%nat canton_unnamed eq_refl)
             eq_refl eq_refl).
  - refine (proj2 (proj2 enrichment_name_without_code snapshot 6%nat commune_Y eq_refl)
              eq_refl 0%nat commune_Y canton_unnamed (walks_here _ _) _ _ eq_refl).
    + exists "2". repeat split; [discriminate].
    + repeat constructor.
Defined.

(** ** Date parsing *)

Section DateFacts.
Import Builtins MunicipalitiesModel Validation.

Lemma append_nil_l (s : string) : "" +:+ s = s.
Proof. reflexivity. Qed.

Lemma append_cons c (a b : string) : String c a +:+ b = String c (a +:+ b).
Proof. reflexivity. Qed.

Lemma all_chars_app p a b :
  all_chars p (a +:+ b) = all_chars p a && all_chars p b.
Proof.
  unfold all_chars. induction a as [|c a IH].
  - by rewrite append_nil_l.
  - rewrite append_cons. simpl. by rewrite IH, andb_assoc.
Qed.

Lemma drop_space_plain c s : plain c = true → Py.drop_space (String c s) = None.
Proof.
  unfold plain. intros H.
  repeat (apply andb_prop in H as [H ?]).
  repeat match goal with H : negb _ = true |- _ => apply negb_true_iff in H end.
  unfold Py.drop_space.
  repeat match goal with H : _ = false |- _ => rewrite H; clear H end.
  simpl. destruct s as [|d [|e s]]; reflexivity.
Qed.

Lemma lstrip_plain c s : plain c = true → Py.lstrip (String c s) = String c s.
Proof.
  intros Hc. unfold Py.lstrip. simpl Stdlib.Strings.String.length.
  cbv beta iota delta [Py.lstrip_fuel]. by rewrite (drop_space_plain c s Hc).
Qed.

Lemma rstrip_plain s : all_chars plain s = true → Py.rstrip s = s.
Proof.
  unfold all_chars. induction s as [|c s IH]; simpl; [done|].
  intros H. apply andb_prop in H as [Hc Hs].
  unfold Py.isspace_all. rewrite (lstrip_plain c s Hc). simpl.
  by rewrite (IH Hs).
Qed.

Lemma strip_plain s : all_chars plain s = true → Py.strip s = s.
Proof.
  intros H. unfold Py.strip. destruct s as [|c s]; [reflexivity|].
  pose proof H as H'. unfold all_chars in H'. simpl in H'.
  apply andb_prop in H' as [Hc _].
  rewrite (lstrip_plain c s Hc). by apply rstrip_plain.
Qed.

Lemma int_lstrip_plain c s : plain c = true → int_lstrip (String c s) = String c s.
Proof.
  intros Hc. unfold int_lstrip. simpl Stdlib.Strings.String.length.
  cbv beta iota delta [int_lstrip_fuel]. unfold int_drop_space.
  rewrite (drop_space_plain c s Hc). by destruct (Py.byte_in 28 31 c).
Qed.

Lemma int_rstrip_plain s : all_chars plain s = true → int_rstrip s = s.
Proof.
  unfold all_chars. induction s as [|c s IH]; simpl; [done|].
  intros H. apply andb_prop in H as [Hc Hs].
  rewrite (int_lstrip_plain c s Hc). simpl. by rewrite (IH Hs).
Qed.

Lemma split_no_sep sep s : all_chars (differs sep) s = true → Py.split sep s = [s].
Proof.
  unfold all_chars, differs. induction s as [|c s IH]; cbn -[Ascii.eqb]; [done|].
  intros H. apply andb_prop in H as [Hc Hs]. apply negb_true_iff in Hc.
  by rewrite Hc, (IH Hs).
Qed.

Lemma split_app sep a b :
  all_chars (differs sep) a = true →
  Py.split sep (a +:+ String sep b) = a :: Py.split sep b.
Proof.
  unfold all_chars, differs. induction a as [|c a IH].
  - intros _. rewrite append_nil_l. cbn -[Ascii.eqb]. by rewrite Ascii.eqb_refl.
  - rewrite append_cons. cbn -[Ascii.eqb].
    intros H. apply andb_prop in H as [Hc Ha]. apply negb_true_iff in Hc.
    by rewrite Hc, (IH Ha).
Qed.

Lemma contains_sep sep a b : Py.contains (String sep "") (a +:+ String sep b) = true.
Proof.
  induction a as [|c a IH].
  - rewrite append_nil_l. cbn -[Ascii.eqb]. by rewrite Ascii.eqb_refl.
  - rewrite append_cons. cbn -[Ascii.eqb]. rewrite IH. apply orb_true_r.
Qed.

Lemma contains_no_sep sep s :
  all_chars (differs sep) s = true → Py.contains (String sep "") s = false.
Proof.
  unfold all_chars, differs. induction s as [|c s IH]; cbn -[Ascii.eqb]; [done|].
  intros H. apply andb_prop in H as [Hc Hs]. apply negb_true_iff in Hc.
  rewrite Ascii.eqb_sym, Hc. simpl. by apply IH.
Qed.

Lemma digit_facts_all k : decimal k → digit_facts k = true.
Proof.
  unfold decimal. intros Hk.
  assert (k = 0 ∨ k = 1 ∨ k = 2 ∨ k = 3 ∨ k = 4 ∨ k = 5 ∨ k = 6 ∨ k = 7
          ∨ k = 8 ∨ k = 9) as H by lia.
  repeat (destruct H as [->|H]; [vm_compute; reflexivity|]).
  subst k. vm_compute. reflexivity.
Qed.

Lemma digit_is k :
  decimal k →
  let c := Py.digit_chr k in
  Py.is_digit c = true ∧ Py.digit_val c = k ∧ plain c = true
  ∧ Py.byte_in 128 191 c = false
  ∧ Ascii.eqb c "-" = false ∧ Ascii.eqb c "+" = false
  ∧ Ascii.eqb c "_" = false ∧ Ascii.eqb c "." = false.
Proof.
  intros Hk c. pose proof (digit_facts_all k Hk) as H.
  unfold digit_facts in H. fold c in H.
  do 7 (apply andb_prop in H as [H ?]).
  repeat match goal with H : negb _ = true |- _ => apply negb_true_iff in H end.
  repeat split; try done. by apply Z.eqb_eq.
Qed.

Lemma digits_plain ds : Forall decimal ds → all_chars plain (digits_str ds) = true.
Proof.
  unfold all_chars. induction 1 as [|k ds Hk _ IH]; simpl; [done|].
  destruct (digit_is k Hk) as (_ & _ & Hp & _). by rewrite Hp, IH.
Qed.

Lemma digits_differ sep ds :
  sep = "-"%char ∨ sep = "."%char →
  Forall decimal ds → all_chars (differs sep) (digits_str ds) = true.
Proof.
  intros Hsep. unfold all_chars, differs.
  induction 1 as [|k ds Hk _ IH]; simpl; [done|].
  destruct (digit_is k Hk) as (_ & _ & _ & _ & Hd & _ & _ & Hdot).
  destruct Hsep as [-> | ->]; [rewrite Hd|rewrite Hdot]; by rewrite IH.
Qed.

Lemma digits_len ds : Forall decimal ds → Py.len (digits_str ds) = length ds.
Proof.
  induction 1 as [|k ds Hk _ IH]; simpl; [done|].
  destruct (digit_is k Hk) as (_ & _ & _ & Hc & _). by rewrite Hc, IH.
Qed.

Lemma digits_count ds : Forall decimal ds → count_digits (digits_str ds) = length ds.
Proof.
  induction 1 as [|k ds Hk _ IH]; simpl; [done|].
  destruct (digit_is k Hk) as (Hd & _). by rewrite Hd, IH.
Qed.

Lemma parse_digits_digits ds b acc :
  Forall decimal ds → ds ≠ [] ∨ b = true →
  parse_digits b acc (digits_str ds)
  = Some (foldl (fun acc k => acc * 10 + k) acc ds).
Proof.
  intros Hds. revert b acc.
  induction Hds as [|k ds Hk _ IH]; intros b acc Hne; simpl.
  - destruct Hne as [Hne| ->]; [done|reflexivity].
  - destruct (digit_is k Hk) as (Hd & Hv & _). rewrite Hd, Hv.
    apply IH. by right.
Qed.

Lemma int_digits ds :
  Forall decimal ds → ds ≠ [] → (length ds ≤ max_str_digits)%nat →
  int (digits_str ds) = Return (digits_val ds).
Proof.
  intros Hds Hne Hlen. unfold int.
  rewrite (int_rstrip_plain _) by
    (destruct ds as [|k ds]; [done|];
     inversion Hds; subst; simpl digits_str;
     rewrite int_lstrip_plain by (by apply digit_is);
     apply (digits_plain (k :: ds) Hds)).
  destruct ds as [|k ds]; [done|]. inversion Hds as [|? ? Hk Hds']; subst.
  simpl digits_str. rewrite int_lstrip_plain by (by apply digit_is).
  destruct (digit_is k Hk) as (Hd & Hv & _ & _ & Hm & Hp & _).
  rewrite Hm, Hp.
  change (String (Py.digit_chr k) (digits_str ds)) with (digits_str (k :: ds)).
  rewrite (digits_count _ Hds).
  destruct (Nat.ltb_spec max_str_digits (length (k :: ds))) as [Hlt|_]; [lia|].
  rewrite (parse_digits_digits (k :: ds) false 0 Hds) by (by left).
  reflexivity.
Qed.

Lemma two_digits_int n : 0 ≤ n ≤ 99 → int (two_digits n) = Return n.
Proof.
  intros Hn. unfold two_digits. rewrite int_digits.
  - unfold digits_val. simpl. f_equal. Z.div_mod_to_equations. lia.
  - repeat constructor; unfold decimal; Z.div_mod_to_equations; lia.
  - done.
  - unfold max_str_digits. simpl. lia.
Qed.

Lemma four_digits_int n : 0 ≤ n ≤ 9999 → int (four_digits n) = Return n.
Proof.
  intros Hn. unfold four_digits. rewrite int_digits.
  - unfold digits_val. simpl. f_equal. Z.div_mod_to_equations. lia.
  - repeat constructor; unfold decimal; Z.div_mod_to_equations; lia.
  - done.
  - unfold max_str_digits. simpl. lia.
Qed.

Lemma days_in_month_le y m : days_in_month y m ≤ 31.
Proof.
  unfold days_in_month.
  destruct (m =? 2); [destruct (is_leap y); lia|].
  destruct ((m =? 4) || (m =? 6) || (m =? 9) || (m =? 11)); lia.
Qed.

Lemma date_new_valid y m d : is_date y m d → date_new y m d = Return (Date y m d).
Proof.
  intros (Hy & Hm & Hd). pose proof (days_in_month_le y m) as Hle.
  unfold date_new, fits_c_int.
  repeat match goal with
         | |- context [?a <=? ?b] =>
             let H := fresh in
             destruct (Z.leb_spec a b) as [H|H]; [|exfalso; lia]
         end.
  reflexivity.
Qed.

Lemma two_digits_decimal n : 0 ≤ n ≤ 99 → Forall decimal [n / 10; n mod 10].
Proof. intros Hn. repeat constructor; unfold decimal; Z.div_mod_to_equations; lia. Qed.

Lemma four_digits_decimal n :
  0 ≤ n ≤ 9999 → Forall decimal [n / 1000; n / 100 mod 10; n / 10 mod 10; n mod 10].
Proof. intros Hn. repeat constructor; unfold decimal; Z.div_mod_to_equations; lia. Qed.

Lemma joined_plain sep a b c :
  plain sep = true → all_chars plain a = true → all_chars plain b = true →
  all_chars plain c = true → all_chars plain (joined sep a b c) = true.
Proof.
  intros Hs Ha Hb Hc. unfold joined.
  rewrite all_chars_app, Ha. unfold all_chars at 1. cbn [Stdlib.Strings.String.list_ascii_of_string forallb].
  rewrite Hs. fold (all_chars plain (b +:+ String sep c)).
  rewrite all_chars_app, Hb. unfold all_chars at 1. cbn [Stdlib.Strings.String.list_ascii_of_string forallb].
  rewrite Hs. fold (all_chars plain c). by rewrite Hc.
Qed.

Lemma joined_split sep a b c :
  all_chars (differs sep) a = true → all_chars (differs sep) b = true →
  all_chars (differs sep) c = true →
  Py.split sep (joined sep a b c) = [a; b; c].
Proof.
  intros Ha Hb Hc. unfold joined.
  by rewrite (split_app _ _ _ Ha), (split_app _ _ _ Hb), (split_no_sep _ _ Hc).
Qed.

Lemma joined_differs sep other a b c :
  differs other sep = true →
  all_chars (differs other) a = true → all_chars (differs other) b = true →
  all_chars (differs other) c = true →
  all_chars (differs other) (joined sep a b c) = true.
Proof.
  intros Hs Ha Hb Hc. unfold joined.
  rewrite all_chars_app, Ha. unfold all_chars at 1. cbn [Stdlib.Strings.String.list_ascii_of_string forallb].
  rewrite Hs. fold (all_chars (differs other) (b +:+ String sep c)).
  rewrite all_chars_app, Hb. unfold all_chars at 1. cbn [Stdlib.Strings.String.list_ascii_of_string forallb].
  rewrite Hs. fold (all_chars (differs other) c). by rewrite Hc.
Qed.

Lemma joined_nonempty sep a b c : Py.str_eqb (joined sep a b c) "" = false.
Proof. unfold joined. by destruct a. Qed.

Lemma attempt_date_of_parts a b c i j k y m d :
  [a; b; c] !! i = Some (four_digits y) →
  [a; b; c] !! j = Some (two_digits m) →
  [a; b; c] !! k = Some (two_digits d) →
  is_date y m d →
  attempt (date_of_parts [a; b; c] i j k) = Return (Some (Date y m d)).
Proof.
  intros Hi Hj Hk Hdate. pose proof (days_in_month_le y m) as Hle.
  destruct Hdate as (Hy & Hm & Hd).
  unfold attempt, date_of_parts, index. rewrite Hi, Hj, Hk. simpl.
  rewrite (four_digits_int y), (two_digits_int m), (two_digits_int d) by lia.
  simpl. by rewrite (date_new_valid y m d).
Qed.

Lemma parse_date_joined_dash a b c :
  all_chars plain a = true → all_chars plain b = true → all_chars plain c = true →
  all_chars (differs "-") a = true → all_chars (differs "-") b = true →
  all_chars (differs "-") c = true →
  parse_date (InStr (joined "-" a b c))
  = bind (if (Py.len a <=? 2)%nat
          then attempt (date_of_parts [a; b; c] 2 1 0)
          else attempt (date_of_parts [a; b; c] 0 1 2))
      (fun r1 => match r1 with
                 | Some d => Return (Some d)
                 | None =>
                     bind (if Py.contains "." (joined "-" a b c)
                           then attempt (date_of_parts
                                           (Py.split "." (joined "-" a b c)) 2 1 0)
                           else Return None)
                          (fun r2 => Return r2)
                 end).
Proof.
  intros Pa Pb Pc Da Db Dc. unfold parse_date.
  rewrite joined_nonempty.
  rewrite (strip_plain _ (joined_plain "-" a b c eq_refl Pa Pb Pc)).
  unfold Py.truthy. rewrite joined_nonempty. cbn [negb].
  unfold joined at 1. rewrite contains_sep. fold (joined "-" a b c).
  rewrite (joined_split "-" a b c Da Db Dc). reflexivity.
Qed.

Lemma parse_date_joined_dot a b c :
  all_chars plain a = true → all_chars plain b = true → all_chars plain c = true →
  all_chars (differs ".") a = true → all_chars (differs ".") b = true →
  all_chars (differs ".") c = true →
  all_chars (differs "-") a = true → all_chars (differs "-") b = true →
  all_chars (differs "-") c = true →
  parse_date (InStr (joined "." a b c))
  = bind (attempt (date_of_parts [a; b; c] 2 1 0)) (fun r2 => Return r2).
Proof.
  intros Pa Pb Pc Da Db Dc Ma Mb Mc. unfold parse_date.
  rewrite joined_nonempty.
  rewrite (strip_plain _ (joined_plain "." a b c eq_refl Pa Pb Pc)).
  unfold Py.truthy. rewrite joined_nonempty. cbn [negb].
  rewrite (contains_no_sep "-" _ (joined_differs "." "-" a b c eq_refl Ma Mb Mc)).
  cbn [andb bind].
  unfold joined at 1. rewrite contains_sep. fold (joined "." a b c).
  by rewrite (joined_split "." a b c Da Db Dc).
Qed.

Lemma two_digits_shape n :
  0 ≤ n ≤ 99 →
  all_chars plain (two_digits n) = true
  ∧ all_chars (differs "-") (two_digits n) = true
  ∧ all_chars (differs ".") (two_digits n) = true
  ∧ Py.len (two_digits n) = 2%nat.
Proof.
  intros Hn. pose proof (two_digits_decimal n Hn) as Hd. unfold two_digits.
  split; [by apply digits_plain|].
  split; [apply digits_differ; [by left|done]|].
  split; [apply digits_differ; [by right|done]|].
  by rewrite digits_len.
Qed.

Lemma four_digits_shape n :
  0 ≤ n ≤ 9999 →
  all_chars plain (four_digits n) = true
  ∧ all_chars (differs "-") (four_digits n) = true
  ∧ all_chars (differs ".") (four_digits n) = true
  ∧ Py.len (four_digits n) = 4%nat.
Proof.
  intros Hn. pose proof (four_digits_decimal n Hn) as Hd. unfold four_digits.
  split; [by apply digits_plain|].
  split; [apply digits_differ; [by left|done]|].
  split; [apply digits_differ; [by right|done]|].
  by rewrite digits_len.
Qed.

(** The three formats of the docstring, on every date. *)
Lemma parse_date_formats y m d :
  is_date y m d →
  parse_date (InStr (two_digits d +:+ "-" +:+ two_digits m +:+ "-" +:+ four_digits y))
  = Return (Some (Date y m d))
  ∧ parse_date (InStr (four_digits y +:+ "-" +:+ two_digits m +:+ "-" +:+ two_digits d))
    = Return (Some (Date y m d))
  ∧ parse_date (InStr (two_digits d +:+ "." +:+ two_digits m +:+ "." +:+ four_digits y))
    = Return (Some (Date y m d)).
Proof.
  intros Hdate. pose proof (days_in_month_le y m) as Hle.
  pose proof Hdate as (Hy & Hm & Hd).
  destruct (two_digits_shape d) as (Pd & Dd & Od & Ld); [lia|].
  destruct (two_digits_shape m) as (Pm & Dm & Om & Lm); [lia|].
  destruct (four_digits_shape y) as (Py & Dy & Oy & Ly); [lia|].
  split; [|split].
  - change (two_digits d +:+ "-" +:+ two_digits m +:+ "-" +:+ four_digits y)
      with (joined "-" (two_digits d) (two_digits m) (four_digits y)).
    rewrite parse_date_joined_dash by done. rewrite Ld. cbn [Nat.leb].
    by rewrite (attempt_date_of_parts _ _ _ 2 1 0 y m d).
  - change (four_digits y +:+ "-" +:+ two_digits m +:+ "-" +:+ two_digits d)
      with (joined "-" (four_digits y) (two_digits m) (two_digits d)).
    rewrite parse_date_joined_dash by done. rewrite Ly. cbn [Nat.leb].
    by rewrite (attempt_date_of_parts _ _ _ 0 1 2 y m d).
  - change (two_digits d +:+ "." +:+ two_digits m +:+ "." +:+ four_digits y)
      with (joined "." (two_digits d) (two_digits m) (four_digits y)).
    rewrite parse_date_joined_dot by done.
    by rewrite (attempt_date_of_parts _ _ _ 2 1 0 y m d).
Qed.
End DateFacts.


(** C6 fails on the code.  A date text whose year is no C [int] makes
    [datetime.date] raise [OverflowError], which [parse_date] does not catch:
    the constructor raises, where the same row with a date that parses, or
    with one that does not and is caught, gives a record. *)
Theorem parse_date_overflow_escapes :
  MunicipalitiesModel.parse_date (MunicipalitiesModel.InStr "01-01-99999999999")
  = Raise Builtins.OverflowError
  ∧ MunicipalitiesModel.new
      (commune_kwargs (MunicipalitiesModel.InStr "01-01-99999999999"))
    = Raise Builtins.OverflowError
  ∧ MunicipalitiesAPI._parse_row_v1 (commune_row "01-01-99999999999")
    = Raise Builtins.OverflowError
  ∧ (∃ r, MunicipalitiesAPI._parse_row_v1 (commune_row "01-01-1934")
          = Return (Validation.Valid r)
          ∧ MunicipalitiesModel.valid_from r = Some (Builtins.Date 1934 1 1))
  ∧ (∃ r, MunicipalitiesAPI._parse_row_v1 (commune_row "31-02-1934")
          = Return (Validation.Valid r)
          ∧ MunicipalitiesModel.valid_from r = None).
Proof.
  split; [vm_compute; reflexivity|].
  split; [vm_compute; reflexivity|].
  split; [vm_compute; reflexivity|].
  split; eexists; (split; [vm_compute; reflexivity|reflexivity]).
Qed.

(** ** The country-code importer *)

Section ImporterFacts.
Import Importer.

Lemma keeps_ret {A} (a : A) : keeps (ret a).
Proof. intros w r w' p [= <- <-]. done. Qed.

Lemma keeps_raise {A} e : keeps (@raise A e).
Proof. intros w r w' p [= <- <-]. done. Qed.

Lemma keeps_bind {A B} (m : M A) (k : A → M B) :
  keeps m → (∀ a, keeps (k a)) → keeps (mbind m k).
Proof.
  intros Hm Hk w r w' p. unfold mbind.
  destruct (m w) as [[a|e] w1] eqn:Hmw.
  - intros Hkw Hp. eapply Hk; [exact Hkw|]. eapply Hm; [exact Hmw|exact Hp].
  - intros [= <- <-] Hp. eapply Hm; [exact Hmw|exact Hp].
Qed.

Lemma keeps_print line : keeps (print line).
Proof. intros w r w' p [= <- <-]. done. Qed.

Lemma keeps_now : keeps now_isoformat.
Proof. intros w r w' p [= <- <-]. done. Qed.

Lemma keeps_lookup_node q : keeps (lookup_node q).
Proof. intros w r w' p [= <- <-]. done. Qed.

Lemma keeps_exists q : keeps (exists_ q).
Proof. intros w r w' p [= <- <-]. done. Qed.

Lemma keeps_set_node q n : keeps (set_node q n).
Proof.
  intros w r w' p [= <- <-] Hp. simpl.
  destruct (decide (q = p)) as [->|Hne].
  - rewrite lookup_insert_eq. by eexists.
  - by rewrite lookup_insert_ne.
Qed.

Lemma keeps_lift {A} (o : outcome string A) : keeps (lift o).
Proof. destruct o; [apply keeps_ret|apply keeps_raise]. Qed.

Lemma keeps_open_w q : keeps (open_w q).
Proof.
  intros w r w' p. unfold open_w.
  destruct (fs w !! q) as [[| | |]|];
    try (destruct (is_dir_in (fs w) (parent_of q)));
    first [ apply keeps_set_node | intros [= <- <-]; done ].
Qed.

Lemma keeps_write q text : keeps (write q text).
Proof.
  intros w r w' p. unfold write.
  destruct (fs w !! q) as [[| | |]|]; apply keeps_set_node.
Qed.

Lemma keeps_mkdir_from n remaining q : keeps (mkdir_from n remaining q).
Proof.
  revert n. induction remaining as [|remaining IH]; intros n; simpl.
  - apply keeps_ret.
  - apply keeps_bind; [apply keeps_lookup_node|].
    intros [[| | |]|]; repeat first
      [ apply IH | apply keeps_raise
      | apply keeps_bind; [apply keeps_set_node|intros ?]
      | destruct (n =? length q)%nat ].
Qed.

Ltac keeps_step :=
  first [ apply keeps_ret | apply keeps_raise | apply keeps_print
        | apply keeps_now | apply keeps_lookup_node | apply keeps_exists
        | apply keeps_set_node | apply keeps_lift | apply keeps_open_w
        | apply keeps_write | apply keeps_mkdir_from
        | apply keeps_bind; [|intros ?] ].

Lemma keeps_read_metadata self source_type : keeps (read_metadata self source_type).
Proof.
  unfold read_metadata. keeps_step; [keeps_step|].
  destruct a; [|keeps_step]. keeps_step; [keeps_step|].
  destruct a as [[| | |]|]; keeps_step.
Qed.

Lemma keeps_write_version_file self d sf md : keeps (write_version_file self d sf md).
Proof.
  unfold write_version_file. repeat keeps_step.
  destruct (bool_decide _); repeat keeps_step.
Qed.

Lemma keeps_ensure_init_files self d : keeps (ensure_init_files self d).
Proof.
  unfold ensure_init_files, mkdir_parents. repeat keeps_step.
  destruct a0; repeat keeps_step.
Qed.

Lemma keeps_generate_python_header sf d : keeps (generate_python_header sf d).
Proof. unfold generate_python_header. repeat keeps_step. Qed.

Lemma keeps_load_workbook q : keeps (load_workbook q).
Proof.
  unfold load_workbook. keeps_step; [keeps_step|].
  destruct a as [[| | |]|]; keeps_step.
Qed.

Lemma keeps_write_names out names : keeps (write_names out names).
Proof.
  induction names as [|[lang name] names IH]; simpl; [apply keeps_ret|].
  destruct (escape_name name); repeat keeps_step. apply IH.
Qed.

Lemma keeps_write_entries out countries keys : keeps (write_entries out countries keys).
Proof.
  induction keys as [|k keys IH]; simpl; [apply keeps_ret|].
  destruct (dict_get countries k); [|apply keeps_raise].
  repeat first [ apply keeps_write_names | apply IH | keeps_step ].
Qed.

Lemma makes_open_w p : makes p (open_w p).
Proof.
  intros w a w'. unfold open_w.
  destruct (fs w !! p) as [[| | |]|];
    try (destruct (is_dir_in (fs w) (parent_of p)));
    try discriminate;
    intros [= <- <-]; simpl; rewrite lookup_insert_eq; by eexists.
Qed.

Lemma makes_bind_l p {A B} (m : M A) (k : A → M B) :
  makes p m → (∀ a, keeps (k a)) → makes p (mbind m k).
Proof.
  intros Hm Hk w b w'. unfold mbind.
  destruct (m w) as [[a|e] w1] eqn:Hmw; [|discriminate].
  intros Hkw. eapply Hk; [exact Hkw|]. eapply Hm. exact Hmw.
Qed.

Lemma makes_bind_r p {A B} (m : M A) (k : A → M B) :
  (∀ a, makes p (k a)) → makes p (mbind m k).
Proof.
  intros Hk w b w'. unfold mbind.
  destruct (m w) as [[a|e] w1] eqn:Hmw; [|discriminate].
  apply Hk.
Qed.

Lemma makes_when_true_of_makes p (m : M bool) : makes p m → makes_when_true p m.
Proof. intros Hm w w'. apply Hm. Qed.

Lemma makes_when_true_bind p {A} (m : M A) (k : A → M bool) :
  (∀ a, makes_when_true p (k a)) → makes_when_true p (mbind m k).
Proof.
  intros Hk w w'. unfold mbind.
  destruct (m w) as [[a|e] w1] eqn:Hmw; [|discriminate].
  apply Hk.
Qed.

Lemma makes_when_true_false p : makes_when_true p (ret false).
Proof. intros w w' [=]. Qed.

Lemma regenerate_makes_output self :
  makes_when_true (output_file self) (regenerate self).
Proof.
  unfold regenerate.
  apply makes_when_true_bind. intros in_exists.
  destruct in_exists; simpl.
  2:{ apply makes_when_true_bind. intros _. apply makes_when_true_false. }
  apply makes_when_true_bind. intros metadata.
  apply makes_when_true_bind. intros _.
  apply makes_when_true_bind. intros wb.
  destruct (CountryCodes.dict_get (sheets wb) sheet_name) as [ws|].
  2:{ apply makes_when_true_bind. intros _. apply makes_when_true_false. }
  do 4 (apply makes_when_true_bind; intros ?).
  apply makes_when_true_of_makes. apply makes_bind_l; [apply makes_open_w|].
  intros _.
  repeat first [ apply keeps_generate_python_header | apply keeps_write_entries
               | apply keeps_write_version_file | keeps_step ].
Qed.

End ImporterFacts.

(** C8.  With the generated file in place and [force=False],
    [import_country_codes] returns [True] and only prints: no file is
    written, and the clock is not read.  A run that returned [True] leaves
    the generated file in place, so a second run without [force] changes no
    file. *)
Theorem import_country_codes_second_run_is_noop (self : Importer.BaseImporter) :
  (∀ w, is_Some (Importer.fs w !! Importer.output_file self) →
     Importer.import_country_codes self false w
     = (Return true,
        Importer.World (Importer.fs w) (Importer.isoformat_at w) (Importer.clock w)
          (Importer.stdout w ++
             ["Output already exists: " +:+ Importer.path_str (Importer.output_file self);
              "Use --force to regenerate"])))
  ∧ (∀ force w w1,
       Importer.import_country_codes self force w = (Return true, w1) →
       is_Some (Importer.fs w1 !! Importer.output_file self)
       ∧ ∃ w2, Importer.import_country_codes self false w1 = (Return true, w2)
               ∧ Importer.fs w2 = Importer.fs w1
               ∧ Importer.clock w2 = Importer.clock w1).
Proof.
  assert (Hguard : ∀ w, is_Some (Importer.fs w !! Importer.output_file self) →
     Importer.import_country_codes self false w
     = (Return true,
        Importer.World (Importer.fs w) (Importer.isoformat_at w) (Importer.clock w)
          (Importer.stdout w ++
             ["Output already exists: " +:+ Importer.path_str (Importer.output_file self);
              "Use --force to regenerate"]))).
  { intros w Hw. unfold Importer.import_country_codes, Importer.mbind, Importer.exists_.
    rewrite (bool_decide_eq_true_2 _ Hw). simpl. by rewrite <- app_assoc. }
  split; [exact Hguard|].
  intros force w w1 Hrun.
  assert (Hout : is_Some (Importer.fs w1 !! Importer.output_file self)).
  { revert Hrun.
    unfold Importer.import_country_codes, Importer.mbind at 1, Importer.exists_ at 1.
    destruct (negb force && bool_decide
                (is_Some (Importer.fs w !! Importer.output_file self))) eqn:Hg.
    - apply andb_prop in Hg as [_ Hw]. apply bool_decide_eq_true_1 in Hw.
      simpl. intros [= <-]. exact Hw.
    - apply regenerate_makes_output. }
  split; [exact Hout|].
  eexists. split; [apply (Hguard w1 Hout)|]. split; reflexivity.
Qed.

Lemma import_country_codes_second_run_is_noop_witness :
  let first := Importer.import_country_codes importer false fresh_world in
  first.1 = Return true
  ∧ Importer.fs fresh_world !! Importer.output_file importer = None
  ∧ ∃ w2, Importer.import_country_codes importer false first.2 = (Return true, w2)
          ∧ Importer.fs w2 = Importer.fs first.2
          ∧ Importer.clock w2 = Importer.clock first.2.
Proof.
  intros first.
  assert (H1 : first.1 = Return true) by (vm_compute; reflexivity).
  split; [exact H1|]. split; [vm_compute; reflexivity|].
  refine (proj2 (proj2 (import_country_codes_second_run_is_noop importer)
                   false fresh_world first.2 _)).
  rewrite <- H1. subst first. apply surjective_pairing.
Defined.

(** * Further properties *)

(** ** Country lookup *)

Section CountryLookupFacts.
Import CountryCodes Countries CountriesByBfs CountryCodesHelpers.

Lemma upper_letter_fixed_all c : upper_letter_fixed c = true.
Proof. revert c. apply forall_ascii. vm_compute. reflexivity. Qed.

Lemma up_up c : Py.is_ascii_letter c = true → up (up c) = up c.
Proof.
  intros Hc. destruct (letter_is c Hc) as (_ & _ & _ & _ & _ & _ & _ & Hu & _).
  pose proof (upper_letter_fixed_all (up c)) as H.
  unfold upper_letter_fixed in H. rewrite Hu in H. simpl in H.
  apply andb_prop in H as [H _]. apply negb_true_iff in H.
  unfold up at 1. by rewrite H.
Qed.

Lemma dict_get_elem {V} (d : list (string * V)) k v :
  dict_get d k = Some v → (k, v) ∈ d.
Proof.
  induction d as [|[k' v'] d IH]; simpl; [done|].
  destruct (Py.str_eqb k' k) eqn:Hk.
  - intros [= ->]. apply Stdlib.Strings.String.eqb_eq in Hk as ->. by left.
  - intros H. right. by apply IH.
Qed.

Lemma get_country_in_Some asset code c :
  get_country_in asset code = Some c →
  ∃ data, (Py.upper code, data) ∈ asset ∧ c = country_of (Py.upper code) data.
Proof.
  unfold get_country_in.
  destruct (dict_get asset (Py.upper code)) as [data|] eqn:Hd; [|done].
  simpl. intros [= <-]. exists data. split; [by apply dict_get_elem|done].
Qed.

Lemma get_country_by_bfs_in_Some asset b c :
  get_country_by_bfs_in asset b = Some c →
  ∃ k data, (k, data) ∈ asset ∧ c = country_of k data
            ∧ CountryCodes.bfs_code data = b.
Proof.
  induction asset as [|[k data] asset IH]; simpl; [done|].
  destruct (Py.str_eqb (CountryCodes.bfs_code data) b) eqn:Hb.
  - intros [= <-]. exists k, data.
    apply Stdlib.Strings.String.eqb_eq in Hb. split; [by left|done].
  - intros H. destruct (IH H) as (k' & d' & Hin & Hc & Hb').
    exists k', d'. split; [by right|done].
Qed.

Lemma asset_by_bfs_finds_each :
  Forall (fun kv => get_country_by_bfs (CountryCodes.bfs_code kv.2)
                    = Some (country_of kv.1 kv.2)) COUNTRY_CODES.
Proof. by_compute. Qed.

Lemma asset_by_iso_finds_each :
  Forall (fun kv => get_country kv.1 = Some (country_of kv.1 kv.2)) COUNTRY_CODES.
Proof. by_compute. Qed.

Lemma get_all_countries_sorted : StronglySorted iso2_lt get_all_countries.
Proof. by_compute. Qed.

Lemma search_as_filter asset query language :
  search_countries_in asset query language
  = filter (name_matches query language) (get_all_countries_in asset).
Proof.
  unfold search_countries_in.
  assert (H : ∀ cs acc,
    foldl (fun results country =>
             if Py.contains (Py.lower query) (Py.lower (get_name country language))
             then results ++ [country] else results) acc cs
    = acc ++ filter (name_matches query language) cs).
  { induction cs as [|c cs IH]; intros acc; simpl.
    - by rewrite app_nil_r.
    - rewrite IH. rewrite filter_cons.
      destruct (decide (name_matches query language c)) as [Hm|Hm];
        unfold name_matches in Hm;
        destruct (Py.contains _ _); simpl in Hm;
        first [ done | by rewrite <- app_assoc | by destruct Hm ]. }
  apply (H _ []).
Qed.

Lemma search_countries_filter query language :
  search_countries query language
  = filter (name_matches query language) get_all_countries.
Proof. exact (search_as_filter COUNTRY_CODES query language). Qed.

Lemma StronglySorted_filter {A} (R : A → A → Prop) (P : A → Prop)
    `{∀ x, Decision (P x)} (l : list A) :
  StronglySorted R l → StronglySorted R (filter P l).
Proof.
  induction 1 as [|x l Hl IH Hx]; [constructor|].
  rewrite filter_cons. destruct (decide (P x)); [|done].
  constructor; [done|]. apply Forall_forall. intros y Hy.
  apply list_elem_of_filter in Hy as [_ Hy].
  by eapply Forall_forall in Hx.
Qed.

Lemma lower_byte_stable_all c : lower_byte_stable c = true.
Proof. revert c. apply forall_ascii. vm_compute. reflexivity. Qed.

Lemma lower_from_byte prev c s :
  Py.lower_from prev (String c s)
  = String (lower_byte (Py.byte_is 195 prev) c) (Py.lower_from c s).
Proof. reflexivity. Qed.

Lemma lower_from_idem s : ∀ prev prev',
  Py.byte_is 195 prev' = Py.byte_is 195 prev →
  Py.lower_from prev' (Py.lower_from prev s) = Py.lower_from prev s.
Proof.
  induction s as [|c s IH]; intros prev prev' Hp; [reflexivity|].
  rewrite lower_from_byte, lower_from_byte, Hp.
  pose proof (lower_byte_stable_all c) as H. unfold lower_byte_stable in H.
  simpl in H. rewrite andb_true_r in H.
  apply andb_prop in H as [Ht Hf].
  apply andb_prop in Ht as [Ht1 Ht2]. apply andb_prop in Hf as [Hf1 Hf2].
  apply Ascii.eqb_eq in Ht1, Hf1. apply Bool.eqb_prop in Ht2, Hf2.
  destruct (Py.byte_is 195 prev).
  - rewrite Ht1. f_equal. by apply IH.
  - rewrite Hf1. f_equal. by apply IH.
Qed.

Lemma lower_idem s : Py.lower (Py.lower s) = Py.lower s.
Proof. unfold Py.lower. by apply lower_from_idem. Qed.

Lemma startswith_spec s p : Py.startswith s p = true ↔ ∃ post, s = p +:+ post.
Proof.
  revert s. induction p as [|a p IH]; intros s.
  - split; [intros _; exists s; by rewrite append_nil_l|done].
  - destruct s as [|b s]; simpl.
    + split; [done|]. intros [post H]. by rewrite append_cons in H.
    + rewrite andb_true_iff, Ascii.eqb_eq, IH. split.
      * intros [-> [post ->]]. exists post. by rewrite append_cons.
      * intros [post H]. rewrite append_cons in H. injection H as -> ->.
        split; [done|by exists post].
Qed.

Lemma contains_spec needle hay :
  Py.contains needle hay = true ↔ ∃ pre post, hay = pre +:+ needle +:+ post.
Proof.
  induction hay as [|c hay IH].
  - cbn [Py.contains]. rewrite orb_false_r, startswith_spec. split.
    + intros [post H]. exists "", post. by rewrite append_nil_l.
    + intros [pre [post H]]. destruct pre as [|d pre].
      * rewrite append_nil_l in H. by exists post.
      * by rewrite append_cons in H.
  - cbn [Py.contains]. rewrite orb_true_iff, startswith_spec, IH. split.
    + intros [[post H]|[pre [post H]]].
      * exists "", post. by rewrite append_nil_l.
      * exists (String c pre), post. rewrite append_cons. by rewrite H.
    + intros [pre [post H]]. destruct pre as [|d pre].
      * left. rewrite append_nil_l in H. by exists post.
      * right. rewrite append_cons in H. injection H as -> ->. by exists pre, post.
Qed.

Lemma append_assoc (a b c : string) : (a +:+ b) +:+ c = a +:+ (b +:+ c).
Proof.
  induction a as [|x a IH]; [by rewrite !append_nil_l|].
  rewrite !append_cons. by rewrite IH.
Qed.

Lemma contains_trans a b c :
  Py.contains a b = true → Py.contains b c = true → Py.contains a c = true.
Proof.
  rewrite !contains_spec. intros (p1 & q1 & ->) (p2 & q2 & ->).
  exists (p2 +:+ p1), (q1 +:+ q2). by rewrite !append_assoc.
Qed.

Lemma sublist_filter_impl {A} (P Q : A → Prop)
    `{∀ x, Decision (P x)} `{∀ x, Decision (Q x)} (l : list A) :
  (∀ x, P x → Q x) → sublist (filter P l) (filter Q l).
Proof.
  intros HPQ. induction l as [|x l IH]; [done|].
  rewrite !filter_cons.
  destruct (decide (P x)) as [HP|HP].
  - rewrite decide_True by auto. by constructor.
  - destruct (decide (Q x)); [by constructor|done].
Qed.

End CountryLookupFacts.

(** X1.  [get_country] does not depend on the case of a two-letter ASCII
    code: it finds what the upper-case code finds, and the iso2 of a record
    it returns is the upper-case code. *)
Theorem get_country_case_insensitive (c1 c2 : ascii) :
  Py.is_ascii_letter c1 = true → Py.is_ascii_letter c2 = true →
  Countries.get_country (two_chars c1 c2)
  = Countries.get_country (two_chars (up c1) (up c2))
  ∧ ∀ r, Countries.get_country (two_chars c1 c2) = Some r →
         Countries.iso2 r = two_chars (up c1) (up c2).
Proof.
  intros H1 H2.
  destruct (letter_is c1 H1) as (_ & _ & _ & _ & _ & _ & _ & _ & Hl1 & _).
  destruct (letter_is c2 H2) as (_ & _ & _ & _ & _ & _ & _ & _ & Hl2 & _).
  unfold Countries.get_country, Countries.get_country_in.
  rewrite (upper_two_letters c1 c2 H1 H2), (upper_two_letters _ _ Hl1 Hl2).
  rewrite (up_up c1 H1), (up_up c2 H2). split; [done|].
  intros r. destruct (CountryCodes.dict_get _ _); [|done].
  simpl. by intros [= <-].
Qed.

Lemma get_country_case_insensitive_witness :
  Countries.get_country "ch" = Countries.get_country "CH"
  ∧ Countries.get_country "Ch" = Countries.get_country "CH".
Proof.
  split.
  - exact (proj1 (get_country_case_insensitive "c" "h" eq_refl eq_refl)).
  - exact (proj1 (get_country_case_insensitive "C" "h" eq_refl eq_refl)).
Defined.

(** X2.  On the bundled asset the two lookups are inverse to each other: the
    record [get_country] returns is the one [get_country_by_bfs] returns for
    its BFS code, and the record [get_country_by_bfs] returns for a BFS code
    has that code and is the one [get_country] returns for its iso2. *)
Theorem get_country_by_bfs_round_trip :
  (∀ code c, Countries.get_country code = Some c →
     CountriesByBfs.get_country_by_bfs (Countries.bfs_code c) = Some c)
  ∧ (∀ bfs c, CountriesByBfs.get_country_by_bfs bfs = Some c →
       Countries.bfs_code c = bfs
       ∧ Countries.get_country (Countries.iso2 c) = Some c).
Proof.
  split.
  - intros code c Hc.
    apply get_country_in_Some in Hc as (data & Hin & ->).
    pose proof asset_by_bfs_finds_each as H.
    rewrite Forall_forall in H. exact (H _ Hin).
  - intros bfs c Hc.
    apply get_country_by_bfs_in_Some in Hc as (k & data & Hin & -> & Hb).
    split; [exact Hb|].
    pose proof asset_by_iso_finds_each as H.
    rewrite Forall_forall in H. exact (H _ Hin).
Qed.

Lemma get_country_by_bfs_round_trip_witness :
  CountriesByBfs.get_country_by_bfs "8100" = Countries.get_country "CH"
  ∧ Countries.get_country "DE"
    = Some (Countries.mkCountry "DE" "8207" "DEU" "Deutschland" "Allemagne"
              "Germania" "Germany").
Proof.
  assert (H : Countries.get_country "CH"
              = Some (Countries.mkCountry "CH" "8100" "CHE" "Schweiz" "Suisse"
                        "Svizzera" "Switzerland")) by (vm_compute; reflexivity).
  split.
  - rewrite H. exact (proj1 get_country_by_bfs_round_trip "CH" _ H).
  - refine (proj2 (proj2 get_country_by_bfs_round_trip "8207"
                     (Countries.mkCountry "DE" "8207" "DEU" "Deutschland" "Allemagne"
                        "Germania" "Germany") _)).
    vm_compute. reflexivity.
Defined.

(** X3.  For a query of Latin-1 text, [search_countries] returns the records
    of [get_all_countries] whose name in the given language contains the
    query, both in lower case: all of them, in the order of
    [get_all_countries], hence strictly ascending by iso2 and without
    repetition.  A longer query narrows the search: the results of a query
    that contains this one, case apart, are among the results of this one,
    in the same order. *)
Theorem search_countries_is_filter (query language : string) :
  latin1 query = true →
  Countries.search_countries query language
  = filter (name_matches query language) Countries.get_all_countries
  ∧ sublist (Countries.search_countries query language) Countries.get_all_countries
  ∧ (∀ c, c ∈ Countries.search_countries query language
          ↔ c ∈ Countries.get_all_countries ∧ name_matches query language c)
  ∧ StronglySorted iso2_lt (Countries.search_countries query language)
  ∧ (∀ longer, latin1 longer = true →
       Py.contains (Py.lower query) (Py.lower longer) = true →
       sublist (Countries.search_countries longer language)
               (Countries.search_countries query language)).
Proof.
  intros _. rewrite search_countries_filter.
  split; [done|]. split; [apply sublist_filter|].
  split; [intros c; by rewrite list_elem_of_filter, (comm and)|].
  split; [apply StronglySorted_filter, get_all_countries_sorted|].
  intros longer _ Hin. rewrite search_countries_filter.
  apply sublist_filter_impl. intros c. unfold name_matches.
  intros Hc%Is_true_true. apply Is_true_true. by eapply contains_trans.
Qed.

Lemma search_countries_is_filter_witness :
  latin1 "ÖSTER" = true
  ∧ sublist (Countries.search_countries "Österreich" "de")
            (Countries.search_countries "ÖSTER" "de")
  ∧ StronglySorted iso2_lt (Countries.search_countries "ÖSTER" "de").
Proof.
  split; [reflexivity|].
  destruct (search_countries_is_filter "ÖSTER" "de" eq_refl)
    as (_ & _ & _ & Hs & Hn).
  split; [|exact Hs].
  apply Hn; vm_compute; reflexivity.
Defined.

(** X4.  The empty query matches every country: [search_countries('', l)] is
    [get_all_countries()] for every language code. *)
Theorem search_countries_empty_query (language : string) :
  Countries.search_countries "" language = Countries.get_all_countries.
Proof.
  rewrite search_countries_filter.
  induction Countries.get_all_countries as [|c cs IH]; [done|].
  rewrite filter_cons, IH. rewrite decide_True; [done|].
  unfold name_matches. by destruct (Py.lower (Countries.get_name c language)).
Qed.

(** X5.  The case of the query does not matter: for a query of Latin-1
    text, its lower-case form finds what the query finds. *)
Theorem search_countries_query_case (query language : string) :
  latin1 query = true →
  Countries.search_countries (Py.lower query) language
  = Countries.search_countries query language.
Proof.
  intros _.
  unfold Countries.search_countries, Countries.search_countries_in.
  by rewrite lower_idem.
Qed.

Lemma search_countries_query_case_witness :
  Countries.search_countries (Py.lower "ÖSTERreich") "de"
  = Countries.search_countries "ÖSTERreich" "de".
Proof. exact (search_countries_query_case "ÖSTERreich" "de" eq_refl). Defined.

(** X6.  The helper functions of the generated module agree with the lookup
    API on the BFS code and on the names in de, fr, it and en; for any other
    language code [get_country_name] returns [None] where
    [Country.get_name] gives the German name. *)
Theorem generated_helpers_agree (iso_code language : string) :
  CountryCodesHelpers.get_bfs_country_code iso_code
  = Countries.bfs_code <$> Countries.get_country iso_code
  ∧ (language ∈ known_languages →
     CountryCodesHelpers.get_country_name iso_code language
     = (fun c => Countries.get_name c language) <$> Countries.get_country iso_code)
  ∧ (language ∉ known_languages →
     CountryCodesHelpers.get_country_name iso_code language = None
     ∧ ∀ c, Countries.get_country iso_code = Some c →
            Countries.get_name c language = Countries.name_de c).
Proof.
  unfold CountryCodesHelpers.get_bfs_country_code,
    CountryCodesHelpers.get_country_name, Countries.get_country,
    Countries.get_country_in.
  destruct (CountryCodes.dict_get _ _) as [data|]; simpl.
  2:{ split; [done|]. split; [done|]. intros _. split; [done|]. by intros c. }
  split; [done|]. split.
  - unfold known_languages. intros Hl.
    unfold CountryCodesHelpers.names_get, Countries.get_name. simpl.
    repeat (apply elem_of_cons in Hl as [->|Hl]; [reflexivity|]).
    by apply elem_of_nil in Hl.
  - intros Hn.
    assert (Hne : ∀ l, l ∈ known_languages → Py.str_eqb language l = false).
    { intros l Hl. apply Stdlib.Strings.String.eqb_neq. by intros ->. }
    unfold CountryCodesHelpers.names_get, Countries.get_name.
    rewrite !Hne by (unfold known_languages; set_solver).
    split; [done|]. by intros c [= <-].
Qed.

Lemma generated_helpers_agree_witness :
  CountryCodesHelpers.get_country_name "ch" "fr" = Some "Suisse"
  ∧ CountryCodesHelpers.get_country_name "ch" "xx" = None.
Proof.
  split.
  - refine (eq_trans (proj1 (proj2 (generated_helpers_agree "ch" "fr")) _) _).
    + by_compute.
    + vm_compute. reflexivity.
  - refine (proj1 (proj2 (proj2 (generated_helpers_agree "ch" "xx")) _)).
    by_compute.
Defined.

(** ** Local artifacts and fallback *)

Section GeoFilesFacts.
Import GeoBase GeoFiles.
Variable unzip : string → option (list (string * string)).
Variable lib_str : lib_exn → string.

Lemma byte_is_chr n c : Py.byte_is n c = true → c = Py.chr n.
Proof.
  unfold Py.byte_is, Py.code, Py.chr. intros H. apply N.eqb_eq in H.
  rewrite <- H. symmetry. apply ascii_N_embedding.
Qed.

Lemma valid_strip_bom b : valid_utf8 (strip_bom b) = true → valid_utf8 b = true.
Proof.
  destruct b as [|a [|b' [|c rest]]]; try done.
  unfold strip_bom.
  destruct (Py.byte_is 239 a) eqn:Ha; [|done].
  destruct (Py.byte_is 187 b') eqn:Hb; [|done].
  destruct (Py.byte_is 191 c) eqn:Hc; [|done].
  apply byte_is_chr in Ha, Hb, Hc. subst. simpl. done.
Qed.

Lemma decode_with_sig_fallback b :
  try_except (decode_utf8 lib_str b) (is_lib UnicodeDecodeError)
             (fun _ => decode_utf8_sig lib_str b)
  = if valid_utf8 b then Return b else lib_raise lib_str UnicodeDecodeError.
Proof.
  unfold decode_utf8_sig, decode_utf8.
  destruct (valid_utf8 b) eqn:Hb; [done|]. simpl.
  destruct (valid_utf8 (strip_bom b)) eqn:Hs; [|done].
  apply valid_strip_bom in Hs. congruence.
Qed.

Lemma extract_raises_GeoAPIError zip_content csv_filename e :
  _extract_csv_from_zip unzip lib_str zip_content csv_filename = Raise e →
  exn_cls e = GeoAPIError.
Proof.
  unfold _extract_csv_from_zip.
  destruct (extract_body _ _ _ _) as [text|e']; [done|].
  destruct (is_lib BadZipFile e'); by intros [= <-].
Qed.

Lemma read_local_outcome self files filename from_zip :
  local_read_outcome files (in_sources self filename)
    (_read_local_csv unzip lib_str self files filename from_zip).
Proof.
  unfold _read_local_csv, exists_.
  destruct from_zip;
    destruct (files !! in_sources self filename) as [[|content|cls msg|cls msg]|] eqn:Hf;
    cbn [bind negb];
    try (right; by exists cls, msg);
    try (by left);
    unfold try_except;
    match goal with
    | |- local_read_outcome _ _ (match ?b with _ => _ end) =>
        destruct b; simpl; [done|by left]
    end.
Qed.

Lemma read_local_stat_error self files filename from_zip cls msg :
  files !! in_sources self filename = Some (NoStat cls msg) →
  _read_local_csv unzip lib_str self files filename from_zip
  = Raise (Exn (OtherException cls) msg).
Proof.
  intros Hf. unfold _read_local_csv, exists_. rewrite Hf. by destruct from_zip.
Qed.

Lemma streets_fallback_outcome self files :
  local_read_outcome files (in_sources self streets_csv_filename)
    (streets_fetch_fallback unzip lib_str self files).
Proof.
  unfold streets_fetch_fallback, try_except.
  destruct (_read_local_csv _ _ _ _ streets_zip_filename _) as [text|e]; [done|].
  apply read_local_outcome.
Qed.

Lemma fetch_or_fallback_guarded {W A} self (fetch_func fallback_func : action W A)
    (files_of : W → gmap string node) path ctx w w1 e :
  fetch_func w = (Raise e, w1) → is_RemoteFetchError e = true →
  (∀ w', local_read_outcome (files_of w') path (fallback_func w').1) →
  match (_fetch_or_fallback self fetch_func fallback_func ctx w).1 with
  | Return _ => True
  | Raise e2 =>
      exn_cls e2 = NoFallbackDataError
      ∨ (fallback_allowed self = true ∧ stat_error (files_of w1) path e2)
  end.
Proof.
  intros Hf He Hfb. unfold _fetch_or_fallback. rewrite Hf, He.
  destruct (fallback_allowed self); simpl; [|by left].
  specialize (Hfb w1). destruct (fallback_func w1) as [[a|e2] w2]; [done|].
  simpl in Hfb. destruct Hfb as [Hn|Hs].
  - unfold is_NoFallbackDataError. rewrite Hn. simpl. by left.
  - destruct Hs as (cls & msg & Hfile & ->). simpl.
    right. split; [done|]. by exists cls, msg.
Qed.

Lemma translate_newlines_no_cr s : no_cr (translate_newlines s) = true.
Proof.
  induction s as [|c s IH]; [done|].
  simpl. destruct (Py.byte_is 13 c) eqn:Hc.
  - destruct s as [|d s']; [done|].
    destruct (Py.byte_is 10 d); [exact IH|].
    change (no_cr (translate_newlines (String d s')) = true) in IH.
    cbn [no_cr]. by rewrite IH.
  - cbn [no_cr]. by rewrite Hc, IH.
Qed.

Lemma translate_newlines_id s : no_cr s = true → translate_newlines s = s.
Proof.
  induction s as [|c s IH]; [done|].
  cbn [no_cr]. intros [Hc Hs]%andb_prop. apply negb_true_iff in Hc.
  cbn [translate_newlines]. rewrite Hc. by rewrite IH.
Qed.

End GeoFilesFacts.

(** X7.  [_extract_csv_from_zip] raises nothing but [GeoAPIError].  What it
    returns is the bytes of a member of the archive, unchanged and valid
    UTF-8 (a byte order mark at their head stays): the member named by
    [csv_filename] when that is given, else the first member whose name ends
    in .csv; in both cases only if some member's name ends in .csv. *)
Theorem extract_csv_from_zip_outcomes
    (unzip : string → option (list (string * string)))
    (lib_str : GeoFiles.lib_exn → string)
    (zip_content : string) (csv_filename : option string) :
  match GeoFiles._extract_csv_from_zip unzip lib_str zip_content csv_filename with
  | Raise e => GeoBase.exn_cls e = GeoBase.GeoAPIError
  | Return text =>
      ∃ entries first rest,
        unzip zip_content = Some entries
        ∧ GeoFiles.csv_names entries.*1 = first :: rest
        ∧ GeoFiles.zip_read entries
            (if Py.truthy_opt csv_filename then default "" csv_filename else first)
          = Some text
        ∧ GeoFiles.valid_utf8 text = true
  end.
Proof.
  destruct (GeoFiles._extract_csv_from_zip _ _ _ _) as [text|e] eqn:Hx;
    [|by eapply extract_raises_GeoAPIError].
  revert Hx. unfold GeoFiles._extract_csv_from_zip, GeoFiles.extract_body.
  destruct (unzip zip_content) as [entries|]; [|simpl; done].
  destruct (GeoFiles.csv_names entries.*1) as [|first rest] eqn:Hc; [done|].
  destruct (Py.truthy_opt csv_filename) eqn:Ht.
  - destruct (GeoFiles.name_in _ _); simpl; [|done].
    destruct (GeoFiles.zip_read entries _) as [b|] eqn:Hr; [|done].
    rewrite decode_with_sig_fallback.
    destruct (GeoFiles.valid_utf8 b) eqn:Hv; simpl.
    + intros [= <-]. by exists entries, first, rest.
    + done.
  - simpl. destruct (GeoFiles.zip_read entries first) as [b|] eqn:Hr; [|done].
    rewrite decode_with_sig_fallback.
    destruct (GeoFiles.valid_utf8 b) eqn:Hv; simpl.
    + intros [= <-]. by exists entries, first, rest.
    + done.
Qed.

(** X8.  [_read_local_csv] raises [NoFallbackDataError], with one
    exception: an [OSError] that [Path.exists] raises for the path is not
    caught and leaves the function as it is.  For a path that does not exist
    the error names the path.  A CSV file read directly gives its bytes
    without a leading byte order mark and with the line ends turned into
    line feeds: no carriage return is left, and a text without carriage
    returns is not changed. *)
Theorem read_local_csv_outcomes
    (unzip : string → option (list (string * string)))
    (lib_str : GeoFiles.lib_exn → string)
    (self : GeoBase.BaseGeoAPI) (files : gmap string GeoFiles.node)
    (filename : string) :
  (∀ from_zip e,
     GeoFiles._read_local_csv unzip lib_str self files filename from_zip = Raise e →
     GeoBase.exn_cls e = GeoBase.NoFallbackDataError
     ∨ stat_error files (GeoFiles.in_sources self filename) e)
  ∧ (∀ from_zip cls msg,
       files !! GeoFiles.in_sources self filename = Some (GeoFiles.NoStat cls msg) →
       GeoFiles._read_local_csv unzip lib_str self files filename from_zip
       = Raise (GeoBase.Exn (GeoBase.OtherException cls) msg))
  ∧ (files !! GeoFiles.in_sources self filename = None →
     GeoFiles._read_local_csv unzip lib_str self files filename true
     = Raise (GeoBase.Exn GeoBase.NoFallbackDataError
                ("Fallback ZIP file not found: " +:+ GeoFiles.in_sources self filename))
     ∧ GeoFiles._read_local_csv unzip lib_str self files filename false
       = Raise (GeoBase.Exn GeoBase.NoFallbackDataError
                  ("Fallback CSV file not found: " +:+ GeoFiles.in_sources self filename)))
  ∧ (∀ content,
       files !! GeoFiles.in_sources self filename = Some (GeoFiles.File content) →
       GeoFiles.valid_utf8 (GeoFiles.strip_bom content) = true →
       ∃ text,
         GeoFiles._read_local_csv unzip lib_str self files filename false = Return text
         ∧ text = GeoFiles.translate_newlines (GeoFiles.strip_bom content)
         ∧ no_cr text = true
         ∧ (no_cr content = true → text = GeoFiles.strip_bom content)).
Proof.
  split; [|split; [|split]].
  - intros from_zip e He.
    pose proof (read_local_outcome unzip lib_str self files filename from_zip) as H.
    by rewrite He in H.
  - intros from_zip cls msg Hf. by apply read_local_stat_error.
  - intros Hnone. unfold GeoFiles._read_local_csv, GeoFiles.exists_.
    by rewrite Hnone.
  - intros content Hf Hv. eexists. split; [|split; [reflexivity|split]].
    + unfold GeoFiles._read_local_csv, GeoFiles.exists_. rewrite Hf. simpl.
      unfold GeoFiles.read_text_sig, GeoFiles.read_bytes. rewrite Hf. simpl.
      unfold GeoFiles.decode_utf8_sig, GeoFiles.decode_utf8. by rewrite Hv.
    + apply translate_newlines_no_cr.
    + intros Hc. apply translate_newlines_id.
      destruct content as [|a [|b [|c rest]]]; try done.
      unfold GeoFiles.strip_bom.
      destruct (_ && _); [|done].
      cbn [no_cr] in Hc.
      by repeat (apply andb_prop in Hc as [_ Hc]).
Qed.

Lemma read_local_csv_outcomes_witness :
  GeoFiles._read_local_csv toy_unzip toy_lib_str (api true) local_files
    "export.csv" false
  = Return ("Name;PLZ" +:+ LF +:+ "Bister;3983" +:+ LF)
  ∧ GeoFiles._read_local_csv toy_unzip toy_lib_str (api true) local_files
      "amtliches-strassenverzeichnis_ch_2056.csv" false
    = Raise (GeoBase.Exn (GeoBase.OtherException "PermissionError")
               "[Errno 13] Permission denied")
  ∧ GeoFiles._read_local_csv toy_unzip toy_lib_str (api true) local_files
      "amtliches-strassenverzeichnis_ch_2056.csv.zip" true
    = Raise (GeoBase.Exn GeoBase.NoFallbackDataError
               ("Fallback ZIP file not found: " +:+
                "sources/swisstopo/amtliches-strassenverzeichnis_ch_2056.csv.zip")).
Proof.
  split; [|split].
  - destruct (proj2 (proj2 (proj2 (read_local_csv_outcomes toy_unzip toy_lib_str
                (api true) local_files "export.csv"))) exported_csv)
      as (text & -> & -> & _).
    + vm_compute. reflexivity.
    + vm_compute. reflexivity.
    + vm_compute. reflexivity.
  - refine (proj1 (proj2 (read_local_csv_outcomes toy_unzip toy_lib_str
              (api true) local_files "amtliches-strassenverzeichnis_ch_2056.csv"))
              false _ _ _).
    vm_compute. reflexivity.
  - refine (proj1 (proj1 (proj2 (proj2 (read_local_csv_outcomes toy_unzip toy_lib_str
              (api true) local_files
              "amtliches-strassenverzeichnis_ch_2056.csv.zip"))) _)).
    vm_compute. reflexivity.
Defined.

(** X9.  When the remote fetch of an API raises [RemoteFetchError], its
    [_get_csv_content] returns a text or raises [NoFallbackDataError], with
    one exception: with fallback allowed, an [OSError] that [Path.exists]
    raises for the fallback file is not caught and leaves the call.  For
    the streets that file is the extracted CSV, since a failure on the ZIP
    of whatever kind makes the fallback turn to the CSV.  The fallback
    leaves the world as the remote fetch left it. *)
Theorem get_csv_content_fallback_outcomes {W : Type}
    (unzip : string → option (list (string * string)))
    (lib_str : GeoFiles.lib_exn → string)
    (files_of : W → gmap string GeoFiles.node)
    (self : GeoBase.BaseGeoAPI) (reference_date : string)
    (fetch_remote : GeoBase.action W string) (w w1 : W) (e : GeoBase.exn) :
  fetch_remote w = (Raise e, w1) →
  GeoBase.is_RemoteFetchError e = true →
  Forall (fun '(get_csv_content, filename) =>
            match (get_csv_content w).1 : outcome GeoBase.exn string with
            | Return _ => True
            | Raise e2 =>
                GeoBase.exn_cls e2 = GeoBase.NoFallbackDataError
                ∨ (GeoBase.fallback_allowed self = true
                   ∧ stat_error (files_of w1) (GeoFiles.in_sources self filename) e2)
            end
            ∧ (get_csv_content w).2 = w1)
    [ (GeoFiles.postal_get_csv_content unzip lib_str files_of self fetch_remote,
       GeoFiles.postal_zip_filename);
      (GeoFiles.streets_get_csv_content unzip lib_str files_of self fetch_remote,
       GeoFiles.streets_csv_filename);
      (GeoFiles.municipalities_get_csv_content unzip lib_str files_of self
         reference_date fetch_remote,
       GeoFiles.municipalities_csv_filename reference_date) ].
Proof.
  intros Hf He.
  assert (Hw : ∀ fb ctx,
    (GeoBase._fetch_or_fallback self fetch_remote
       (GeoFiles.reading files_of fb) ctx w).2 = w1).
  { intros fb ctx. unfold GeoBase._fetch_or_fallback, GeoFiles.reading.
    rewrite Hf, He. destruct (negb _); [done|].
    destruct (fb (files_of w1)) as [a|e2]; [done|].
    by destruct (GeoBase.is_NoFallbackDataError e2). }
  repeat constructor.
  - eapply (fetch_or_fallback_guarded self _ _ files_of); [done..|].
    intros w'. apply read_local_outcome.
  - apply Hw.
  - eapply (fetch_or_fallback_guarded self _ _ files_of); [done..|].
    intros w'. apply streets_fallback_outcome.
  - apply Hw.
  - eapply (fetch_or_fallback_guarded self _ _ files_of); [done..|].
    intros w'. apply read_local_outcome.
  - apply Hw.
Qed.

Lemma get_csv_content_fallback_outcomes_witness :
  GeoFiles.postal_get_csv_content toy_unzip toy_lib_str
    (fun _ : list string => cached_files) (api true) remote_down []
  = (Return "Ortschaftsname;PLZ", ["fetch"])
  ∧ (GeoFiles.streets_get_csv_content toy_unzip toy_lib_str
       (fun _ : list string => local_files) (api true) remote_down []).1
    = Raise (GeoBase.Exn (GeoBase.OtherException "PermissionError")
               "[Errno 13] Permission denied")
  ∧ (GeoFiles.streets_get_csv_content toy_unzip toy_lib_str
       (fun _ : list string => local_files) (api true) remote_down []).2 = ["fetch"].
Proof.
  split; [vm_compute; reflexivity|]. split; [vm_compute; reflexivity|].
  pose proof (get_csv_content_fallback_outcomes toy_unzip toy_lib_str
                (fun _ : list string => local_files) (api true) "01-01-2025"
                remote_down [] ["fetch"] _ eq_refl eq_refl) as H.
  apply Forall_cons_1 in H as [_ H]. apply Forall_cons_1 in H as [[_ H] _].
  exact H.
Defined.

(** ** Postal locality records *)

Section PostalRecordFacts.
Import Validation PostalCodesModel.

Lemma str_length_append (a b : string) :
  Stdlib.Strings.String.length (a +:+ b)
  = (Stdlib.Strings.String.length a + Stdlib.Strings.String.length b)%nat.
Proof.
  induction a as [|c a IH]; [by rewrite append_nil_l|].
  rewrite append_cons. simpl. by rewrite IH.
Qed.

Lemma len_append (a b : string) : Py.len (a +:+ b) = (Py.len a + Py.len b)%nat.
Proof.
  induction a as [|c a IH]; [by rewrite append_nil_l|].
  rewrite append_cons. cbn [Py.len]. rewrite IH. lia.
Qed.

(** Two ways to cut one text: one head is the other head and a piece. *)
Lemma append_eq_split (a b x y : string) :
  a +:+ x = b +:+ y →
  ∃ t, (b = a +:+ t ∧ x = t +:+ y) ∨ (a = b +:+ t ∧ y = t +:+ x).
Proof.
  revert b. induction a as [|c a IH]; intros b.
  - rewrite append_nil_l. intros ->. exists b. left. by rewrite append_nil_l.
  - destruct b as [|d b].
    + rewrite append_nil_l. intros <-. exists (String c a). right.
      by rewrite append_nil_l.
    + rewrite !append_cons. intros [= -> H].
      destruct (IH b H) as [t [[-> ->]|[-> ->]]]; exists t;
        [left|right]; by rewrite append_cons.
Qed.

(** A piece of no code point that is followed by a hyphen is empty. *)
Lemma no_code_point_before_hyphen (t x y : string) :
  Py.len t = 0%nat → "-" +:+ x = t +:+ ("-" +:+ y) → t = "" ∧ x = y.
Proof.
  destruct t as [|c t].
  - intros _. rewrite append_nil_l. intros H.
    apply (f_equal (fun s => match s with String _ r => r | EmptyString => s end)) in H.
    done.
  - cbn [Py.len]. rewrite append_cons. intros Hlen [= <- _].
    exfalso. revert Hlen. vm_compute. discriminate.
Qed.

Lemma full_postal_code_cases r :
  additional_digit r ≠ "" →
  (additional_digit r = "00" ∧ full_postal_code r = postal_code r)
  ∨ (additional_digit r ≠ "00"
     ∧ full_postal_code r = postal_code r +:+ "-" +:+ additional_digit r).
Proof.
  intros Hd. unfold full_postal_code.
  assert (Py.truthy (additional_digit r) = true) as ->.
  { by destruct (additional_digit r). }
  unfold Py.str_eqb.
  destruct (Stdlib.Strings.String.eqb_spec (additional_digit r) "00") as [->|Hne];
    [by left|by right].
Qed.

End PostalRecordFacts.

(** X11.  [full_postal_code] tells records apart.  Take two records whose
    postal codes have four characters and whose additional digits have two,
    as the patterns of the two fields require of every record, whichever
    characters they take for digits: if their full postal codes are the
    same, so are their postal codes and their additional digits. *)
Theorem full_postal_code_injective (r1 r2 : PostalCodesModel.PostalLocalityV1) :
  Py.len (PostalCodesModel.postal_code r1) = 4%nat →
  Py.len (PostalCodesModel.postal_code r2) = 4%nat →
  Py.len (PostalCodesModel.additional_digit r1) = 2%nat →
  Py.len (PostalCodesModel.additional_digit r2) = 2%nat →
  PostalCodesModel.full_postal_code r1 = PostalCodesModel.full_postal_code r2 →
  PostalCodesModel.postal_code r1 = PostalCodesModel.postal_code r2
  ∧ PostalCodesModel.additional_digit r1 = PostalCodesModel.additional_digit r2.
Proof.
  intros Lp1 Lp2 La1 La2 Hfull.
  assert (Ha1 : PostalCodesModel.additional_digit r1 ≠ "").
  { intros H. by rewrite H in La1. }
  assert (Ha2 : PostalCodesModel.additional_digit r2 ≠ "").
  { intros H. by rewrite H in La2. }
  destruct (full_postal_code_cases r1 Ha1) as [[E1 F1]|[N1 F1]],
           (full_postal_code_cases r2 Ha2) as [[E2 F2]|[N2 F2]];
    rewrite F1, F2 in Hfull.
  - split; [done|congruence].
  - exfalso. apply (f_equal Py.len) in Hfull.
    rewrite !len_append in Hfull. simpl in Hfull. lia.
  - exfalso. apply (f_equal Py.len) in Hfull.
    rewrite !len_append in Hfull. simpl in Hfull. lia.
  - destruct (append_eq_split _ _ _ _ Hfull) as [t [[Hp Hrest]|[Hp Hrest]]].
    + assert (Ht : Py.len t = 0%nat).
      { apply (f_equal Py.len) in Hp. rewrite len_append in Hp. lia. }
      destruct (no_code_point_before_hyphen _ _ _ Ht Hrest) as [-> Ha].
      split; [|done]. rewrite Hp. clear.
      induction (PostalCodesModel.postal_code r1) as [|c s IH]; [done|].
      rewrite append_cons. by rewrite <- IH.
    + assert (Ht : Py.len t = 0%nat).
      { apply (f_equal Py.len) in Hp. rewrite len_append in Hp. lia. }
      destruct (no_code_point_before_hyphen _ _ _ Ht Hrest) as [-> Ha].
      split; [|done]. rewrite Hp. clear.
      induction (PostalCodesModel.postal_code r2) as [|c s IH]; [done|].
      rewrite append_cons. by rewrite IH.
Qed.

Lemma full_postal_code_injective_witness :
  PostalCodesModel.full_postal_code zurich_02 = "8001-02"
  ∧ PostalCodesModel.locality_name zurich_02
    ≠ PostalCodesModel.locality_name sihlpost_02
  ∧ PostalCodesModel.postal_code zurich_02 = PostalCodesModel.postal_code sihlpost_02
  ∧ PostalCodesModel.additional_digit zurich_02
    = PostalCodesModel.additional_digit sihlpost_02.
Proof.
  split; [reflexivity|]. split; [discriminate|].
  exact (full_postal_code_injective zurich_02 sihlpost_02
           eq_refl eq_refl eq_refl eq_refl eq_refl).
Defined.

(** ** Street records *)

Section StreetFacts.
Import Validation StreetsModel.

Lemma digit_byte_facts_all c : digit_byte_facts c = true.
Proof. revert c. apply forall_ascii. vm_compute. reflexivity. Qed.

Lemma digit_byte k :
  decimal k →
  differs "," (Py.digit_chr k) = true ∧ differs " " (Py.digit_chr k) = true
  ∧ plain (Py.digit_chr k) = true.
Proof.
  intros Hk. destruct (digit_is k Hk) as (Hd & _).
  pose proof (digit_byte_facts_all (Py.digit_chr k)) as H.
  unfold digit_byte_facts in H. rewrite Hd in H. simpl in H.
  apply andb_prop in H as [H H3]. by apply andb_prop in H as [H1 H2].
Qed.

Lemma digits_no_comma ds :
  Forall decimal ds → all_chars (differs ",") (digits_str ds) = true.
Proof.
  unfold all_chars, differs. induction 1 as [|k ds Hk _ IH]; simpl; [done|].
  destruct (digit_byte k Hk) as (Hc & _). unfold differs in Hc.
  apply negb_true_iff in Hc. by rewrite Hc, IH.
Qed.

Lemma default_of_Some {A} (d x : A) : default d (Some x) = x.
Proof. reflexivity. Qed.

Lemma literal_append c (s : string) : String c "" +:+ s = String c s.
Proof. reflexivity. Qed.

Lemma code_truthy ds rest : is_code ds → Py.truthy (digits_str ds +:+ rest) = true.
Proof. intros [Hne _]. by destruct ds. Qed.

(** [",".join(xs)] splits back into [xs]. *)
Lemma split_join_comma xs :
  xs ≠ [] → Forall (fun x => all_chars (differs ",") x = true) xs →
  Py.split "," (join "," xs) = xs.
Proof.
  intros Hne Hxs. induction Hxs as [|x xs Hx Hxs IH]; [done|].
  destruct xs as [|y xs]; [simpl; by apply split_no_sep|].
  change (join "," (x :: y :: xs)) with (x +:+ "," +:+ join "," (y :: xs)).
  rewrite literal_append, (split_app _ _ _ Hx). by rewrite IH.
Qed.

Lemma split_space_head s :
  Py.split "," (String " " s)
  = match Py.split "," s with
    | h :: t => String " " h :: t
    | [] => [String " " EmptyString]
    end.
Proof. reflexivity. Qed.

(** [", ".join(xs)] splits at its commas into the first text and the others
    with a space before them. *)
Lemma split_join_comma_space xs :
  Forall (fun x => all_chars (differs ",") x = true) xs →
  Py.split "," (join ", " xs)
  = match xs with
    | [] => [EmptyString]
    | x :: rest => x :: (String " " <$> rest)
    end.
Proof.
  induction 1 as [|x xs Hx Hxs IH]; [done|].
  destruct xs as [|y xs]; [simpl; by apply split_no_sep|].
  change (join ", " (x :: y :: xs))
    with (x +:+ String "," (String " " (join ", " (y :: xs)))).
  rewrite (split_app _ _ _ Hx), split_space_head, IH. done.
Qed.

Lemma rstrip_code ds rest :
  Forall decimal ds → Py.rstrip (digits_str ds +:+ rest) = digits_str ds +:+ Py.rstrip rest.
Proof.
  induction 1 as [|k ds Hk _ IH]; [by rewrite !append_nil_l|].
  simpl digits_str. rewrite !append_cons.
  destruct (digit_byte k Hk) as (_ & _ & Hp).
  cbn [Py.rstrip]. unfold Py.isspace_all. rewrite (lstrip_plain _ _ Hp). simpl.
  by rewrite IH.
Qed.

Lemma lstrip_space s : Py.lstrip (String " " s) = Py.lstrip s.
Proof. reflexivity. Qed.

Lemma lstrip_code ds rest :
  is_code ds → Py.lstrip (digits_str ds +:+ rest) = digits_str ds +:+ rest.
Proof.
  intros [Hne Hds]. destruct Hds as [|k ds Hk _]; [done|].
  simpl digits_str. rewrite append_cons.
  destruct (digit_byte k Hk) as (_ & _ & Hp). by apply lstrip_plain.
Qed.

(** The rest of an entry after its code, stripped on the right: empty, or a
    space and more. *)
Lemma rstrip_space_head s :
  Py.rstrip (String " " s) = "" ∨ ∃ t, Py.rstrip (String " " s) = String " " t.
Proof.
  cbn [Py.rstrip]. destruct (Py.isspace_all (String " " s)); [by left|].
  right. by eexists.
Qed.

Lemma split_ws_go_code ds : ∀ fuel cur rest,
  Forall decimal ds →
  split_ws_go (length ds + fuel) cur (digits_str ds +:+ rest)
  = split_ws_go fuel (cur +:+ digits_str ds) rest.
Proof.
  induction ds as [|k ds IH]; intros fuel cur rest Hds.
  - simpl. rewrite append_nil_l.
    assert (cur +:+ "" = cur) as ->; [|done].
    induction cur as [|c cur IHc]; [done|]. by rewrite append_cons, IHc.
  - inversion Hds as [|? ? Hk Hds']; subst.
    destruct (digit_byte k Hk) as (_ & _ & Hp).
    simpl digits_str. rewrite append_cons. cbn [length Nat.add split_ws_go].
    rewrite (drop_space_plain _ _ Hp). rewrite IH by done.
    f_equal. clear. induction cur as [|c cur IHc]; [done|].
    by rewrite !append_cons, IHc.
Qed.

Lemma split_ws_code ds tail :
  is_code ds → tail = "" ∨ (∃ t, tail = String " " t) →
  ∃ more, split_ws (digits_str ds +:+ tail) = digits_str ds :: more.
Proof.
  intros [Hne Hds] Htail. unfold split_ws.
  rewrite str_length_append.
  assert (Stdlib.Strings.String.length (digits_str ds) = length ds) as ->.
  { clear. induction ds as [|k ds IH]; simpl; [done|]. by rewrite IH. }
  replace (S (length ds + Stdlib.Strings.String.length tail))
    with (length ds + S (Stdlib.Strings.String.length tail))%nat by lia.
  rewrite split_ws_go_code by done. rewrite append_nil_l.
  assert (Ht : Py.truthy (digits_str ds) = true) by (by destruct ds).
  destruct Htail as [->|[t ->]].
  - exists []. simpl. unfold flush. by rewrite Ht.
  - eexists. cbn [split_ws_go]. cbn [Py.drop_space]. simpl Py.byte_in.
    cbn [orb]. unfold flush. rewrite Ht. reflexivity.
Qed.

(** What [postal_code_list] makes of one piece: an entry, with or without a
    space before it. *)
Lemma entry_code e (lead : bool) :
  is_code e.1 →
  let piece := if lead then String " " (zip_entry e) else zip_entry e in
  Py.truthy (Py.strip piece) = true
  ∧ ∃ more, split_ws (Py.strip piece) = digits_str e.1 :: more.
Proof.
  intros Hc piece.
  assert (Hs : Py.strip piece
               = digits_str e.1 +:+ Py.rstrip (String " " e.2)).
  { unfold piece, Py.strip, zip_entry. destruct lead.
    - rewrite lstrip_space, (lstrip_code _ _ Hc), literal_append.
      apply rstrip_code, Hc.
    - rewrite (lstrip_code _ _ Hc), literal_append. apply rstrip_code, Hc. }
  rewrite Hs. split; [by apply code_truthy|].
  apply split_ws_code; [done|apply rstrip_space_head].
Qed.

Lemma postal_code_fold pieces codes :
  Forall2 (fun piece code =>
             Py.truthy (Py.strip piece) = true
             ∧ ∃ more, split_ws (Py.strip piece) = code :: more) pieces codes →
  ∀ acc,
    foldl (fun codes entry =>
             let entry := Py.strip entry in
             if Py.truthy entry then
               match split_ws entry with
               | first :: _ => codes ++ [first]
               | [] => codes
               end
             else codes) acc pieces
    = acc ++ codes.
Proof.
  induction 1 as [|piece code pieces codes [Ht [more Hm]] _ IH]; intros acc; simpl.
  - by rewrite app_nil_r.
  - rewrite Ht, Hm, IH. by rewrite <- app_assoc.
Qed.

End StreetFacts.

(** X12.  [children_esid_list] gives back the ESIDs that were joined with
    commas into STR_CHILDREN: for ESIDs that are runs of digits, the list of
    [','.join(esids)] is [esids]. *)
Theorem children_esid_list_of_join
    (self : StreetsModel.StreetV1) (esids : list (list Z)) :
  Forall is_code esids →
  StreetsModel.children_esids self = Some (join "," (digits_str <$> esids)) →
  StreetsModel.children_esid_list self = digits_str <$> esids.
Proof.
  intros Hes Hch. unfold StreetsModel.children_esid_list. rewrite Hch.
  destruct esids as [|ds esids]; [done|].
  assert (Ht : Py.truthy_opt (Some (join "," (digits_str <$> ds :: esids))) = true).
  { inversion Hes as [|? ? [Hne _] _]; subst. simpl.
    destruct ds as [|k ds]; [done|]. by destruct esids. }
  rewrite Ht. cbn [negb]. rewrite default_of_Some.
  rewrite split_join_comma; [|done|].
  2:{ apply Forall_fmap. eapply Forall_impl; [exact Hes|].
      intros x [_ Hx]. by apply digits_no_comma. }
  clear Ht Hch. induction Hes as [|x xs [Hne Hx] _ IH]; [done|].
  rewrite fmap_cons. cbn [omap list_omap].
  rewrite (strip_plain _ (digits_plain _ Hx)).
  assert (Py.truthy (digits_str x) = true) as -> by (by destruct x).
  f_equal. apply IH.
Qed.

Lemma children_esid_list_of_join_witness :
  StreetsModel.children_esid_list (street "8400 Winterthur" (Some "10001,10002"))
  = ["10001"; "10002"].
Proof.
  refine (children_esid_list_of_join
            (street "8400 Winterthur" (Some "10001,10002"))
            [[1; 0; 0; 0; 1]; [1; 0; 0; 0; 2]] _ eq_refl).
  repeat constructor; unfold decimal; done || lia.
Defined.

(** X13.  [postal_code_list] gives the postal codes of a ZIP_LABEL: for
    entries made of a code of digits, a space and a locality without comma,
    joined by a comma and a space, the list holds the codes in order,
    whatever the localities are. *)
Theorem postal_code_list_of_entries
    (self : StreetsModel.StreetV1) (entries : list (list Z * string)) :
  Forall (fun e => is_code e.1 ∧ Validation.all_chars (differs ",") e.2 = true)
    entries →
  StreetsModel.postal_codes self = join ", " (zip_entry <$> entries) →
  StreetsModel.postal_code_list self = (fun e => digits_str e.1) <$> entries.
Proof.
  intros Hes Hpc. unfold StreetsModel.postal_code_list. rewrite Hpc.
  destruct entries as [|e entries]; [done|].
  assert (Ht : Py.truthy (join ", " (zip_entry <$> e :: entries)) = true).
  { inversion Hes as [|? ? [[Hne _] _] _]; subst. simpl.
    unfold zip_entry. destruct (e.1) as [|k ds]; [done|]. by destruct entries. }
  rewrite Ht. cbn [negb].
  rewrite split_join_comma_space.
  2:{ apply Forall_fmap. eapply Forall_impl; [exact Hes|].
      intros x [[_ Hx] Hl]. simpl. unfold zip_entry.
      rewrite all_chars_app, (digits_no_comma _ Hx), literal_append. simpl.
      unfold Validation.all_chars in *. simpl. exact Hl. }
  rewrite fmap_cons.
  rewrite (postal_code_fold _ ((fun e => digits_str e.1) <$> e :: entries)); [done|].
  inversion Hes as [|? ? [Hc _] Hes']; subst.
  rewrite fmap_cons. constructor; [exact (entry_code e false Hc)|].
  clear -Hes'. induction Hes' as [|x xs [Hc _] _ IH]; [constructor|].
  rewrite !fmap_cons. constructor; [exact (entry_code x true Hc)|exact IH].
Qed.

Lemma postal_code_list_of_entries_witness :
  StreetsModel.postal_code_list (street "8400 Winterthur, 8408 Winterthur" None)
  = ["8400"; "8408"].
Proof.
  refine (postal_code_list_of_entries
            (street "8400 Winterthur, 8408 Winterthur" None)
            [([8; 4; 0; 0], "Winterthur"); ([8; 4; 0; 8], "Winterthur")] _ eq_refl).
  repeat constructor; unfold decimal; done || lia.
Defined.

(** X14.  A blank canton code is accepted for a postal locality and stored
    as the empty text (the Liechtenstein rows), and rejected for a street:
    with an empty canton code the street constructor fails on that field. *)
Theorem blank_canton_code_postal_and_street :
  (∀ kw, Py.strip (PostalCodesModel.kw_canton_code kw) = "" →
     ("canton_code" ∉ PostalCodesModel.field_errors kw)
     ∧ ∀ r, PostalCodesModel.new kw = Validation.Valid r →
            PostalCodesModel.canton_code r = "")
  ∧ (∀ kw, StreetsModel.kw_canton_code kw = "" →
       ∃ errors, StreetsModel.new kw = Validation.Invalid errors
                 ∧ "canton_code" ∈ errors).
Proof.
  split.
  - intros kw Hb.
    assert (Hu : Py.strip (PostalCodesModel.uppercase_canton_code
                             (PostalCodesModel.kw_canton_code kw)) = "").
    { unfold PostalCodesModel.uppercase_canton_code. rewrite Hb.
      by rewrite andb_false_r. }
    split.
    + apply canton_code_not_rejected. by rewrite Hu.
    + intros r. unfold PostalCodesModel.new.
      destruct (PostalCodesModel.field_errors kw); [|done].
      intros [= <-]. exact Hu.
  - intros kw Hb.
    assert (Hin : "canton_code" ∈ StreetsModel.field_errors kw).
    { unfold StreetsModel.field_errors. rewrite Hb.
      do 5 (apply elem_of_app; right). apply elem_of_app. left.
      vm_compute. by left. }
    unfold StreetsModel.new.
    destruct (StreetsModel.field_errors kw) as [|f fs] eqn:He.
    + by apply elem_of_nil in Hin.
    + by eexists.
Qed.

Lemma blank_canton_code_postal_and_street_witness :
  (∀ r, PostalCodesModel.new (zurich_kwargs "  ") = Validation.Valid r →
        PostalCodesModel.canton_code r = "")
  ∧ ∃ errors,
      StreetsModel.new (street_kwargs "" "8400 Winterthur" None None)
      = Validation.Invalid errors ∧ "canton_code" ∈ errors.
Proof.
  split.
  - exact (proj2 (proj1 blank_canton_code_postal_and_street (zurich_kwargs "  ")
                    eq_refl)).
  - exact (proj2 blank_canton_code_postal_and_street
             (street_kwargs "" "8400 Winterthur" None None) eq_refl).
Defined.

(** X15.  A parent reference that is white space only: the street record
    keeps it as the empty text, so [has_parent] holds; the municipality
    record has no parent. *)
Theorem blank_parent_reference (s : string) :
  s ≠ "" → Py.strip s = "" →
  (∀ kw r, StreetsModel.kw_parent_esid kw = Some s →
     StreetsModel.new kw = Validation.Valid r →
     StreetsModel.parent_esid r = Some "" ∧ StreetsModel.has_parent r = true)
  ∧ (∀ kw r, MunicipalitiesModel.kw_parent kw = Some s →
       MunicipalitiesModel.new kw = Return (Validation.Valid r) →
       MunicipalitiesModel.parent r = None
       ∧ MunicipalitiesModel.has_parent r = false).
Proof.
  intros Hne Hs. apply Stdlib.Strings.String.eqb_neq in Hne. split.
  - intros kw r Hp. unfold StreetsModel.new.
    destruct (StreetsModel.field_errors kw); [|done].
    intros [= <-]. unfold StreetsModel.has_parent. simpl.
    rewrite Hp. unfold StreetsModel.handle_empty_string, Py.str_eqb.
    rewrite Hne. simpl. by rewrite Hs.
  - intros kw r Hp. unfold MunicipalitiesModel.new, bind.
    destruct (MunicipalitiesModel.parse_date _); [|done].
    destruct (MunicipalitiesModel.parse_date _); [|done].
    destruct (MunicipalitiesModel.field_errors kw); [|done].
    intros [= <-]. unfold MunicipalitiesModel.has_parent. simpl.
    rewrite Hp. unfold MunicipalitiesModel.handle_empty_string, Py.str_eqb.
    rewrite Hne, Hs. done.
Qed.

Lemma blank_parent_reference_witness :
  ∃ r, StreetsModel.new (street_kwargs "ZH" "8400 Winterthur" (Some "  ") None)
       = Validation.Valid r
       ∧ StreetsModel.parent_esid r = Some ""
       ∧ StreetsModel.has_parent r = true.
Proof.
  eexists. split; [vm_compute; reflexivity|].
  refine (proj1 (blank_parent_reference "  " _ eq_refl)
            (street_kwargs "ZH" "8400 Winterthur" (Some "  ") None) _ eq_refl _).
  - discriminate.
  - vm_compute. reflexivity.
Defined.

(** ** Municipality queries *)

Section QueryFacts.
Import GeoBase MunicipalitiesModel MunicipalitiesAPI MunicipalitiesQueries.

Lemma all_matches_split test data :
  all_matches test data ++ all_matches (fun m => negb (test m)) data ≡ₚ data.
Proof.
  induction data as [|m data IH]; [done|].
  simpl. destruct (test m); simpl.
  - by rewrite IH.
  - rewrite <- Permutation_middle. by rewrite IH.
Qed.

Lemma all_matches_Forall test data : Forall (fun m => test m = true) (all_matches test data).
Proof.
  induction data as [|m data IH]; [constructor|].
  simpl. destruct (test m) eqn:Hm; [by constructor|done].
Qed.

Lemma first_match_by_code data code :
  NoDup (historical_code <$> data) →
  first_match (historical_code_is code) data = by_historical_code data !! code.
Proof.
  unfold by_historical_code.
  assert (H : ∀ (d : gmap string MunicipalityV1),
    NoDup (historical_code <$> data) →
    (∀ m, m ∈ data → d !! historical_code m = None) →
    foldl (fun d m => <[historical_code m := m]> d) d data !! code
    = match first_match (historical_code_is code) data with
      | Some m => Some m
      | None => d !! code
      end).
  { induction data as [|m data IH]; intros d Hnd Hd; [done|].
    rewrite fmap_cons in Hnd. apply NoDup_cons in Hnd as [Hm Hnd].
    cbn [foldl first_match]. unfold historical_code_is at 1, Py.str_eqb.
    destruct (Stdlib.Strings.String.eqb_spec (historical_code m) code) as [<-|Hne].
    - assert (Hfresh : ∀ x, x ∈ data → historical_code x ≠ historical_code m).
      { intros x Hx Heq. apply Hm. rewrite <- Heq.
        apply list_elem_of_fmap. by exists x. }
      assert (Hn : foldl (fun d m => <[historical_code m := m]> d)
                     (<[historical_code m := m]> d) data !! historical_code m
                   = Some m).
      { clear IH Hd Hnd Hm. revert d. induction data as [|x data IHd]; intros d.
        - apply lookup_insert_eq.
        - cbn [foldl]. rewrite insert_insert_ne.
          + apply IHd. intros y Hy. apply Hfresh. by right.
          + apply Hfresh. by left. }
      exact Hn.
    - rewrite IH; [|done|].
      + destruct (first_match _ data); [done|]. by rewrite lookup_insert_ne.
      + intros x Hx. rewrite lookup_insert_ne.
        * apply Hd. by right.
        * intros Heq. apply Hm. rewrite Heq. apply list_elem_of_fmap. by exists x. }
  intros Hnd. rewrite H; [|done|intros; apply lookup_empty].
  destruct (first_match _ data); [done|by rewrite lookup_empty].
Qed.

Lemma by_historical_code_fmap g ms :
  keeps_hierarchy g →
  by_historical_code (g <$> ms) = g <$> by_historical_code ms.
Proof.
  intros Hg. unfold by_historical_code.
  assert (H : ∀ (d : gmap string MunicipalityV1),
    foldl (fun d m => <[historical_code m := m]> d) (g <$> d) (g <$> ms)
    = g <$> foldl (fun d m => <[historical_code m := m]> d) d ms).
  { induction ms as [|m ms IH]; intros d; [done|].
    rewrite fmap_cons. cbn [foldl]. destruct (Hg m) as (Hc & _).
    rewrite Hc, <- fmap_insert. apply IH. }
  rewrite <- (H ∅). by rewrite fmap_empty.
Qed.

Lemma is_level_1_keeps g m : keeps_hierarchy g → is_level_1 (g m) = is_level_1 m.
Proof. intros Hg. destruct (Hg m) as (_ & Hl & _). unfold is_level_1. by rewrite Hl. Qed.

Lemma walk_fmap g by_code n m :
  keeps_hierarchy g → walk (g <$> by_code) n (g m) = walk by_code n m.
Proof.
  intros Hg. revert m. induction n as [|n IH]; intros m; [done|].
  simpl. destruct (Hg m) as (_ & _ & Hp & _). rewrite Hp.
  destruct (Py.truthy_opt (parent m)); [|done].
  rewrite lookup_fmap. destruct (by_code !! default "" (parent m)) as [p|]; [|done].
  simpl. rewrite (is_level_1_keeps g p Hg).
  destruct (Hg p) as (_ & _ & _ & Hs & Hn). rewrite Hs, Hn.
  destruct (is_level_1 p); [done|apply IH].
Qed.

Lemma cantons_of_fmap g by_code m :
  keeps_hierarchy g → cantons_of (g <$> by_code) (g m) = cantons_of by_code m.
Proof.
  intros Hg. unfold cantons_of. rewrite (is_level_1_keeps g m Hg).
  destruct (Hg m) as (_ & _ & Hp & Hs & Hn). rewrite Hp, Hs, Hn.
  by rewrite (walk_fmap g by_code _ m Hg).
Qed.

Lemma enrich_one_keeps by_code : keeps_hierarchy (enrich_one by_code).
Proof. intros m. unfold enrich_one. by destruct (cantons_of by_code m). Qed.

Lemma cantons_of_shape by_code m :
  (cantons_of by_code m).2 = None → (cantons_of by_code m).1 = None.
Proof.
  unfold cantons_of. destruct (is_level_1 m); [done|].
  destruct (Py.truthy_opt (parent m)); [|done].
  generalize max_depth. intros n. revert m. induction n as [|n IH]; intros m; [done|].
  simpl. destruct (Py.truthy_opt (parent m)); [|done].
  destruct (by_code !! default "" (parent m)) as [p|]; [|done].
  destruct (is_level_1 p); [done|apply IH].
Qed.

Section Cached.
Context {W : Type}.
Variable dict_reader : string → ascii → list (gmap string string).
Variable self : BaseGeoAPI.
Variable fetch_remote fetch_fallback : action W string.

Lemma get_enriched_data_cached (s : api_state W) data :
  _enriched_cache s = Some data →
  _get_enriched_data dict_reader self fetch_remote fetch_fallback s = (Return data, s).
Proof. intros Hc. unfold _get_enriched_data. by rewrite Hc. Qed.

Lemma get_enriched_data_success (s s1 : api_state W) data :
  _get_enriched_data dict_reader self fetch_remote fetch_fallback s = (Return data, s1) →
  _enriched_cache s1 = Some data.
Proof.
  unfold _get_enriched_data.
  destruct (_enriched_cache s) as [cached|] eqn:Hc; [by intros [= <- <-]|].
  destruct (_fetch_or_fallback _ _ _ _ _) as [[csv|e] w1]; [|done].
  destruct (parse_all _ _) as [un|e]; [|done].
  by intros [= <- <-].
Qed.

Lemma get_enriched_data_failure (s s1 : api_state W) e :
  _get_enriched_data dict_reader self fetch_remote fetch_fallback s = (Raise e, s1) →
  _enriched_cache s = None ∧ _enriched_cache s1 = None.
Proof.
  unfold _get_enriched_data.
  destruct (_enriched_cache s) as [cached|] eqn:Hc; [done|].
  destruct (_fetch_or_fallback _ _ _ _ _) as [[csv|e'] w1]; [|by intros [= <- <-]].
  destruct (parse_all _ _) as [un|e']; [done|].
  by intros [= <- <-].
Qed.

End Cached.

End QueryFacts.

(** X16.  The enriched snapshot is fetched once per object: after
    [_get_enriched_data] has returned, every later call and every query
    returns from the cache and leaves the object and the world as they are
    (no fetch is made); a call that raised has left the cache empty. *)
Theorem enriched_data_is_cached {W : Type}
    (dict_reader : string → ascii → list (gmap string string))
    (self : GeoBase.BaseGeoAPI) (fetch_remote fetch_fallback : GeoBase.action W string)
    (s s1 : MunicipalitiesQueries.api_state W) :
  (∀ data,
     MunicipalitiesQueries._get_enriched_data dict_reader self fetch_remote
       fetch_fallback s = (Return data, s1) →
     MunicipalitiesQueries._get_enriched_data dict_reader self fetch_remote
       fetch_fallback s1 = (Return data, s1)
     ∧ (∀ A (f : list MunicipalitiesModel.MunicipalityV1 → A),
          MunicipalitiesQueries.on_data dict_reader self fetch_remote
            fetch_fallback f s1 = (Return (f data), s1)))
  ∧ (∀ e,
       MunicipalitiesQueries._get_enriched_data dict_reader self fetch_remote
         fetch_fallback s = (Raise e, s1) →
       MunicipalitiesQueries._enriched_cache s1 = None).
Proof.
  split.
  - intros data Hd. apply get_enriched_data_success in Hd.
    pose proof (get_enriched_data_cached dict_reader self fetch_remote
                  fetch_fallback s1 data Hd) as Hc.
    split; [exact Hc|]. intros A f.
    unfold MunicipalitiesQueries.on_data. by rewrite Hc.
  - intros e He. by apply get_enriched_data_failure in He as [_ ?].
Qed.

Lemma enriched_data_is_cached_witness :
  let first := MunicipalitiesQueries._get_enriched_data toy_reader (api false)
                 remote_csv no_fallback (MunicipalitiesQueries.ApiState None 0%nat) in
  MunicipalitiesQueries.world first.2 = 1%nat
  ∧ (MunicipalitiesQueries.get_active toy_reader (api false) remote_csv no_fallback
       first.2).2 = first.2.
Proof.
  intros first.
  assert (H : ∃ data, first = (Return data, first.2)).
  { eexists. vm_compute. reflexivity. }
  destruct H as [data H].
  split; [vm_compute; reflexivity|].
  destruct (enriched_data_is_cached toy_reader (api false) remote_csv no_fallback
              (MunicipalitiesQueries.ApiState None 0%nat) first.2) as [Hok _].
  destruct (Hok data H) as [_ Hq].
  unfold MunicipalitiesQueries.get_active. by rewrite Hq.
Defined.

(** X17.  [get_active] and [get_historical] split the enriched records: with
    the data in the cache, each record is in exactly one of the two lists
    (together they are a rearrangement of the data), the active ones have no
    end date and the historical ones have one. *)
Theorem active_and_historical_split {W : Type}
    (dict_reader : string → ascii → list (gmap string string))
    (self : GeoBase.BaseGeoAPI) (fetch_remote fetch_fallback : GeoBase.action W string)
    (s : MunicipalitiesQueries.api_state W)
    (data : list MunicipalitiesModel.MunicipalityV1) :
  MunicipalitiesQueries._enriched_cache s = Some data →
  ∃ active historical,
    MunicipalitiesQueries.get_active dict_reader self fetch_remote fetch_fallback s
    = (Return active, s)
    ∧ MunicipalitiesQueries.get_historical dict_reader self fetch_remote
        fetch_fallback s = (Return historical, s)
    ∧ active ++ historical ≡ₚ data
    ∧ Forall (fun m => MunicipalitiesModel.valid_to m = None) active
    ∧ Forall (fun m => MunicipalitiesModel.valid_to m ≠ None) historical.
Proof.
  intros Hc.
  pose proof (get_enriched_data_cached dict_reader self fetch_remote
                fetch_fallback s data Hc) as Hd.
  eexists _, _.
  unfold MunicipalitiesQueries.get_active, MunicipalitiesQueries.get_historical,
    MunicipalitiesQueries.on_data. rewrite Hd.
  split; [reflexivity|]. split; [reflexivity|].
  split; [apply all_matches_split|]. split.
  - eapply Forall_impl; [apply all_matches_Forall|].
    intros m. unfold MunicipalitiesModel.is_active.
    by destruct (MunicipalitiesModel.valid_to m).
  - eapply Forall_impl; [apply all_matches_Forall|].
    intros m. unfold MunicipalitiesModel.is_active.
    by destruct (MunicipalitiesModel.valid_to m).
Qed.

Lemma active_and_historical_split_witness :
  ∃ active historical,
    MunicipalitiesQueries.get_active toy_reader (api false) remote_csv no_fallback
      (MunicipalitiesQueries.ApiState (Some snapshot) 0%nat)
    = (Return active, MunicipalitiesQueries.ApiState (Some snapshot) 0%nat)
    ∧ active ++ historical ≡ₚ snapshot.
Proof.
  destruct (active_and_historical_split toy_reader (api false) remote_csv no_fallback
              (MunicipalitiesQueries.ApiState (Some snapshot) 0%nat) snapshot eq_refl)
    as (active & historical & Ha & _ & Hp & _).
  by exists active, historical.
Defined.

(** X18.  With the records in the cache and their historical codes pairwise
    distinct, [get_by_historical_code] returns the record the enrichment
    resolves a parent reference to (nothing when the code is not in the
    snapshot), and leaves the object as it is. *)
Theorem get_by_historical_code_is_index {W : Type}
    (dict_reader : string → ascii → list (gmap string string))
    (self : GeoBase.BaseGeoAPI) (fetch_remote fetch_fallback : GeoBase.action W string)
    (s : MunicipalitiesQueries.api_state W)
    (data : list MunicipalitiesModel.MunicipalityV1) (code : string) :
  MunicipalitiesQueries._enriched_cache s = Some data →
  NoDup (MunicipalitiesModel.historical_code <$> data) →
  MunicipalitiesQueries.get_by_historical_code dict_reader self fetch_remote
    fetch_fallback code s
  = (Return (MunicipalitiesAPI.by_historical_code data !! code), s).
Proof.
  intros Hc Hnd.
  unfold MunicipalitiesQueries.get_by_historical_code, MunicipalitiesQueries.on_data.
  rewrite (get_enriched_data_cached dict_reader self fetch_remote fetch_fallback
             s data Hc).
  by rewrite (first_match_by_code data code Hnd).
Qed.

Lemma get_by_historical_code_is_index_witness :
  MunicipalitiesQueries.get_by_historical_code toy_reader (api false) remote_csv
    no_fallback "10053" (MunicipalitiesQueries.ApiState (Some snapshot) 0%nat)
  = (Return (MunicipalitiesAPI.by_historical_code snapshot !! "10053"),
     MunicipalitiesQueries.ApiState (Some snapshot) 0%nat).
Proof.
  apply get_by_historical_code_is_index; [reflexivity|by_compute].
Defined.

(** X19.  Enriching twice is enriching once: the enrichment of an enriched
    snapshot changes no record. *)
Theorem enrich_with_cantons_idempotent
    (municipalities : list MunicipalitiesModel.MunicipalityV1) :
  MunicipalitiesAPI._enrich_with_cantons
    (MunicipalitiesAPI._enrich_with_cantons municipalities)
  = MunicipalitiesAPI._enrich_with_cantons municipalities.
Proof.
  rewrite !enrich_as_map.
  set (by_code := MunicipalitiesAPI.by_historical_code municipalities).
  pose proof (enrich_one_keeps by_code) as Hk.
  rewrite (by_historical_code_fmap _ _ Hk). fold by_code.
  rewrite <- list_fmap_compose. apply list_fmap_ext. intros i m _. simpl.
  unfold MunicipalitiesAPI.enrich_one at 1.
  rewrite (cantons_of_fmap _ by_code m Hk).
  unfold MunicipalitiesAPI.enrich_one.
  by destruct (MunicipalitiesAPI.cantons_of by_code m).
Qed.

(** X20.  An enriched record never has a canton code without a canton name:
    where [canton_code] is present, [canton_name] is present too. *)
Theorem enriched_code_has_name
    (municipalities : list MunicipalitiesModel.MunicipalityV1)
    (m : MunicipalitiesModel.MunicipalityV1) :
  m ∈ MunicipalitiesAPI._enrich_with_cantons municipalities →
  is_Some (MunicipalitiesModel.canton_code m) →
  is_Some (MunicipalitiesModel.canton_name m).
Proof.
  rewrite enrich_as_map. intros Hm.
  apply list_elem_of_fmap in Hm as (m0 & -> & _).
  pose proof (cantons_of_shape (MunicipalitiesAPI.by_historical_code municipalities) m0)
    as Hs.
  unfold MunicipalitiesAPI.enrich_one.
  destruct (MunicipalitiesAPI.cantons_of _ m0) as [cc [cn|]]; simpl in *.
  - intros _. by eexists.
  - rewrite (Hs eq_refl). by intros ?%is_Some_None.
Qed.

Lemma enriched_code_has_name_witness :
  is_Some (MunicipalitiesModel.canton_name
             (MunicipalitiesModel.model_copy_cantons commune_X (Some "ZH")
                (Some "Zürich"))).
Proof.
  apply (enriched_code_has_name snapshot).
  - apply (list_elem_of_lookup_2 _ 2%nat). vm_compute. reflexivity.
  - eexists. reflexivity.
Defined.

(** ** The importer's writes *)

Section ImporterFrame.
Import Importer.

Lemma frames_ret p {A} (a : A) : frames p (ret a).
Proof. by intros w r w' [= <- <-]. Qed.

Lemma frames_raise p {A} e : frames p (@raise A e).
Proof. by intros w r w' [= <- <-]. Qed.

Lemma frames_print p line : frames p (print line).
Proof. by intros w r w' [= <- <-]. Qed.

Lemma frames_now p : frames p now_isoformat.
Proof. by intros w r w' [= <- <-]. Qed.

Lemma frames_lookup_node p q : frames p (lookup_node q).
Proof. by intros w r w' [= <- <-]. Qed.

Lemma frames_exists p q : frames p (exists_ q).
Proof. by intros w r w' [= <- <-]. Qed.

Lemma frames_lift p {A} (o : outcome string A) : frames p (lift o).
Proof. destruct o; [apply frames_ret|apply frames_raise]. Qed.

Lemma frames_set_node p q n : q ≠ p → frames p (set_node q n).
Proof. intros Hne w r w' [= <- <-] _. simpl. by rewrite lookup_insert_ne. Qed.

Lemma frames_bind p {A B} (m : M A) (k : A → M B) :
  frames p m → (∀ a, frames p (k a)) → frames p (mbind m k).
Proof.
  intros Hm Hk w r w'. unfold mbind.
  destruct (m w) as [[a|e] w1] eqn:Hmw.
  - intros Hkw Hp. pose proof (Hm _ _ _ Hmw Hp) as H1.
    rewrite <- H1. eapply Hk; [exact Hkw|]. by rewrite H1.
  - intros [= <- <-] Hp. eapply Hm; [exact Hmw|exact Hp].
Qed.

Lemma frames_open_w p q : q ≠ p → frames p (open_w q).
Proof.
  intros Hne w r w'. unfold open_w.
  destruct (fs w !! q) as [[| | |]|];
    try (destruct (is_dir_in (fs w) (parent_of q)));
    first [ by apply frames_set_node | by intros [= <- <-] ].
Qed.

Lemma frames_write p q text : q ≠ p → frames p (write q text).
Proof.
  intros Hne w r w'. unfold write.
  destruct (fs w !! q) as [[| | |]|]; by apply frames_set_node.
Qed.

Lemma frames_mkdir_from p n remaining q : frames p (mkdir_from n remaining q).
Proof.
  revert n. induction remaining as [|remaining IH]; intros n w r w' Hrun Hp.
  - by injection Hrun as <- <-.
  - simpl in Hrun. unfold mbind at 1, lookup_node in Hrun. revert Hrun.
    match goal with
    | |- context [match ?x with _ => _ end] => destruct x as [[| | |]|] eqn:Hd
    end; intros Hrun.
    + by apply (IH _ _ _ _ Hrun).
    + destruct (n =? length q)%nat; by injection Hrun as <- <-.
    + destruct (n =? length q)%nat; by injection Hrun as <- <-.
    + destruct (n =? length q)%nat; by injection Hrun as <- <-.
    + assert (Hne : take n q ≠ p).
      { intros Heq. destruct Hp as [x Hx]. subst p.
        by pose proof (eq_trans (eq_sym Hd) Hx). }
      unfold mbind, set_node in Hrun.
      apply IH in Hrun. simpl in Hrun.
      rewrite lookup_insert_ne in Hrun by done. by apply Hrun.
Qed.

Ltac frames_step :=
  first [ apply frames_ret | apply frames_raise | apply frames_print
        | apply frames_now | apply frames_lookup_node | apply frames_exists
        | apply frames_lift | apply frames_mkdir_from
        | apply frames_set_node; done | apply frames_open_w; done
        | apply frames_write; done
        | apply frames_bind; [|intros ?] ].

Lemma frames_read_metadata p self source_type : frames p (read_metadata self source_type).
Proof.
  unfold read_metadata. frames_step; [frames_step|].
  destruct a; [|frames_step]. frames_step; [frames_step|].
  destruct a as [[| | |]|]; frames_step.
Qed.

Lemma frames_load_workbook p q : frames p (load_workbook q).
Proof.
  unfold load_workbook. frames_step; [frames_step|].
  destruct a as [[| | |]|]; frames_step.
Qed.

Lemma frames_generate_python_header p sf d : frames p (generate_python_header sf d).
Proof. unfold generate_python_header. repeat frames_step. Qed.

Lemma frames_write_version_file p self d sf md :
  d ++ ["VERSION"] ≠ p → frames p (write_version_file self d sf md).
Proof.
  intros Hne. unfold write_version_file. repeat frames_step.
  destruct (bool_decide _); repeat frames_step.
Qed.

Lemma frames_ensure_init_files p self d : frames p (ensure_init_files self d).
Proof.
  intros w r w'. unfold ensure_init_files, mbind at 1.
  destruct (mkdir_parents d w) as [[[]|e] w1] eqn:Hmk.
  - intros Hrun Hp.
    pose proof (frames_mkdir_from p _ _ _ _ _ _ Hmk Hp) as H1.
    rewrite <- H1. rewrite <- H1 in Hp. clear H1 Hmk.
    revert Hrun. unfold mbind at 1, exists_. cbn beta iota.
    match goal with
    | |- context [bool_decide ?P] => destruct (bool_decide P) eqn:Hb
    end.
    + by intros [= <- <-].
    + assert (Hne : d ++ ["__init__.py"] ≠ p).
      { intros Heq. apply bool_decide_eq_false_1 in Hb. apply Hb.
        destruct Hp as [x Hx]. exists x. subst p. exact Hx. }
      intros Hrun. refine (frames_bind p _ _ _ _ _ _ _ Hrun Hp).
      * by apply frames_open_w.
      * intros _. by apply frames_write.
  - intros [= <- <-] Hp. exact (frames_mkdir_from p _ _ _ _ _ _ Hmk Hp).
Qed.

Lemma frames_write_names p out names : out ≠ p → frames p (write_names out names).
Proof.
  intros Hne. induction names as [|[lang name] names IH]; simpl; [apply frames_ret|].
  destruct (escape_name name); repeat frames_step. apply IH.
Qed.

Lemma frames_write_entries p out countries keys :
  out ≠ p → frames p (write_entries out countries keys).
Proof.
  intros Hne. induction keys as [|k keys IH]; simpl; [apply frames_ret|].
  destruct (dict_get countries k); [|apply frames_raise].
  repeat first [ by apply frames_write_names | apply IH | frames_step ].
Qed.

Lemma frames_regenerate p self :
  p ≠ output_file self → p ≠ version_file self → frames p (regenerate self).
Proof.
  intros Ho Hv. unfold regenerate.
  frames_step; [frames_step|]. destruct a; simpl; [|repeat frames_step].
  frames_step; [apply frames_read_metadata|].
  frames_step; [frames_step|].
  frames_step; [apply frames_load_workbook|].
  destruct (CountryCodes.dict_get (sheets a1) sheet_name) as [ws|];
    [|repeat frames_step].
  repeat first [ apply frames_ensure_init_files | apply frames_generate_python_header
               | by apply frames_write_entries | by apply frames_write_version_file
               | frames_step ].
Qed.

Lemma cell_eqb_eq a b : cell_eqb a b = true ↔ a = b.
Proof.
  destruct a as [|s|n], b as [|t|m]; simpl; try (split; [discriminate|congruence]).
  - done.
  - unfold Py.str_eqb. rewrite Stdlib.Strings.String.eqb_eq. split; congruence.
  - rewrite Z.eqb_eq. split; congruence.
Qed.

Lemma dict_set_keys d k v x :
  x ∈ (dict_set d k v).*1 → x ∈ d.*1 ∨ x = k.
Proof.
  induction d as [|[k' v'] d IH]; simpl.
  - intros ->%list_elem_of_singleton. by right.
  - destruct (cell_eqb k' k); simpl; [by left|].
    intros [->|Hx]%elem_of_cons; [left; by left|].
    destruct (IH Hx) as [?|?]; [left; by right|by right].
Qed.

Lemma dict_set_NoDup d k v : NoDup d.*1 → NoDup (dict_set d k v).*1.
Proof.
  induction d as [|[k' v'] d IH]; simpl; intros Hnd.
  - apply NoDup_singleton.
  - apply NoDup_cons in Hnd as [Hk' Hnd].
    destruct (cell_eqb k' k) eqn:He; simpl.
    + by apply NoDup_cons.
    + apply NoDup_cons. split; [|by apply IH].
      intros [?| ->]%dict_set_keys; [done|].
      by rewrite (proj2 (cell_eqb_eq k k)) in He.
Qed.

Lemma dict_set_Forall (P : cell * parsed → Prop) d k v :
  Forall P d → P (k, v) → Forall P (dict_set d k v).
Proof.
  intros Hd Hkv. induction Hd as [|[k' v'] d Hx Hd IH]; simpl.
  - by constructor.
  - destruct (cell_eqb k' k) eqn:He.
    + apply cell_eqb_eq in He as ->. by constructor.
    + by constructor.
Qed.

Lemma parse_row_short countries row :
  (length row < 23)%nat → parse_row countries row = Raise "IndexError".
Proof.
  intros Hlen. unfold parse_row, row_cell.
  rewrite (lookup_ge_None_2 row 22) by lia.
  repeat (match goal with |- context [row !! ?i] => destruct (row !! i) end;
          simpl; try done).
Qed.

Lemma parse_row_long countries row :
  (23 ≤ length row)%nat →
  NoDup countries.*1 →
  ∃ countries', parse_row countries row = Return countries'
    ∧ NoDup countries'.*1
    ∧ ∀ (P : cell * parsed → Prop),
        Forall P countries → (∀ kv, entry_from_row kv row → P kv) →
        Forall P countries'.
Proof.
  intros Hlen Hnd. unfold parse_row, row_cell.
  destruct (lookup_lt_is_Some_2 row 0) as [c0 H0]; [lia|].
  destruct (lookup_lt_is_Some_2 row 2) as [c2 H2]; [lia|].
  destruct (lookup_lt_is_Some_2 row 3) as [c3 H3]; [lia|].
  destruct (lookup_lt_is_Some_2 row 4) as [c4 H4]; [lia|].
  destruct (lookup_lt_is_Some_2 row 5) as [c5 H5]; [lia|].
  destruct (lookup_lt_is_Some_2 row 6) as [c6 H6]; [lia|].
  destruct (lookup_lt_is_Some_2 row 7) as [c7 H7]; [lia|].
  destruct (lookup_lt_is_Some_2 row 22) as [c22 H22]; [lia|].
  rewrite H0, H2, H3, H4, H5, H6, H7, H22. simpl.
  destruct (cell_eqb c22 (CStr "J")) eqn:Hv; simpl;
    [destruct (cell_truthy c0) eqn:Hb; simpl;
       [destruct (cell_truthy c2) eqn:Hi; simpl|]|];
    try (eexists; split; [reflexivity|]; split; [done|]; by intros P HP _).
  apply cell_eqb_eq in Hv as ->.
  eexists. split; [reflexivity|]. split; [by apply dict_set_NoDup|].
  intros P HP Hrow. apply dict_set_Forall; [done|].
  apply Hrow. repeat split; try done. by exists c0.
Qed.

Lemma parse_rows_short countries rows :
  Exists (fun row => (length row < 23)%nat) rows →
  parse_rows countries rows = Raise "IndexError".
Proof.
  revert countries. induction rows as [|row rows IH]; intros countries Hex.
  - by apply Exists_nil in Hex.
  - simpl. destruct (decide (length row < 23)%nat) as [Hs|Hl].
    + by rewrite parse_row_short.
    + apply Exists_cons in Hex as [?|Hex]; [done|].
      destruct (parse_row countries row) as [c|e] eqn:Hr; simpl.
      * by apply IH.
      * revert Hr. unfold parse_row, row_cell.
        repeat (match goal with |- context [row !! ?i] => destruct (row !! i) end;
                simpl; try by intros [= <-]).
        by destruct (_ && _).
Qed.

Lemma parse_rows_long countries rows (P : cell * parsed → Prop) :
  Forall (fun row => (23 ≤ length row)%nat) rows →
  NoDup countries.*1 →
  Forall P countries →
  (∀ kv row, row ∈ rows → entry_from_row kv row → P kv) →
  ∃ countries', parse_rows countries rows = Return countries'
    ∧ NoDup countries'.*1 ∧ Forall P countries'.
Proof.
  intros Hall. revert countries.
  induction Hall as [|row rows Hlen Hall IH]; intros countries Hnd HP Hrows.
  - by exists countries.
  - simpl. destruct (parse_row_long countries row Hlen Hnd) as (c1 & -> & Hnd1 & HP1).
    simpl. apply IH; [done| |].
    + apply HP1; [done|]. intros kv Hkv. apply (Hrows kv row); [by left|done].
    + intros kv r Hr. apply Hrows. by right.
Qed.

Lemma read_metadata_reads_only self source_type w r w1 :
  read_metadata self source_type w = (r, w1) → w1 = w.
Proof.
  unfold read_metadata, mbind, exists_, lookup_node.
  repeat (match goal with
          | |- context [bool_decide ?P] => destruct (bool_decide P)
          | |- context [match ?x with Some _ => _ | None => _ end] => destruct x
          | |- context [match ?x with Dir => _ | _ => _ end] => destruct x
          end; cbn beta iota);
    by intros [= _ <-].
Qed.

Lemma mbind_Return {A B} (m : M A) (k : A → M B) w a w1 :
  m w = (Return a, w1) → mbind m k w = k a w1.
Proof. intros Hm. unfold mbind. by rewrite Hm. Qed.

Lemma mbind_Raise {A B} (m : M A) (k : A → M B) w e w1 :
  m w = (Raise e, w1) → mbind m k w = (Raise e, w1).
Proof. intros Hm. unfold mbind. by rewrite Hm. Qed.

End ImporterFrame.

(** X21.  Without the source workbook (and with [force] or no generated
    file yet) [import_country_codes] prints one error line and returns
    [False]: no file or directory is made, and the clock is not read. *)
Theorem import_without_source (self : Importer.BaseImporter) (force : bool)
    (w : Importer.world) :
  Importer.fs w !! Importer.excel_path self = None →
  force = true ∨ Importer.fs w !! Importer.output_file self = None →
  Importer.import_country_codes self force w
  = (Return false,
     Importer.World (Importer.fs w) (Importer.isoformat_at w) (Importer.clock w)
       (Importer.stdout w ++
          ["ERROR: Source file not found: "
           +:+ Importer.path_str (Importer.excel_path self)])).
Proof.
  intros Hsrc Hguard.
  unfold Importer.import_country_codes, Importer.mbind at 1, Importer.exists_ at 1.
  assert (Hg : negb force && bool_decide
                 (is_Some (Importer.fs w !! Importer.output_file self)) = false).
  { destruct Hguard as [->|Hout]; [done|].
    rewrite Hout, bool_decide_eq_false_2; [apply andb_false_r|]. by intros [? ?]. }
  rewrite Hg. unfold Importer.regenerate, Importer.mbind, Importer.exists_.
  rewrite Hsrc, bool_decide_eq_false_2; [done|]. by intros [? ?].
Qed.

Lemma import_without_source_witness :
  (Importer.import_country_codes importer true empty_world).1 = Return false.
Proof.
  rewrite (import_without_source importer true empty_world);
    [reflexivity|reflexivity|by left].
Defined.

(** X22.  Whatever its outcome (a result or an exception),
    [import_country_codes] leaves every file and directory that existed
    before as it was, except the generated module [country_codes.py] and the
    [VERSION] file beside it. *)
Theorem import_changes_only_its_outputs (self : Importer.BaseImporter) (force : bool)
    (w w' : Importer.world) (r : outcome string bool) (p : Importer.path) :
  Importer.import_country_codes self force w = (r, w') →
  is_Some (Importer.fs w !! p) →
  p ≠ Importer.output_file self →
  p ≠ version_file self →
  Importer.fs w' !! p = Importer.fs w !! p.
Proof.
  intros Hrun Hp Ho Hv. revert Hrun.
  unfold Importer.import_country_codes, Importer.mbind at 1, Importer.exists_ at 1.
  destruct (negb force && _).
  - by intros [= <- <-].
  - intros Hrun. by apply (frames_regenerate p self Ho Hv w r w' Hrun).
Qed.

Lemma import_changes_only_its_outputs_witness :
  let run := Importer.import_country_codes importer false fresh_world in
  run.1 = Return true
  ∧ Importer.fs run.2 !! Importer.excel_path importer
    = Some (Importer.XlsxFile sample_workbook).
Proof.
  intros run. split; [vm_compute; reflexivity|].
  rewrite (import_changes_only_its_outputs importer false fresh_world run.2 run.1
             (Importer.excel_path importer)).
  - vm_compute. reflexivity.
  - apply surjective_pairing.
  - by_compute.
  - by_compute.
  - by_compute.
Defined.

(** X23.  The loop over the data rows either raises [IndexError], exactly
    when some row has fewer than 23 cells, or returns entries with pairwise
    distinct keys, each of which comes from a row marked 'J' whose ISO2 cell
    is the key and whose BFS cell gives the code, both not empty. *)
Theorem parse_rows_outcome (rows : list (list Importer.cell)) :
  match Importer.parse_rows [] rows with
  | Return countries =>
      Forall (fun row => (23 ≤ length row)%nat) rows
      ∧ NoDup countries.*1
      ∧ Forall (fun kv => ∃ row, row ∈ rows ∧ entry_from_row kv row) countries
  | Raise e =>
      e = "IndexError" ∧ Exists (fun row => (length row < 23)%nat) rows
  end.
Proof.
  destruct (decide (Forall (fun row => (23 ≤ length row)%nat) rows)) as [Hall|Hex].
  - destruct (parse_rows_long [] rows
                (fun kv => ∃ row, row ∈ rows ∧ entry_from_row kv row) Hall)
      as (countries & -> & Hnd & HP).
    + constructor.
    + constructor.
    + intros kv row Hr Hkv. by exists row.
    + done.
  - apply not_Forall_Exists in Hex; [|intros row; apply _].
    assert (Hshort : Exists (fun row => (length row < 23)%nat) rows).
    { eapply Exists_impl; [exact Hex|]. intros row Hr. simpl in Hr. lia. }
    by rewrite (parse_rows_short [] rows Hshort).
Qed.

(** X24.  A workbook with a data row of fewer than 23 cells makes
    [import_country_codes] raise before anything is written: the call ends
    in an exception and the file system is as before. *)
Theorem import_fails_before_writing (self : Importer.BaseImporter) (force : bool)
    (w : Importer.world) (wb : Importer.workbook) (ws : list (list Importer.cell)) :
  force = true ∨ Importer.fs w !! Importer.output_file self = None →
  Importer.fs w !! Importer.excel_path self = Some (Importer.XlsxFile wb) →
  CountryCodes.dict_get (Importer.sheets wb) Importer.sheet_name = Some ws →
  Exists (fun row => (length row < 23)%nat) (drop 1 ws) →
  ∃ e w', Importer.import_country_codes self force w = (Raise e, w')
          ∧ Importer.fs w' = Importer.fs w.
Proof.
  intros Hguard Hsrc Hsheet Hshort.
  assert (Hg : negb force && bool_decide
                 (is_Some (Importer.fs w !! Importer.output_file self)) = false).
  { destruct Hguard as [->|Hout]; [done|].
    rewrite Hout, bool_decide_eq_false_2; [apply andb_false_r|]. by intros [? ?]. }
  unfold Importer.import_country_codes.
  rewrite (mbind_Return (Importer.exists_ _) _ w _ w eq_refl), Hg.
  unfold Importer.regenerate.
  rewrite (mbind_Return _ _ w true w).
  2:{ unfold Importer.exists_. rewrite bool_decide_eq_true_2; [done|].
      rewrite Hsrc. by eexists. }
  cbn [negb].
  destruct (Importer.read_metadata self "bfs" w) as [[md|e] w1] eqn:Hmd;
    pose proof (read_metadata_reads_only _ _ _ _ _ Hmd) as ->.
  2:{ rewrite (mbind_Raise _ _ _ _ _ Hmd). by eexists _, _. }
  rewrite (mbind_Return _ _ _ _ _ Hmd). cbv zeta.
  rewrite (mbind_Return (Importer.print _) _ w tt _ eq_refl).
  match goal with |- context [Importer.mbind _ _ ?w2] =>
    assert (Hwb : Importer.load_workbook (Importer.excel_path self) w2
                  = (Return wb, w2))
  end.
  { unfold Importer.load_workbook.
    erewrite (mbind_Return (Importer.lookup_node _)); [|reflexivity].
    cbn [Importer.fs]. by rewrite Hsrc. }
  rewrite (mbind_Return _ _ _ _ _ Hwb), Hsheet.
  rewrite (mbind_Raise _ _ _ "IndexError" _
             (f_equal (fun o => Importer.lift o _)
                (parse_rows_short [] (drop 1 ws) Hshort))).
  by eexists _, _.
Qed.

Lemma import_fails_before_writing_witness :
  ∃ e w', Importer.import_country_codes importer false short_world = (Raise e, w')
          ∧ Importer.fs w' = Importer.fs short_world.
Proof.
  apply (import_fails_before_writing importer false short_world short_workbook
           [replicate 23 (Importer.CStr "header"); [Importer.CInt 8100]]).
  - right. vm_compute. reflexivity.
  - vm_compute. reflexivity.
  - reflexivity.
  - apply Exists_cons_hd. simpl. lia.
Defined.
